(** * Bond calculation service: a shallow embedding

    The development follows [lib/services/bonds/BondCalculations.ts]
    (class [BondCalculationsService]) and the input builder of
    [app/emisor/create-bond/components/Step4Dynamic.tsx].

    - JavaScript numbers and [Decimal] values are exact rationals ([Q]);
      rounding of binary floating point is not modelled.
    - The PostgreSQL tables reached through Prisma are lists of rows; a
      generated primary key is drawn from a counter kept with the tables.
    - [async] methods are functions on an explicit world (database, clock,
      and two ghost logs: the inputs handed to the calculator and the
      [onProgress] notifications).  A thrown exception keeps the writes made
      so far, except inside [$transaction], which rolls the database back.
    - [FinancialCalculator], [JSON.parse], [parseInt] and [parseFloat] are
      not part of the modelled sources; they are parameters. *)

From Stdlib Require Import List String Ascii ZArith QArith Qabs Bool Lia.
Import ListNotations.
Local Open Scope string_scope.
Local Open Scope Z_scope.
Local Open Scope list_scope.

(** ** JavaScript values *)

(** A millisecond timestamp ([Date]). *)
Definition Date := Z.

#[local] Set Warnings "-register-all".

(** A JSON value as stored in a [JSONB] column or held in an untyped array.
    JSON has no NaN or infinity, so every [JNum] is a finite number. *)
Inductive Json : Type :=
| JNull
| JBool (b : bool)
| JNum (q : Q)
| JStr (s : string)
| JArr (items : list Json)
| JObj (fields : list (string * Json)).

(** [s.includes(c)] for a one-character needle. *)
Fixpoint includes (c : ascii) (s : string) : bool :=
  match s with
  | EmptyString => false
  | String a rest => if Ascii.eqb a c then true else includes c rest
  end.

(** [typeof item === 'string' && item.includes('[')] *)
Definition isCorruptItem (item : Json) : bool :=
  match item with
  | JStr s => includes "["%char s
  | _ => false
  end.

(** [typeof item === 'number' && isFinite(item)] *)
Definition isFiniteNumber (item : Json) : bool :=
  match item with
  | JNum _ => true
  | _ => false
  end.

(** [['S', 'P', 'T'].includes(item)], also [item === 'S' || item === 'P' || item === 'T'] *)
Definition isGraceCode (item : Json) : bool :=
  match item with
  | JStr s => String.eqb s "S" || String.eqb s "P" || String.eqb s "T"
  | _ => false
  end.

(** [Array.isArray(v)] *)
Definition Array_isArray (v : Json) : bool :=
  match v with
  | JArr _ => true
  | _ => false
  end.

(** [arr.some(pred)] *)
Definition some {A : Type} (pred : A -> bool) (arr : list A) : bool := existsb pred arr.

(** [arr.length !== n] for an integer [n]. *)
Definition lengthDiffers {A : Type} (arr : list A) (n : Z) : bool :=
  negb (Z.of_nat (List.length arr) =? n).

(** The largest length of a JavaScript array, 2^32 - 1. *)
Definition maxArrayLength : Z := 4294967295.

(** ** Error messages

    One constructor per [throw] site, carrying the values interpolated into
    the message template. *)

Inductive BondFieldError : Type :=
| ValorNominalInvalido      (* 'Valor nominal inválido' *)
| ValorComercialInvalido    (* 'Valor comercial inválido' *)
| NumeroAniosInvalido       (* 'Número de años inválido' *)
| TasaAnualInvalida.        (* 'Tasa anual inválida' *)

Inductive SeriesError : Type :=
| InflacionLength (expected : Z) (received : nat)  (* `La serie de inflación debe tener ...` *)
| GraciaLength (expected : Z) (received : nat)     (* `La serie de gracia debe tener ...` *)
| InflacionCorrupta                                (* 'Serie de inflación contiene datos corruptos ...' *)
| GraciaCorrupta.                                  (* 'Serie de gracia contiene datos corruptos ...' *)

Inductive ErrorMessage : Type :=
| ZodInvalidCuid                                   (* 'ID de bono inválido' (ZodError) *)
| BonoNoEncontrado (bondId : string)               (* `Bono ${bondId} no encontrado` *)
| BonoNoEncontradoQuick (bondId : string)          (* `Bono ${bondId} no encontrado para quick metrics` *)
| BonoInvalido (errors : list BondFieldError)      (* `Bono inválido para cálculo: ${errors.join(', ')}` *)
| CostesNoDefinidos (bondId : string)              (* `Costes no definidos para bono ${bond.id}` *)
| RegistroNoEncontrado (bondId : string)           (* `Registro CalculationInputs no encontrado para bono ${bond.id}` *)
| CalculationInputsNoEncontrado (bondId : string)  (* `CalculationInputs no encontrado para bono ${bondId}` *)
| NoSePudieronRecargar (bondId : string)           (* `No se pudieron recargar datos reparados para bono ...` *)
| FailedToRepair (bondId : string) (cause : ErrorMessage)
                                                   (* `Failed to repair corrupted data for bond ${bond.id}: ${...}` *)
| InflacionMustBeArray (bondId : string)           (* `inflacionSerie must be an array for bond ...` *)
| InflacionItemNotFinite (index : nat) (item : Json)
                                                   (* `inflacionSerie[${index}] must be a finite number. ...` *)
| GraciaMustBeArray (bondId : string)              (* `graciaSerie must be an array for bond ...` *)
| GraciaItemInvalid (index : nat) (item : Json)    (* `graciaSerie[${index}] must be 'S', 'P', or 'T'. ...` *)
| IdNoEncontrado                                   (* "ID de CalculationInputs (registro de DB) no encontrado ..." *)
| SeriesRepaired (bondId : string)                 (* `SERIES_REPAIRED:${bondId}` *)
| ValidationFailed (errors : list SeriesError)     (* `Validation failed: ${errors.join(', ')}` *)
| InvalidArrayLength                               (* RangeError: Invalid array length *)
| NotAnArray                                       (* TypeError raised when a non-array is sliced *)
| RecordNotFound                                   (* Prisma: record to update not found *)
| ForeignKeyViolation                              (* Prisma: foreign key constraint failed *)
| CalculatorFailure (message : string).            (* any error thrown by the calculator *)

(** [repairError.message.startsWith('SERIES_REPAIRED:')] *)
Definition isSeriesRepaired (e : ErrorMessage) : bool :=
  match e with
  | SeriesRepaired _ => true
  | _ => false
  end.

(** The result of running a piece of code: a value, or a thrown error. *)
Inductive Outcome (A : Type) : Type :=
| Ok (value : A)
| Throw (error : ErrorMessage).
Arguments Ok {A} value.
Arguments Throw {A} error.

(** [Array(n).fill(v)]: a [RangeError] unless [0 <= n <= 2^32 - 1]. *)
Definition Array_fill {A : Type} (n : Z) (v : A) : Outcome (list A) :=
  if (n <? 0) || (maxArrayLength <? n) then Throw InvalidArrayLength
  else Ok (repeat v (Z.to_nat n)).

(** ** Rows of the database (Prisma models)

    Only the columns read or written by the service are kept. *)

Inductive BondStatus : Type := DRAFT | ACTIVE | EXPIRED.

Inductive MetricsRole : Type := EMISOR | BONISTA.

(** The Postgres enums [frecuencia_cupon] and [tipo_tasa]. *)
Inductive FrecuenciaCuponEnum : Type :=
  MENSUAL | BIMESTRAL | TRIMESTRAL | CUATRIMESTRAL | SEMESTRAL | ANUAL.

Inductive TipoTasaEnum : Type := EFECTIVA | NOMINAL.

(** [FrequenciaCupon] and the rate type of [CalculationInputs]. *)
Inductive FrequenciaCupon : Type :=
  mensual | bimestral | trimestral | cuatrimestral | semestral | anual.

Inductive TipoTasa : Type := efectiva | nominal.

Definition MetricsRole_eqb (a b : MetricsRole) : bool :=
  match a, b with
  | EMISOR, EMISOR | BONISTA, BONISTA => true
  | _, _ => false
  end.

Module BondCosts.
Record t : Type := mk {
    estructuracionPct : Q;
    colocacionPct : Q;
    flotacionPct : Q;
    cavaliPct : Q
}.
End BondCosts.

(** [BondWithFullRelations]: a row of [bonds] together with its [costs]
    relation ([null] when no [bond_costs] row exists). *)
Module Bond.
Record t : Type := mk {
    id : string;
    name : string;
    status : BondStatus;
    valorNominal : Q;
    valorComercial : Q;
    numAnios : Z;
    fechaEmision : Date;
    frecuenciaCupon : FrecuenciaCuponEnum;
    baseDias : Z;
    tipoTasa : TipoTasaEnum;
    periodicidadCapitalizacion : string;
    tasaAnual : Q;
    primaVencimiento : Q;
    impuestoRenta : Q;
    costs : option BondCosts.t
}.

Definition withStatus (s : BondStatus) (b : t) : t :=
    mk (id b) (name b) s (valorNominal b) (valorComercial b) (numAnios b)
       (fechaEmision b) (frecuenciaCupon b) (baseDias b) (tipoTasa b)
       (periodicidadCapitalizacion b) (tasaAnual b) (primaVencimiento b)
       (impuestoRenta b) (costs b).
End Bond.

(** A row of [calculation_inputs]. *)
Module CalcInputsRecord.
Record t : Type := mk {
    id : string;
    bondId : string;
    inflacionSerie : Json;
    graciaSerie : Json
}.
End CalcInputsRecord.

(** One period of the schedule as the calculator returns it
    ([CalculationResult['flujos'][number]]). *)
Module Flow.
Record t : Type := mk {
    periodo : Z;
    fecha : Date;
    inflacionAnual : option Q;
    inflacionSemestral : option Q;
    gracia : option string;
    bonoCapital : option Q;
    bonoIndexado : option Q;
    cupon : option Q;
    amortizacion : option Q;
    cuota : option Q;
    prima : option Q;
    escudoFiscal : option Q;
    flujoEmisor : option Q;
    flujoEmisorConEscudo : option Q;
    flujoBonista : option Q;
    flujoActualizado : option Q;
    faPlazoPonderado : option Q;
    factorConvexidad : option Q
}.
End Flow.

(** [Prisma.CashFlowCreateManyInput]: a period record before it is stored. *)
Module CashFlowData.
Record t : Type := mk {
    bondId : string;
    periodo : Z;
    fecha : Date;
    inflacionAnual : option Q;
    inflacionSemestral : option Q;
    periodoGracia : option string;
    bonoCapital : option Q;
    bonoIndexado : option Q;
    cupon : option Q;
    amortizacion : option Q;
    cuota : option Q;
    prima : option Q;
    escudoFiscal : option Q;
    flujoEmisor : option Q;
    flujoEmisorConEscudo : option Q;
    flujoBonista : option Q;
    flujoActualizado : option Q;
    faPlazoPonderado : option Q;
    factorConvexidad : option Q
}.
End CashFlowData.

(** A row of [cash_flows]: the generated key and the stored data. *)
Module CashFlow.
Record t : Type := mk {
    id : nat;
    data : CashFlowData.t
}.
Definition bondId (r : t) : string := CashFlowData.bondId (data r).
Definition periodo (r : t) : Z := CashFlowData.periodo (data r).
End CashFlow.

(** [CalculationResult['metricas']] *)
Module Metricas.
Record t : Type := mk {
    precioActual : Q;
    utilidadPerdida : Q;
    tceaEmisor : Q;
    tceaEmisorConEscudo : Q;
    treaBonista : Q;
    duracion : Q;
    duracionModificada : Q;
    convexidad : Q;
    totalRatiosDecision : Q
}.
End Metricas.

(** A row of [financial_metrics]. *)
Module FinancialMetrics.
Record t : Type := mk {
    id : nat;
    bondId : string;
    role : MetricsRole;
    precioActual : Q;
    utilidadPerdida : Q;
    van : Q;
    duracion : Q;
    duracionModificada : Q;
    convexidad : Q;
    totalRatiosDecision : Q;
    tir : Q;
    tcea : option Q;
    tceaConEscudo : option Q;
    trea : option Q;
    fechaCalculo : Date
}.
End FinancialMetrics.

(** A row of [calculation_results]. *)
Module CalcResultRow.
Record t : Type := mk {
    id : nat;
    bondId : string;
    calculationInputsId : string;
    calculosIntermedios : Json;
    metricasCalculadas : Metricas.t;
    createdAt : Date
}.
End CalcResultRow.

(** ** Values exchanged with the calculator *)

(** [CalculationInputs & {id: string}].  The two series are untyped arrays:
    the service casts what it reads from the database. *)
Module CalculationInputs.
Record t : Type := mk {
    id : string;
    valorNominal : Q;
    valorComercial : Q;
    numAnios : Z;
    frecuenciaCupon : FrequenciaCupon;
    diasPorAno : Z;
    tipoTasa : TipoTasa;
    periodicidadCapitalizacion : string;
    tasaAnual : Q;
    tasaDescuento : Q;
    impuestoRenta : Q;
    fechaEmision : Date;
    primaPorcentaje : Q;
    estructuracionPorcentaje : Q;
    colocacionPorcentaje : Q;
    flotacionPorcentaje : Q;
    cavaliPorcentaje : Q;
    inflacionSerie : list Json;
    graciaSerie : list Json
}.
End CalculationInputs.

(** [CalculationResult].  [flujos], [intermedios] and [fechaCalculo] may be
    missing: the service guards each of them ([result.flujos && ...],
    [result.intermedios || Prisma.JsonNull], [result.fechaCalculo || new Date()]). *)
Module CalculationResult.
Record t : Type := mk {
    flujos : option (list Flow.t);
    metricas : Metricas.t;
    intermedios : option Json;
    fechaCalculo : option Date
}.
End CalculationResult.

(** [FinancialCalculator] is not among the sources: its two entry points
    are parameters.  Each may read the clock and may throw. *)
Module FinancialCalculator.
Record t : Type := mk {
  calculate : Date -> CalculationInputs.t -> Outcome CalculationResult.t;
  calculateQuickMetrics : Date -> CalculationInputs.t -> Outcome Metricas.t
}.
End FinancialCalculator.

(** What the service is built on: [this.calculator] and the built-in
    [JSON.parse] ([None] when it throws a [SyntaxError]). *)
Record Collaborators : Type := {
  calculator : FinancialCalculator.t;
  JSON_parse : string -> option Json
}.

(** ** Requests and responses *)

(** [CalculateBondRequest] before [CalculateBondRequestSchema.parse]:
    the two flags are optional and take the schema's defaults. *)
Record CalculateBondRequest : Type := {
  req_bondId : string;
  req_recalculate : option bool;
  req_saveResults : option bool
}.

Record EmisorMetricas : Type := {
  e_precioActual : Q; e_van : Q; e_tceaEmisor : Q; e_tceaEmisorConEscudo : Q;
  e_duracion : Q; e_duracionModificada : Q; e_convexidad : Q; e_totalRatiosDecision : Q
}.

Record BonistaMetricas : Type := {
  b_precioActual : Q; b_van : Q; b_treaBonista : Q;
  b_duracion : Q; b_duracionModificada : Q; b_convexidad : Q; b_totalRatiosDecision : Q
}.

Record ResponseMetricas : Type := {
  emisor : EmisorMetricas;
  bonista : BonistaMetricas
}.

(** [BondCalculationResponse].  [calculatedAt] is [None] when the calculator
    left [fechaCalculo] undefined; [errors] is [None] on success. *)
Record BondCalculationResponse : Type := {
  bondId : string;
  success : bool;
  calculatedAt : option Date;
  metricas : ResponseMetricas;
  flowsCount : nat;
  errors : option (list ErrorMessage)
}.

(** ** The database and the world *)

Record Database : Type := {
  bonds : list Bond.t;
  calculationInputs : list CalcInputsRecord.t;
  cashFlows : list CashFlow.t;
  financialMetrics : list FinancialMetrics.t;
  calculationResults : list CalcResultRow.t;
  nextId : nat
}.

Definition set_bonds (v : list Bond.t) (d : Database) : Database :=
  Build_Database v (calculationInputs d) (cashFlows d) (financialMetrics d)
                 (calculationResults d) (nextId d).

Definition set_calculationInputs (v : list CalcInputsRecord.t) (d : Database) : Database :=
  Build_Database (bonds d) v (cashFlows d) (financialMetrics d)
                 (calculationResults d) (nextId d).

Definition set_cashFlows (v : list CashFlow.t) (n : nat) (d : Database) : Database :=
  Build_Database (bonds d) (calculationInputs d) v (financialMetrics d)
                 (calculationResults d) n.

Definition set_financialMetrics (v : list FinancialMetrics.t) (n : nat) (d : Database) : Database :=
  Build_Database (bonds d) (calculationInputs d) (cashFlows d) v
                 (calculationResults d) n.

Definition set_calculationResults (v : list CalcResultRow.t) (n : nat) (d : Database) : Database :=
  Build_Database (bonds d) (calculationInputs d) (cashFlows d) (financialMetrics d)
                 v n.

(** The world a method runs in.  [calculatorCalls] (most recent first) and
    [progress] (most recent first) are ghost logs; the clock does not advance
    during one call. *)
Record World : Type := {
  db : Database;
  clock : Date;
  calculatorCalls : list CalculationInputs.t;
  progress : list (Z * Z)
}.

Definition set_db (d : Database) (w : World) : World :=
  Build_World d (clock w) (calculatorCalls w) (progress w).

Definition logCalculatorCall (i : CalculationInputs.t) (w : World) : World :=
  Build_World (db w) (clock w) (i :: calculatorCalls w) (progress w).

Definition logProgress (completed total : Z) (w : World) : World :=
  Build_World (db w) (clock w) (calculatorCalls w) ((completed, total) :: progress w).

(** ** A state-and-exception monad for [async] code *)

Definition M (A : Type) : Type := World -> Outcome A * World.

Definition ret {A : Type} (a : A) : M A := fun w => (Ok a, w).

Definition throw {A : Type} (e : ErrorMessage) : M A := fun w => (Throw e, w).

Definition bind {A B : Type} (m : M A) (k : A -> M B) : M B :=
  fun w =>
    match m w with
    | (Ok a, w') => k a w'
    | (Throw e, w') => (Throw e, w')
    end.

(** [try { body } catch (error) { handler(error) }] *)
Definition tryCatch {A : Type} (body : M A) (handler : ErrorMessage -> M A) : M A :=
  fun w =>
    match body w with
    | (Ok a, w') => (Ok a, w')
    | (Throw e, w') => handler e w'
    end.

(** Lift a pure computation that may throw. *)
Definition liftOutcome {A : Type} (o : Outcome A) : M A := fun w => (o, w).

(** [new Date()] / [Date.now()] *)
Definition newDate : M Date := fun w => (Ok (clock w), w).

(** [prisma.$transaction(async (tx) => body)]: the writes of a body that
    throws are rolled back. *)
Definition transaction {A : Type} (body : M A) : M A :=
  fun w =>
    match body w with
    | (Ok a, w') => (Ok a, w')
    | (Throw e, w') => (Throw e, set_db (db w) w')
    end.

Declare Scope monad_scope.
Delimit Scope monad_scope with monad.
Notation "x <- m ;; k" := (bind m (fun x => k))
  (at level 61, m at next level, right associativity) : monad_scope.
Notation "m ;;; k" := (bind m (fun _ => k))
  (at level 61, right associativity) : monad_scope.
Local Open Scope monad_scope.

(** ** Prisma operations

    Each operation is a function on the tables, lifted to the world. *)

(** A read of the database. *)
Definition readDb {A : Type} (f : Database -> A) : M A :=
  fun w => (Ok (f (db w)), w).

(** A write that may be refused by the database. *)
Definition writeDb (f : Database -> Outcome Database) : M unit :=
  fun w =>
    match f (db w) with
    | Ok d => (Ok tt, set_db d w)
    | Throw e => (Throw e, w)
    end.

(** Modelled from the spec: [BondModel] is not among the sources; the bond
    stored under a key, with its relations. *)
Definition findBond (bondId : string) (d : Database) : option Bond.t :=
  find (fun b => String.eqb (Bond.id b) bondId) (bonds d).

Definition bondExists (bondId : string) (d : Database) : bool :=
  existsb (fun b => String.eqb (Bond.id b) bondId) (bonds d).

(** Modelled from the spec: [BondModel] is not among the sources; the
    status of the bond is set, nothing else is written, and a missing bond is
    an error. *)
Definition setStatus (bondId : string) (s : BondStatus) (d : Database) : Outcome Database :=
  if bondExists bondId d then
    Ok (set_bonds
          (map (fun b => if String.eqb (Bond.id b) bondId then Bond.withStatus s b else b)
               (bonds d)) d)
  else Throw RecordNotFound.

(** Modelled from the spec: [bondModel.findById(bondId)]; [BondModel] is
    not among the sources, and the method is taken to return the bond stored
    under this key with its relations, or [null]. *)
Definition BondModel_findById (bondId : string) : M (option Bond.t) :=
  readDb (findBond bondId).

(** Modelled from the spec: [bondModel.updateStatus(bondId, status)];
    [BondModel] is not among the sources, and the method is taken to write
    the [status] column of that bond and nothing else. *)
Definition BondModel_updateStatus (bondId : string) (s : BondStatus) : M unit :=
  writeDb (setStatus bondId s).

Definition findInputs (bondId : string) (d : Database) : option CalcInputsRecord.t :=
  find (fun r => String.eqb (CalcInputsRecord.bondId r) bondId) (calculationInputs d).

(** [prisma.calculationInputs.findUnique({ where: { bondId } })] *)
Definition calculationInputs_findUnique (bondId : string) : M (option CalcInputsRecord.t) :=
  readDb (findInputs bondId).

Definition updateSeries (bondId : string) (inflacion gracia : Json)
                        (r : CalcInputsRecord.t) : CalcInputsRecord.t :=
  if String.eqb (CalcInputsRecord.bondId r) bondId
  then CalcInputsRecord.mk (CalcInputsRecord.id r) (CalcInputsRecord.bondId r) inflacion gracia
  else r.

Definition setSeries (bondId : string) (inflacion gracia : Json) (d : Database)
  : Outcome Database :=
  if existsb (fun r => String.eqb (CalcInputsRecord.bondId r) bondId) (calculationInputs d) then
    Ok (set_calculationInputs (map (updateSeries bondId inflacion gracia) (calculationInputs d)) d)
  else Throw RecordNotFound.

(** [tx.calculationInputs.update({ where: { bondId }, data: { inflacionSerie, graciaSerie } })] *)
Definition calculationInputs_update (bondId : string) (inflacion gracia : Json) : M unit :=
  writeDb (setSeries bondId inflacion gracia).

Definition flowsOfBond (bondId : string) (d : Database) : list CashFlow.t :=
  filter (fun r => String.eqb (CashFlow.bondId r) bondId) (cashFlows d).

(** [prisma.cashFlow.count({ where: { bondId } })] *)
Definition cashFlow_count (bondId : string) : M nat :=
  readDb (fun d => List.length (flowsOfBond bondId d)).

Definition deleteFlows (bondId : string) (d : Database) : Database :=
  set_cashFlows
    (filter (fun r => negb (String.eqb (CashFlow.bondId r) bondId)) (cashFlows d))
    (nextId d) d.

(** [tx.cashFlow.deleteMany({ where: { bondId } })] *)
Definition cashFlow_deleteMany (bondId : string) : M unit :=
  writeDb (fun d => Ok (deleteFlows bondId d)).

(** The unique index of [cash_flows] on [(bond_id, periodo)]. *)
Definition sameFlowKey (x : CashFlowData.t) (r : CashFlow.t) : bool :=
  String.eqb (CashFlow.bondId r) (CashFlowData.bondId x)
  && (CashFlow.periodo r =? CashFlowData.periodo x).

(** Insert one row unless its unique key is taken ([ON CONFLICT DO NOTHING]). *)
Definition insertFlow (acc : list CashFlow.t * nat) (x : CashFlowData.t) : list CashFlow.t * nat :=
  if existsb (sameFlowKey x) (fst acc) then acc
  else (fst acc ++ [CashFlow.mk (snd acc) x], S (snd acc)).

Definition createFlows (data : list CashFlowData.t) (d : Database) : Outcome Database :=
  if forallb (fun x => bondExists (CashFlowData.bondId x) d) data then
    let inserted := fold_left insertFlow data (cashFlows d, nextId d) in
    Ok (set_cashFlows (fst inserted) (snd inserted) d)
  else Throw ForeignKeyViolation.

(** [tx.cashFlow.createMany({ data, skipDuplicates: true })]; every row must
    reference an existing bond. *)
Definition cashFlow_createMany (data : list CashFlowData.t) : M unit :=
  writeDb (createFlows data).

Definition isMetricsOf (bondId : string) (role : MetricsRole) (r : FinancialMetrics.t) : bool :=
  String.eqb (FinancialMetrics.bondId r) bondId && MetricsRole_eqb (FinancialMetrics.role r) role.

Definition findMetrics (bondId : string) (role : MetricsRole) (d : Database)
  : option FinancialMetrics.t :=
  find (isMetricsOf bondId role) (financialMetrics d).

(** [prisma.financialMetrics.findUnique({ where: { bondId_role: { bondId, role } } })] *)
Definition financialMetrics_findUnique (bondId : string) (role : MetricsRole)
  : M (option FinancialMetrics.t) :=
  readDb (findMetrics bondId role).

Definition upsertMetrics (bondId : string) (role : MetricsRole)
    (create : nat -> FinancialMetrics.t)
    (update : FinancialMetrics.t -> FinancialMetrics.t) (d : Database) : Outcome Database :=
  if existsb (isMetricsOf bondId role) (financialMetrics d) then
    Ok (set_financialMetrics
          (map (fun r => if isMetricsOf bondId role r then update r else r) (financialMetrics d))
          (nextId d) d)
  else if bondExists bondId d then
    Ok (set_financialMetrics (financialMetrics d ++ [create (nextId d)]) (S (nextId d)) d)
  else Throw ForeignKeyViolation.

(** [tx.financialMetrics.upsert({ where: { bondId_role }, create, update })] *)
Definition financialMetrics_upsert (bondId : string) (role : MetricsRole)
    (create : nat -> FinancialMetrics.t)
    (update : FinancialMetrics.t -> FinancialMetrics.t) : M unit :=
  writeDb (upsertMetrics bondId role create update).

Definition isResultOf (bondId calculationInputsId : string) (r : CalcResultRow.t) : bool :=
  String.eqb (CalcResultRow.bondId r) bondId
  && String.eqb (CalcResultRow.calculationInputsId r) calculationInputsId.

Definition inputsIdExists (calculationInputsId : string) (d : Database) : bool :=
  existsb (fun r => String.eqb (CalcInputsRecord.id r) calculationInputsId)
          (calculationInputs d).

Definition upsertResult (bondId calculationInputsId : string)
    (create : nat -> CalcResultRow.t)
    (update : CalcResultRow.t -> CalcResultRow.t) (d : Database) : Outcome Database :=
  if existsb (isResultOf bondId calculationInputsId) (calculationResults d) then
    Ok (set_calculationResults
          (map (fun r => if isResultOf bondId calculationInputsId r then update r else r)
               (calculationResults d))
          (nextId d) d)
  else if bondExists bondId d && inputsIdExists calculationInputsId d then
    Ok (set_calculationResults (calculationResults d ++ [create (nextId d)]) (S (nextId d)) d)
  else Throw RecordNotFound.

(** [tx.calculationResult.upsert({ where: { bondId, calculationInputsId }, create, update })];
    [create] connects an existing bond and an existing inputs record. *)
Definition calculationResult_upsert (bondId calculationInputsId : string)
    (create : nat -> CalcResultRow.t)
    (update : CalcResultRow.t -> CalcResultRow.t) : M unit :=
  writeDb (upsertResult bondId calculationInputsId create update).

(** ** Request validation *)

(** [\s] restricted to ASCII: tab, line feed, vertical tab, form feed,
    carriage return, space. *)
Definition isWhitespace (a : ascii) : bool :=
  let n := nat_of_ascii a in
  ((9 <=? n) && (n <=? 13))%nat || (n =? 32)%nat.

Fixpoint noSpaceNoDash (s : string) : bool :=
  match s with
  | EmptyString => true
  | String a rest => negb (isWhitespace a) && negb (Ascii.eqb a "-"%char) && noSpaceNoDash rest
  end.

(** [z.string().cuid()]: the pattern [/^c[^\s-]{8,}$/i] of zod. *)
Definition isCuid (s : string) : bool :=
  match s with
  | EmptyString => false
  | String a rest =>
      (Ascii.eqb a "c"%char || Ascii.eqb a "C"%char)
      && (8 <=? String.length rest)%nat
      && noSpaceNoDash rest
  end.

Definition orDefault {A : Type} (o : option A) (d : A) : A :=
  match o with
  | Some a => a
  | None => d
  end.

(** [CalculateBondRequestSchema.parse(request)] gives
    [{ bondId, recalculate, saveResults }] or throws a [ZodError]. *)
Definition CalculateBondRequestSchema_parse (request : CalculateBondRequest)
  : Outcome (string * bool * bool) :=
  if isCuid (req_bondId request)
  then Ok (req_bondId request,
           orDefault (req_recalculate request) false,
           orDefault (req_saveResults request) true)
  else Throw ZodInvalidCuid.

(** ** BondCalculationsService *)

Definition getEmptyMetrics : ResponseMetricas :=
  {| emisor := {| e_precioActual := 0; e_van := 0; e_tceaEmisor := 0;
                  e_tceaEmisorConEscudo := 0; e_duracion := 0;
                  e_duracionModificada := 0; e_convexidad := 0;
                  e_totalRatiosDecision := 0 |};
     bonista := {| b_precioActual := 0; b_van := 0; b_treaBonista := 0;
                   b_duracion := 0; b_duracionModificada := 0; b_convexidad := 0;
                   b_totalRatiosDecision := 0 |} |}.

(** The object returned by the [catch] blocks. *)
Definition failureResponse (bondId : string) (now : Date) (errorMessage : ErrorMessage)
  : BondCalculationResponse :=
  {| bondId := bondId; success := false; calculatedAt := Some now;
     metricas := getEmptyMetrics; flowsCount := 0%nat; errors := Some [errorMessage] |}.

Definition formatCalculationResponse (bondId : string) (result : CalculationResult.t)
  : BondCalculationResponse :=
  let m := CalculationResult.metricas result in
  {| bondId := bondId; success := true;
     calculatedAt := CalculationResult.fechaCalculo result;
     metricas :=
       {| emisor := {| e_precioActual := Metricas.precioActual m;
                       e_van := Metricas.utilidadPerdida m;
                       e_tceaEmisor := Metricas.tceaEmisor m;
                       e_tceaEmisorConEscudo := Metricas.tceaEmisorConEscudo m;
                       e_duracion := Metricas.duracion m;
                       e_duracionModificada := Metricas.duracionModificada m;
                       e_convexidad := Metricas.convexidad m;
                       e_totalRatiosDecision := Metricas.totalRatiosDecision m |};
          bonista := {| b_precioActual := Metricas.precioActual m;
                        b_van := Metricas.precioActual m;
                        b_treaBonista := Metricas.treaBonista m;
                        b_duracion := Metricas.duracion m;
                        b_duracionModificada := Metricas.duracionModificada m;
                        b_convexidad := Metricas.convexidad m;
                        b_totalRatiosDecision := Metricas.totalRatiosDecision m |} |};
     flowsCount := match CalculationResult.flujos result with
                   | Some flows => List.length flows
                   | None => 0%nat
                   end;
     errors := None |}.

(** The response built by [getExistingCalculation] from the stored rows. *)
Definition existingResponse (bondId : string) (flowsCount : nat)
    (emisorMetrics bonistaMetrics : FinancialMetrics.t) : BondCalculationResponse :=
  {| bondId := bondId; success := true;
     calculatedAt := Some (FinancialMetrics.fechaCalculo emisorMetrics);
     metricas :=
       {| emisor := {| e_precioActual := FinancialMetrics.precioActual emisorMetrics;
                       e_van := FinancialMetrics.van emisorMetrics;
                       e_tceaEmisor := orDefault (FinancialMetrics.tcea emisorMetrics) 0%Q;
                       e_tceaEmisorConEscudo :=
                         orDefault (FinancialMetrics.tceaConEscudo emisorMetrics) 0%Q;
                       e_duracion := FinancialMetrics.duracion emisorMetrics;
                       e_duracionModificada := FinancialMetrics.duracionModificada emisorMetrics;
                       e_convexidad := FinancialMetrics.convexidad emisorMetrics;
                       e_totalRatiosDecision :=
                         FinancialMetrics.totalRatiosDecision emisorMetrics |};
          bonista := {| b_precioActual := FinancialMetrics.precioActual bonistaMetrics;
                        b_van := FinancialMetrics.van bonistaMetrics;
                        b_treaBonista := orDefault (FinancialMetrics.trea bonistaMetrics) 0%Q;
                        b_duracion := FinancialMetrics.duracion bonistaMetrics;
                        b_duracionModificada :=
                          FinancialMetrics.duracionModificada bonistaMetrics;
                        b_convexidad := FinancialMetrics.convexidad bonistaMetrics;
                        b_totalRatiosDecision :=
                          FinancialMetrics.totalRatiosDecision bonistaMetrics |} |};
     flowsCount := flowsCount;
     errors := None |}.

Definition getExistingCalculation (bondId : string) : M (option BondCalculationResponse) :=
  flowsCount <- cashFlow_count bondId ;;
  emisorMetrics <- financialMetrics_findUnique bondId EMISOR ;;
  bonistaMetrics <- financialMetrics_findUnique bondId BONISTA ;;
  match emisorMetrics, bonistaMetrics with
  | Some em, Some bm =>
      if (0 <? flowsCount)%nat then ret (Some (existingResponse bondId flowsCount em bm))
      else ret None
  | _, _ => ret None
  end.

(** [d.isNegative()] and [d.isZero()] of a [Decimal]. *)
Definition isNegative (d : Q) : bool := Qnum d <? 0.
Definition isZero (d : Q) : bool := Qnum d =? 0.

Definition bondFieldErrors (bond : Bond.t) : list BondFieldError :=
  (if isNegative (Bond.valorNominal bond) || isZero (Bond.valorNominal bond)
   then [ValorNominalInvalido] else [])
  ++ (if isNegative (Bond.valorComercial bond) || isZero (Bond.valorComercial bond)
      then [ValorComercialInvalido] else [])
  ++ (if Bond.numAnios bond <=? 0 then [NumeroAniosInvalido] else [])
  ++ (if isNegative (Bond.tasaAnual bond) then [TasaAnualInvalida] else []).

Definition validateBondForCalculation (bond : Bond.t) : M unit :=
  match bondFieldErrors bond with
  | [] => ret tt
  | errors => throw (BonoInvalido errors)
  end.

(** [frecuenciaCuponMap] and [tipoTasaMap].  Both columns are Postgres
    enums, so every stored value is mapped and the two [throw]s for an
    unmapped value cannot be reached. *)
Definition frecuenciaCuponMap (k : FrecuenciaCuponEnum) : FrequenciaCupon :=
  match k with
  | MENSUAL => mensual
  | BIMESTRAL => bimestral
  | TRIMESTRAL => trimestral
  | CUATRIMESTRAL => cuatrimestral
  | SEMESTRAL => semestral
  | ANUAL => anual
  end.

Definition tipoTasaMap (k : TipoTasaEnum) : TipoTasa :=
  match k with
  | EFECTIVA => efectiva
  | NOMINAL => nominal
  end.

(** The default inflation, 3%, and the default grace code, 'S'. *)
Definition defaultInflacion : Json := JNum (3 # 100).
Definition defaultGracia : Json := JStr "S".

(** The test shared by both series in [repairInconsistentSeries]:
    [!Array.isArray(cur) || cur.length !== expectedLength || cur.some(corrupt)].
    [None] means the series is replaced whole. *)
Definition keepableItems (current : Json) (expectedLength : Z) : option (list Json) :=
  match current with
  | JArr items =>
      if lengthDiffers items expectedLength || some isCorruptItem items then None
      else Some items
  | _ => None
  end.

Definition repairInflacion (current : Json) (expectedLength : Z) : Outcome (list Json) :=
  match keepableItems current expectedLength with
  | None => Array_fill expectedLength defaultInflacion
  | Some items => Ok (map (fun item => if isFiniteNumber item then item else defaultInflacion) items)
  end.

Definition repairGracia (current : Json) (expectedLength : Z) : Outcome (list Json) :=
  match keepableItems current expectedLength with
  | None => Array_fill expectedLength defaultGracia
  | Some items => Ok (map (fun item => if isGraceCode item then item else defaultGracia) items)
  end.

Definition repairInconsistentSeries (bondId : string) (expectedLength : Z) : M unit :=
  transaction (
    calcInputs <- calculationInputs_findUnique bondId ;;
    match calcInputs with
    | None => throw (CalculationInputsNoEncontrado bondId)
    | Some ci =>
        repairedInflacion <-
          liftOutcome (repairInflacion (CalcInputsRecord.inflacionSerie ci) expectedLength) ;;
        repairedGracia <-
          liftOutcome (repairGracia (CalcInputsRecord.graciaSerie ci) expectedLength) ;;
        calculationInputs_update bondId (JArr repairedInflacion) (JArr repairedGracia)
    end).

(** [if (typeof raw === 'string') { try { raw = JSON.parse(raw) } catch { } }] *)
Definition parseIfString (c : Collaborators) (raw : Json) : Json :=
  match raw with
  | JStr s =>
      match JSON_parse c s with
      | Some v => v
      | None => raw
      end
  | _ => raw
  end.

(** [Array.isArray(raw) && raw.some(corrupt)] *)
Definition hasCorrupt (raw : Json) : bool :=
  match raw with
  | JArr items => some isCorruptItem items
  | _ => false
  end.

(** [Array.isArray(raw) && raw.length !== numAnios] *)
Definition hasWrongLengthOne (raw : Json) (numAnios : Z) : bool :=
  match raw with
  | JArr items => lengthDiffers items numAnios
  | _ => false
  end.

(** The condition that sends [convertBondToCalculationInputs] to the
    auto-repair branch. *)
Definition needsRepair (rawInflacionSerie rawGraciaSerie : Json) (numAnios : Z) : bool :=
  hasCorrupt rawInflacionSerie
  || hasCorrupt rawGraciaSerie
  || (hasWrongLengthOne rawInflacionSerie numAnios || hasWrongLengthOne rawGraciaSerie numAnios)
  || negb (Array_isArray rawInflacionSerie)
  || negb (Array_isArray rawGraciaSerie).

(** The first element (with its index) that fails [ok], as met by
    [arr.map((item, index) => { if (!ok(item)) throw ...; return item })]. *)
Fixpoint firstInvalid (ok : Json -> bool) (index : nat) (arr : list Json) : option (nat * Json) :=
  match arr with
  | [] => None
  | item :: rest => if ok item then firstInvalid ok (S index) rest else Some (index, item)
  end.

(** The object literal built at the end of both branches. *)
Definition buildInputs (recordId : string) (bond : Bond.t) (bondCosts : BondCosts.t)
    (inflacionSerie graciaSerie : list Json) : CalculationInputs.t :=
  {| CalculationInputs.id := recordId;
     CalculationInputs.valorNominal := Bond.valorNominal bond;
     CalculationInputs.valorComercial := Bond.valorComercial bond;
     CalculationInputs.numAnios := Bond.numAnios bond;
     CalculationInputs.frecuenciaCupon := frecuenciaCuponMap (Bond.frecuenciaCupon bond);
     CalculationInputs.diasPorAno := Bond.baseDias bond;
     CalculationInputs.tipoTasa := tipoTasaMap (Bond.tipoTasa bond);
     CalculationInputs.periodicidadCapitalizacion := Bond.periodicidadCapitalizacion bond;
     CalculationInputs.tasaAnual := Bond.tasaAnual bond;
     CalculationInputs.tasaDescuento := 45 # 1000;
     CalculationInputs.impuestoRenta := Bond.impuestoRenta bond;
     CalculationInputs.fechaEmision := Bond.fechaEmision bond;
     CalculationInputs.primaPorcentaje := Bond.primaVencimiento bond;
     CalculationInputs.estructuracionPorcentaje := BondCosts.estructuracionPct bondCosts;
     CalculationInputs.colocacionPorcentaje := BondCosts.colocacionPct bondCosts;
     CalculationInputs.flotacionPorcentaje := BondCosts.flotacionPct bondCosts;
     CalculationInputs.cavaliPorcentaje := BondCosts.cavaliPct bondCosts;
     CalculationInputs.inflacionSerie := inflacionSerie;
     CalculationInputs.graciaSerie := graciaSerie |}.

(** [x as T[]] followed by [x.length] and [x.slice(0, 3)].  The value read
    back after a repair is the array the repair has just written (lemma
    [repair_writes_arrays]); the other cases are never met. *)
Definition asArray (v : Json) : M (list Json) :=
  match v with
  | JArr items => ret items
  | _ => throw NotAnArray
  end.

Definition convertBondToCalculationInputs (c : Collaborators) (bond : Bond.t)
  : M CalculationInputs.t :=
  calcInputsRecord <- calculationInputs_findUnique (Bond.id bond) ;;
  match Bond.costs bond with
  | None => throw (CostesNoDefinidos (Bond.id bond))
  | Some bondCosts =>
  match calcInputsRecord with
  | None => throw (RegistroNoEncontrado (Bond.id bond))
  | Some record =>
      let rawInflacionSerie := parseIfString c (CalcInputsRecord.inflacionSerie record) in
      let rawGraciaSerie := parseIfString c (CalcInputsRecord.graciaSerie record) in
      if needsRepair rawInflacionSerie rawGraciaSerie (Bond.numAnios bond) then
        tryCatch (
          repairInconsistentSeries (Bond.id bond) (Bond.numAnios bond) ;;;
          repairedCalcInputs <- calculationInputs_findUnique (Bond.id bond) ;;
          match repairedCalcInputs with
          | None => throw (NoSePudieronRecargar (Bond.id bond))
          | Some repaired =>
              repairedInflacion <- asArray (CalcInputsRecord.inflacionSerie repaired) ;;
              repairedGracia <- asArray (CalcInputsRecord.graciaSerie repaired) ;;
              ret (buildInputs (CalcInputsRecord.id repaired) bond bondCosts
                               repairedInflacion repairedGracia)
          end)
          (fun repairError => throw (FailedToRepair (Bond.id bond) repairError))
      else
        match rawInflacionSerie with
        | JArr inflacionItems =>
            match firstInvalid isFiniteNumber 0 inflacionItems with
            | Some (index, item) => throw (InflacionItemNotFinite index item)
            | None =>
                match rawGraciaSerie with
                | JArr graciaItems =>
                    match firstInvalid isGraceCode 0 graciaItems with
                    | Some (index, item) => throw (GraciaItemInvalid index item)
                    | None =>
                        ret (buildInputs (CalcInputsRecord.id record) bond bondCosts
                                         inflacionItems graciaItems)
                    end
                | _ => throw (GraciaMustBeArray (Bond.id bond))
                end
            end
        | _ => throw (InflacionMustBeArray (Bond.id bond))
        end
  end
  end.

Definition seriesErrors (calculationInputs : CalculationInputs.t) : list SeriesError :=
  let numAnios := CalculationInputs.numAnios calculationInputs in
  let inflacion := CalculationInputs.inflacionSerie calculationInputs in
  let gracia := CalculationInputs.graciaSerie calculationInputs in
  (if lengthDiffers inflacion numAnios
   then [InflacionLength numAnios (List.length inflacion)] else [])
  ++ (if lengthDiffers gracia numAnios
      then [GraciaLength numAnios (List.length gracia)] else [])
  ++ (if some isCorruptItem inflacion then [InflacionCorrupta] else [])
  ++ (if some isCorruptItem gracia then [GraciaCorrupta] else []).

(** When the series are inconsistent this always throws: the
    [SERIES_REPAIRED] signal after a successful repair, [Validation failed]
    otherwise.  No caller catches the signal to retry. *)
Definition validateSeriesConsistency (bondId : string) (calculationInputs : CalculationInputs.t)
  : M unit :=
  match seriesErrors calculationInputs with
  | [] => ret tt
  | errors =>
      tryCatch (
        repairInconsistentSeries bondId (CalculationInputs.numAnios calculationInputs) ;;;
        throw (SeriesRepaired bondId))
        (fun repairError =>
           if isSeriesRepaired repairError then throw repairError
           else throw (ValidationFailed errors))
  end.

(** [flow => ({ bondId, periodo: flow.periodo, ... })]: each nullable number
    is wrapped in a [Decimal], which leaves its value unchanged. *)
Definition toCashFlowData (bondId : string) (flow : Flow.t) : CashFlowData.t :=
  {| CashFlowData.bondId := bondId;
     CashFlowData.periodo := Flow.periodo flow;
     CashFlowData.fecha := Flow.fecha flow;
     CashFlowData.inflacionAnual := Flow.inflacionAnual flow;
     CashFlowData.inflacionSemestral := Flow.inflacionSemestral flow;
     CashFlowData.periodoGracia := Flow.gracia flow;
     CashFlowData.bonoCapital := Flow.bonoCapital flow;
     CashFlowData.bonoIndexado := Flow.bonoIndexado flow;
     CashFlowData.cupon := Flow.cupon flow;
     CashFlowData.amortizacion := Flow.amortizacion flow;
     CashFlowData.cuota := Flow.cuota flow;
     CashFlowData.prima := Flow.prima flow;
     CashFlowData.escudoFiscal := Flow.escudoFiscal flow;
     CashFlowData.flujoEmisor := Flow.flujoEmisor flow;
     CashFlowData.flujoEmisorConEscudo := Flow.flujoEmisorConEscudo flow;
     CashFlowData.flujoBonista := Flow.flujoBonista flow;
     CashFlowData.flujoActualizado := Flow.flujoActualizado flow;
     CashFlowData.faPlazoPonderado := Flow.faPlazoPonderado flow;
     CashFlowData.factorConvexidad := Flow.factorConvexidad flow |}.

(** The [create] payload of the EMISOR metrics. *)
Definition emisorCreate (bondId : string) (m : Metricas.t) (fechaCalculo : Date) (id : nat)
  : FinancialMetrics.t :=
  {| FinancialMetrics.id := id;
     FinancialMetrics.bondId := bondId;
     FinancialMetrics.role := EMISOR;
     FinancialMetrics.precioActual := Metricas.precioActual m;
     FinancialMetrics.utilidadPerdida := Metricas.utilidadPerdida m;
     FinancialMetrics.van := Metricas.utilidadPerdida m;
     FinancialMetrics.duracion := Metricas.duracion m;
     FinancialMetrics.duracionModificada := Metricas.duracionModificada m;
     FinancialMetrics.convexidad := Metricas.convexidad m;
     FinancialMetrics.totalRatiosDecision := Metricas.totalRatiosDecision m;
     FinancialMetrics.tir := Metricas.tceaEmisor m;
     FinancialMetrics.tcea := Some (Metricas.tceaEmisor m);
     FinancialMetrics.tceaConEscudo := Some (Metricas.tceaEmisorConEscudo m);
     FinancialMetrics.trea := None;
     FinancialMetrics.fechaCalculo := fechaCalculo |}.

(** The [update] payload of the EMISOR metrics: the key, the role and
    [trea] keep their stored values. *)
Definition emisorUpdate (m : Metricas.t) (fechaCalculo : Date) (r : FinancialMetrics.t)
  : FinancialMetrics.t :=
  {| FinancialMetrics.id := FinancialMetrics.id r;
     FinancialMetrics.bondId := FinancialMetrics.bondId r;
     FinancialMetrics.role := FinancialMetrics.role r;
     FinancialMetrics.precioActual := Metricas.precioActual m;
     FinancialMetrics.utilidadPerdida := Metricas.utilidadPerdida m;
     FinancialMetrics.van := Metricas.utilidadPerdida m;
     FinancialMetrics.duracion := Metricas.duracion m;
     FinancialMetrics.duracionModificada := Metricas.duracionModificada m;
     FinancialMetrics.convexidad := Metricas.convexidad m;
     FinancialMetrics.totalRatiosDecision := Metricas.totalRatiosDecision m;
     FinancialMetrics.tir := Metricas.tceaEmisor m;
     FinancialMetrics.tcea := Some (Metricas.tceaEmisor m);
     FinancialMetrics.tceaConEscudo := Some (Metricas.tceaEmisorConEscudo m);
     FinancialMetrics.trea := FinancialMetrics.trea r;
     FinancialMetrics.fechaCalculo := fechaCalculo |}.

(** The [create] payload of the BONISTA metrics. *)
Definition bonistaCreate (bondId : string) (m : Metricas.t) (fechaCalculo : Date) (id : nat)
  : FinancialMetrics.t :=
  {| FinancialMetrics.id := id;
     FinancialMetrics.bondId := bondId;
     FinancialMetrics.role := BONISTA;
     FinancialMetrics.precioActual := Metricas.precioActual m;
     FinancialMetrics.utilidadPerdida := Metricas.utilidadPerdida m;
     FinancialMetrics.van := Metricas.precioActual m;
     FinancialMetrics.duracion := Metricas.duracion m;
     FinancialMetrics.duracionModificada := Metricas.duracionModificada m;
     FinancialMetrics.convexidad := Metricas.convexidad m;
     FinancialMetrics.totalRatiosDecision := Metricas.totalRatiosDecision m;
     FinancialMetrics.tir := Metricas.treaBonista m;
     FinancialMetrics.tcea := None;
     FinancialMetrics.tceaConEscudo := None;
     FinancialMetrics.trea := Some (Metricas.treaBonista m);
     FinancialMetrics.fechaCalculo := fechaCalculo |}.

(** The [update] payload of the BONISTA metrics: the key, the role, [tcea]
    and [tceaConEscudo] keep their stored values. *)
Definition bonistaUpdate (m : Metricas.t) (fechaCalculo : Date) (r : FinancialMetrics.t)
  : FinancialMetrics.t :=
  {| FinancialMetrics.id := FinancialMetrics.id r;
     FinancialMetrics.bondId := FinancialMetrics.bondId r;
     FinancialMetrics.role := FinancialMetrics.role r;
     FinancialMetrics.precioActual := Metricas.precioActual m;
     FinancialMetrics.utilidadPerdida := Metricas.utilidadPerdida m;
     FinancialMetrics.van := Metricas.precioActual m;
     FinancialMetrics.duracion := Metricas.duracion m;
     FinancialMetrics.duracionModificada := Metricas.duracionModificada m;
     FinancialMetrics.convexidad := Metricas.convexidad m;
     FinancialMetrics.totalRatiosDecision := Metricas.totalRatiosDecision m;
     FinancialMetrics.tir := Metricas.treaBonista m;
     FinancialMetrics.tcea := FinancialMetrics.tcea r;
     FinancialMetrics.tceaConEscudo := FinancialMetrics.tceaConEscudo r;
     FinancialMetrics.trea := Some (Metricas.treaBonista m);
     FinancialMetrics.fechaCalculo := fechaCalculo |}.

(** [result.intermedios || Prisma.JsonNull] *)
Definition intermediosJson (result : CalculationResult.t) : Json :=
  orDefault (CalculationResult.intermedios result) JNull.

Definition resultCreate (bondId calculationInputsId : string) (result : CalculationResult.t)
    (now : Date) (id : nat) : CalcResultRow.t :=
  {| CalcResultRow.id := id;
     CalcResultRow.bondId := bondId;
     CalcResultRow.calculationInputsId := calculationInputsId;
     CalcResultRow.calculosIntermedios := intermediosJson result;
     CalcResultRow.metricasCalculadas := CalculationResult.metricas result;
     CalcResultRow.createdAt := now |}.

Definition resultUpdate (result : CalculationResult.t) (now : Date) (r : CalcResultRow.t)
  : CalcResultRow.t :=
  {| CalcResultRow.id := CalcResultRow.id r;
     CalcResultRow.bondId := CalcResultRow.bondId r;
     CalcResultRow.calculationInputsId := CalcResultRow.calculationInputsId r;
     CalcResultRow.calculosIntermedios := intermediosJson result;
     CalcResultRow.metricasCalculadas := CalculationResult.metricas result;
     CalcResultRow.createdAt := now |}.

(** The part of [saveCalculationResults] that replaces the schedule;
    guarded by [result.flujos && result.flujos.length > 0]. *)
Definition saveFlows (bondId : string) (result : CalculationResult.t) : M unit :=
  match CalculationResult.flujos result with
  | Some (flow :: flows) =>
      let prismaFlowsData := map (toCashFlowData bondId) (flow :: flows) in
      cashFlow_deleteMany bondId ;;;
      cashFlow_createMany prismaFlowsData
  | _ => ret tt
  end.

(** The callback handed to [$transaction] by [saveCalculationResults]. *)
Definition saveTransaction (bondId calculationInputsId : string)
    (result : CalculationResult.t) : M unit :=
  saveFlows bondId result ;;;
  now <- newDate ;;
  let fechaCalculo := orDefault (CalculationResult.fechaCalculo result) now in
  let m := CalculationResult.metricas result in
  financialMetrics_upsert bondId EMISOR
    (emisorCreate bondId m fechaCalculo) (emisorUpdate m fechaCalculo) ;;;
  financialMetrics_upsert bondId BONISTA
    (bonistaCreate bondId m fechaCalculo) (bonistaUpdate m fechaCalculo) ;;;
  calculationResult_upsert bondId calculationInputsId
    (resultCreate bondId calculationInputsId result now) (resultUpdate result now).

Definition saveCalculationResults (bondId calculationInputsId : string)
    (result : CalculationResult.t) : M unit :=
  transaction (saveTransaction bondId calculationInputsId result) ;;;
  current <- BondModel_findById bondId ;;
  match current with
  | Some bond =>
      match Bond.status bond with
      | DRAFT => BondModel_updateStatus bondId ACTIVE
      | _ => ret tt
      end
  | None => ret tt
  end.

(** [this.calculator.calculate(inputs)] and
    [this.calculator.calculateQuickMetrics(inputs)], with the call logged. *)
Definition calculator_calculate (c : Collaborators) (inputs : CalculationInputs.t)
  : M CalculationResult.t :=
  fun w => (FinancialCalculator.calculate (calculator c) (clock w) inputs,
            logCalculatorCall inputs w).

Definition calculator_calculateQuickMetrics (c : Collaborators) (inputs : CalculationInputs.t)
  : M Metricas.t :=
  fun w => (FinancialCalculator.calculateQuickMetrics (calculator c) (clock w) inputs,
            logCalculatorCall inputs w).

(** The body of the [try] block of [calculateBond]. *)
Definition calculateBondBody (c : Collaborators) (bondId : string)
    (recalculate saveResults : bool) : M BondCalculationResponse :=
  existingCalculation <-
    (if recalculate then ret None else getExistingCalculation bondId) ;;
  match existingCalculation with
  | Some existing => ret existing
  | None =>
      found <- BondModel_findById bondId ;;
      match found with
      | None => throw (BonoNoEncontrado bondId)
      | Some bond =>
          validateBondForCalculation bond ;;;
          calculationInputs <- convertBondToCalculationInputs c bond ;;
          calculationResult <- calculator_calculate c calculationInputs ;;
          (if saveResults then
             if String.eqb (CalculationInputs.id calculationInputs) "" then throw IdNoEncontrado
             else saveCalculationResults bondId (CalculationInputs.id calculationInputs)
                                         calculationResult
           else ret tt) ;;;
          ret (formatCalculationResponse bondId calculationResult)
      end
  end.

(** [calculateBond]: a [Throw] is an exception that reaches the caller. *)
Definition calculateBond (c : Collaborators) (request : CalculateBondRequest)
  : M BondCalculationResponse :=
  validatedRequest <- liftOutcome (CalculateBondRequestSchema_parse request) ;;
  let '(bondId, recalculate, saveResults) := validatedRequest in
  tryCatch (calculateBondBody c bondId recalculate saveResults)
           (fun error => now <- newDate ;; ret (failureResponse bondId now error)).

(** The success response of [calculateQuickMetrics]. *)
Definition quickResponse (bondId : string) (now : Date) (q : Metricas.t)
  : BondCalculationResponse :=
  {| bondId := bondId; success := true; calculatedAt := Some now;
     metricas :=
       {| emisor := {| e_precioActual := Metricas.precioActual q;
                       e_van := Metricas.utilidadPerdida q;
                       e_tceaEmisor := Metricas.tceaEmisor q;
                       e_tceaEmisorConEscudo := Metricas.tceaEmisorConEscudo q;
                       e_duracion := Metricas.duracion q;
                       e_duracionModificada := Metricas.duracionModificada q;
                       e_convexidad := Metricas.convexidad q;
                       e_totalRatiosDecision := Metricas.totalRatiosDecision q |};
          bonista := {| b_precioActual := Metricas.precioActual q;
                        b_van := Metricas.precioActual q;
                        b_treaBonista := Metricas.treaBonista q;
                        b_duracion := Metricas.duracion q;
                        b_duracionModificada := Metricas.duracionModificada q;
                        b_convexidad := Metricas.convexidad q;
                        b_totalRatiosDecision := Metricas.totalRatiosDecision q |} |};
     flowsCount := 0%nat;
     errors := None |}.

Definition calculateQuickMetrics (c : Collaborators) (bondId : string)
  : M BondCalculationResponse :=
  tryCatch (
    found <- BondModel_findById bondId ;;
    match found with
    | None => throw (BonoNoEncontradoQuick bondId)
    | Some bond =>
        calculationInputs <- convertBondToCalculationInputs c bond ;;
        validateSeriesConsistency (Bond.id bond) calculationInputs ;;;
        quickMetricsResult <- calculator_calculateQuickMetrics c calculationInputs ;;
        now <- newDate ;;
        ret (quickResponse bondId now quickMetricsResult)
    end)
    (fun error => now <- newDate ;; ret (failureResponse bondId now error)).

(** ** Batches *)

(** [arr.slice(start, end)] with the relative-index rules of JavaScript. *)
Definition relativeIndex (len k : Z) : Z :=
  if k <? 0 then Z.max (len + k) 0 else Z.min k len.

Definition slice {A : Type} (arr : list A) (start final : Z) : list A :=
  let len := Z.of_nat (List.length arr) in
  let k := relativeIndex len start in
  let e := relativeIndex len final in
  firstn (Z.to_nat (e - k)) (skipn (Z.to_nat k) arr).

(** The [options] of [calculateMultipleBonds]; [onProgress] records whether
    a callback was supplied. *)
Record Options : Type := {
  parallel : option bool;
  batchSize : option Z;
  onProgress : bool
}.

Definition defaultOptions : Options :=
  {| parallel := None; batchSize := None; onProgress := false |}.

Definition notifyProgress (enabled : bool) (completed total : Z) : M unit :=
  fun w => (Ok tt, if enabled then logProgress completed total w else w).

Definition processBond (c : Collaborators) (bondId : string) : M BondCalculationResponse :=
  calculateBond c {| req_bondId := bondId; req_recalculate := Some true;
                     req_saveResults := Some true |}.

(** One entry of [Promise.allSettled]: a rejection becomes a value.  The
    settled result has no [_promise] field, so [findIndex] answers -1 and
    the entry of a rejected promise is filed under ['unknown_in_batch'].
    The computations of one batch are run one after the other. *)
Definition settledEntry (c : Collaborators) (bondId : string) : M BondCalculationResponse :=
  tryCatch (processBond c bondId)
           (fun reason => now <- newDate ;;
                          ret (failureResponse "unknown_in_batch" now reason)).

Fixpoint allSettled (c : Collaborators) (batch : list string) : M (list BondCalculationResponse) :=
  match batch with
  | [] => ret []
  | bondId :: rest =>
      r <- settledEntry c bondId ;;
      rs <- allSettled c rest ;;
      ret (r :: rs)
  end.

(** [for (let i = 0; i < bondIds.length; i += batchSize)].  [fuel] bounds
    the number of iterations; [None] means the loop is still running when
    the fuel is spent. *)
Fixpoint parallelLoop (c : Collaborators) (bondIds : list string) (batchSize : Z)
    (notify : bool) (fuel : nat) (i : Z) (results : list BondCalculationResponse)
  : M (option (list BondCalculationResponse)) :=
  let len := Z.of_nat (List.length bondIds) in
  if i <? len then
    match fuel with
    | O => ret None
    | S fuel' =>
        let batch := slice bondIds i (i + batchSize) in
        batchResults <- allSettled c batch ;;
        notifyProgress notify (Z.min (i + batchSize) len) len ;;;
        parallelLoop c bondIds batchSize notify fuel' (i + batchSize) (results ++ batchResults)
    end
  else ret (Some results).

(** [for (let i = 0; i < bondIds.length; i++)]: [remaining] is
    [bondIds.slice(i)]. *)
Fixpoint sequentialLoop (c : Collaborators) (remaining : list string) (total : Z)
    (notify : bool) (i : Z) (results : list BondCalculationResponse)
  : M (list BondCalculationResponse) :=
  match remaining with
  | [] => ret results
  | bondId :: rest =>
      result <- processBond c bondId ;;
      notifyProgress notify (i + 1) total ;;;
      sequentialLoop c rest total notify (i + 1) (results ++ [result])
  end.

Definition calculateMultipleBonds (c : Collaborators) (fuel : nat) (bondIds : list string)
    (options : Options) : M (option (list BondCalculationResponse)) :=
  if orDefault (parallel options) false then
    parallelLoop c bondIds (orDefault (batchSize options) 5) (onProgress options) fuel 0 []
  else
    results <- sequentialLoop c bondIds (Z.of_nat (List.length bondIds))
                              (onProgress options) 0 [] ;;
    ret (Some results).

(** ** The input builder of the creation wizard *)

Module Step4Dynamic.

Inductive GraceType : Type := GraceT | GraceP | GraceS.

Record GracePeriodConfig : Type := {
  couponNumber : Z;
  graceType : GraceType
}.

(** The fields of [BondData] from which the two series are built
    ([step1.numAnios], [step2.inflacionAnual], [step2.gracePeriodsConfig]);
    the other fields are scalars copied after parsing. *)
Record BondData : Type := {
  numAnios : option string;
  inflacionAnual : option string;
  gracePeriodsConfig : option (list GracePeriodConfig)
}.

(** What [buildCalculationInputs] returns, restricted to the term and the
    two series.  A number is [None] when it is NaN; an element of
    [graciaSerie] is [None] when it is a hole of the array. *)
Record UiInputs : Type := {
  ui_numAnios : Z;
  ui_inflacionSerie : list (option Q);
  ui_graciaSerie : list (option GraceType)
}.

(** [value || fallback] for an optional string. *)
Definition orString (value : option string) (fallback : string) : string :=
  match value with
  | Some s => if String.eqb s "" then fallback else s
  | None => fallback
  end.

Fixpoint setAt {A : Type} (arr : list A) (index : nat) (v : A) : list A :=
  match arr, index with
  | [], _ => []
  | _ :: rest, O => v :: rest
  | x :: rest, S index' => x :: setAt rest index' v
  end.

(** [arr[index] = v]: a negative index sets a named property and leaves the
    elements alone; an index past the end extends the array with holes. *)
Definition arrayAssign {A : Type} (arr : list (option A)) (index : Z) (v : A)
  : list (option A) :=
  if index <? 0 then arr
  else
    let n := Z.to_nat index in
    if (n <? List.length arr)%nat then setAt arr n (Some v)
    else arr ++ repeat None (n - List.length arr) ++ [Some v].

Section Builder.

(** The built-ins [parseInt] and [parseFloat]; [None] stands for NaN. *)
Variable parseInt : string -> option Z.
Variable parseFloat : string -> option Q.

Definition applyGraceConfig (numAnios : Z) (graciaSerie : list (option GraceType))
    (config : GracePeriodConfig) : list (option GraceType) :=
  let yearIndex := (couponNumber config - 1) / 2 in
  if yearIndex <? numAnios then arrayAssign graciaSerie yearIndex (graceType config)
  else graciaSerie.

Definition buildCalculationInputs (bondData : BondData) : Outcome UiInputs :=
  match parseInt (orString (numAnios bondData) "5") with
  | None => Throw InvalidArrayLength
  | Some years =>
      let inflacion := parseFloat (orString (inflacionAnual bondData) "0.10") in
      match Array_fill years inflacion, Array_fill years (Some GraceS) with
      | Ok inflacionSerie, Ok filled =>
          let graciaSerie :=
            fold_left (applyGraceConfig years)
                      (orDefault (gracePeriodsConfig bondData) []) filled in
          Ok {| ui_numAnios := years;
                ui_inflacionSerie := inflacionSerie;
                ui_graciaSerie := graciaSerie |}
      | Throw e, _ => Throw e
      | _, Throw e => Throw e
      end
  end.

End Builder.

End Step4Dynamic.

(** ** The precision settings handed to the calculator *)

Inductive RoundingMode : Type := ROUND_HALF_UP.

Record PrecisionConfig : Type := {
  decimalPlaces : nat;
  tolerance : Q;
  roundingMode : RoundingMode
}.

(** The constant of the constructor of [BondCalculationsService]. *)
Definition precisionSettings : PrecisionConfig :=
  {| decimalPlaces := 6; tolerance := 1 # 100000000; roundingMode := ROUND_HALF_UP |}.

(** ** The root finder *)

(** The solver and the net present value belong to [FinancialCalculator],
    which is not among the sources: this module is written from the
    specification of the root finder. *)
Module RootFinder.

(** Modelled from the spec: what the root finder answers, a rate or the
    failure [ConvergenceError]. *)
Inductive Result : Type :=
| Rate (r : Q)
| ConvergenceError.

(** Modelled from the spec: the answer of a run, with the number of
    refinement steps it took. *)
Record Run : Type := {
  result : Result;
  iterations : nat
}.

Section Solver.

(** The function being zeroed, and the tolerance. *)
Variable f : Q -> Q.
Variable tol : Q.

(** Modelled from the spec: the stopping test [|f(r)| < tolerance]. *)
Definition withinTolerance (r : Q) : bool :=
  negb (Qle_bool tol (Qabs (f r))).

(** Modelled from the spec: the values at the two ends change sign. *)
Definition changesSign (a b : Q) : bool :=
  negb (Qle_bool 0 (f a * f b)).

(** Modelled from the spec: the solver of [FinancialCalculator] is not
    among the sources.  Bisection: refine the bracket until
    [|f(r)| < tolerance] or the iteration budget is spent; the budget spent
    means [ConvergenceError]. *)
Fixpoint refine (budget : nat) (used : nat) (lo hi : Q) : Run :=
  match budget with
  | O => {| result := ConvergenceError; iterations := used |}
  | S budget' =>
      let mid := Qred ((lo + hi) / 2) in
      if withinTolerance mid then {| result := Rate mid; iterations := S used |}
      else if changesSign lo mid then refine budget' (S used) lo mid
      else refine budget' (S used) mid hi
  end.

(** Modelled from the spec: the solver is not among the sources.  It fails
    with [ConvergenceError] when the values at the ends of the bracket do
    not change sign, and refines the bracket otherwise. *)
Definition solve (maxIterations : nat) (lo hi : Q) : Run :=
  if changesSign lo hi then refine maxIterations 0 lo hi
  else {| result := ConvergenceError; iterations := 0 |}.

End Solver.

Section NPV.

(** [Math.pow] on numbers. *)
Variable pow : Q -> Q -> Q.

(** Modelled from the spec: the net present value is not among the
    sources.  [NPV(flows, r) = sum of flow[p] / (1 + r)^(p / periodsPerYear)],
    for the flows [flow[p], flow[p+1], ...]. *)
Fixpoint NPVfrom (p : nat) (flows : list Q) (periodsPerYear : Q) (r : Q) : Q :=
  match flows with
  | [] => 0
  | flow :: rest =>
      flow / pow (1 + r) (inject_Z (Z.of_nat p) / periodsPerYear)
      + NPVfrom (S p) rest periodsPerYear r
  end.

(** Modelled from the spec: the NPV of a schedule, period 0 first. *)
Definition NPV (flows : list Q) (periodsPerYear : Q) (r : Q) : Q :=
  NPVfrom 0 flows periodsPerYear r.

(** Modelled from the spec: the lower end of the bracket, -0.99. *)
Definition bracketLow : Q := - (99 # 100).

(** Modelled from the spec: the upper end of the bracket, 10.0. *)
Definition bracketHigh : Q := 10.

(** Modelled from the spec: the iteration budget, 200. *)
Definition maxIterations : nat := 200.

(** Modelled from the spec: [solveEffectiveRate(flows, periodsPerYear)] is
    not among the sources.  It zeroes the NPV with the tolerance of
    [precisionSettings]. *)
Definition solveEffectiveRate (flows : list Q) (periodsPerYear : Q) : Run :=
  solve (NPV flows periodsPerYear) (tolerance precisionSettings)
        maxIterations bracketLow bracketHigh.

End NPV.

End RootFinder.


(** ** Pure readings of the methods

    The effect of a method on the tables, as a function of the tables; the
    lemmas [*_run] relate each method to its reading. *)

Definition andThen {A B : Type} (o : Outcome A) (k : A -> Outcome B) : Outcome B :=
  match o with
  | Ok a => k a
  | Throw e => Throw e
  end.

(** The tables after a successful [repairInconsistentSeries]. *)
Definition repairedDb (bondId : string) (inflacion gracia : list Json) (d : Database)
  : Database :=
  set_calculationInputs
    (map (updateSeries bondId (JArr inflacion) (JArr gracia)) (calculationInputs d)) d.

(** The validation of the two series when no repair is needed. *)
Definition validatedInputs (recordId : string) (bond : Bond.t) (bondCosts : BondCosts.t)
    (rawInflacionSerie rawGraciaSerie : Json) : Outcome CalculationInputs.t :=
  match rawInflacionSerie with
  | JArr inflacionItems =>
      match firstInvalid isFiniteNumber 0 inflacionItems with
      | Some (index, item) => Throw (InflacionItemNotFinite index item)
      | None =>
          match rawGraciaSerie with
          | JArr graciaItems =>
              match firstInvalid isGraceCode 0 graciaItems with
              | Some (index, item) => Throw (GraciaItemInvalid index item)
              | None => Ok (buildInputs recordId bond bondCosts inflacionItems graciaItems)
              end
          | _ => Throw (GraciaMustBeArray (Bond.id bond))
          end
      end
  | _ => Throw (InflacionMustBeArray (Bond.id bond))
  end.

(** [convertBondToCalculationInputs] on the tables: its outcome and the
    tables it leaves. *)
Definition convertPure (c : Collaborators) (bond : Bond.t) (d : Database)
  : Outcome CalculationInputs.t * Database :=
  match Bond.costs bond with
  | None => (Throw (CostesNoDefinidos (Bond.id bond)), d)
  | Some bondCosts =>
      match findInputs (Bond.id bond) d with
      | None => (Throw (RegistroNoEncontrado (Bond.id bond)), d)
      | Some record =>
          let rawInflacionSerie := parseIfString c (CalcInputsRecord.inflacionSerie record) in
          let rawGraciaSerie := parseIfString c (CalcInputsRecord.graciaSerie record) in
          if needsRepair rawInflacionSerie rawGraciaSerie (Bond.numAnios bond) then
            match repairInflacion (CalcInputsRecord.inflacionSerie record) (Bond.numAnios bond) with
            | Throw e => (Throw (FailedToRepair (Bond.id bond) e), d)
            | Ok infl =>
                match repairGracia (CalcInputsRecord.graciaSerie record) (Bond.numAnios bond) with
                | Throw e => (Throw (FailedToRepair (Bond.id bond) e), d)
                | Ok gra =>
                    (Ok (buildInputs (CalcInputsRecord.id record) bond bondCosts infl gra),
                     repairedDb (Bond.id bond) infl gra d)
                end
            end
          else
            (validatedInputs (CalcInputsRecord.id record) bond bondCosts
                             rawInflacionSerie rawGraciaSerie, d)
      end
  end.

Definition saveFlowsPure (bondId : string) (result : CalculationResult.t) (d : Database)
  : Outcome Database :=
  match CalculationResult.flujos result with
  | Some (flow :: flows) =>
      createFlows (map (toCashFlowData bondId) (flow :: flows)) (deleteFlows bondId d)
  | _ => Ok d
  end.

Definition saveTransactionPure (bondId calculationInputsId : string)
    (result : CalculationResult.t) (now : Date) (d : Database) : Outcome Database :=
  let fechaCalculo := orDefault (CalculationResult.fechaCalculo result) now in
  let m := CalculationResult.metricas result in
  andThen (saveFlowsPure bondId result d) (fun d1 =>
  andThen (upsertMetrics bondId EMISOR (emisorCreate bondId m fechaCalculo)
                         (emisorUpdate m fechaCalculo) d1) (fun d2 =>
  andThen (upsertMetrics bondId BONISTA (bonistaCreate bondId m fechaCalculo)
                         (bonistaUpdate m fechaCalculo) d2) (fun d3 =>
  upsertResult bondId calculationInputsId
               (resultCreate bondId calculationInputsId result now)
               (resultUpdate result now) d3))).

(** The status update that follows the transaction. *)
Definition activateDraft (bondId : string) (d : Database) : Outcome Database :=
  match findBond bondId d with
  | Some bond =>
      match Bond.status bond with
      | DRAFT => setStatus bondId ACTIVE d
      | _ => Ok d
      end
  | None => Ok d
  end.

(** The series invariant of [CalculationInputs]. *)
Definition seriesInvariant (i : CalculationInputs.t) : Prop :=
  Z.of_nat (List.length (CalculationInputs.inflacionSerie i)) = CalculationInputs.numAnios i
  /\ Z.of_nat (List.length (CalculationInputs.graciaSerie i)) = CalculationInputs.numAnios i.

(** The calculator gives the same schedule, metrics and errors whatever
    the clock reads. *)
Definition sameComputation (o1 o2 : Outcome CalculationResult.t) : Prop :=
  match o1, o2 with
  | Ok r1, Ok r2 =>
      CalculationResult.flujos r1 = CalculationResult.flujos r2
      /\ CalculationResult.metricas r1 = CalculationResult.metricas r2
  | Throw e1, Throw e2 => e1 = e2
  | _, _ => False
  end.

Definition clockIndependent (calc : FinancialCalculator.t) : Prop :=
  forall (t1 t2 : Date) (i : CalculationInputs.t),
    sameComputation (FinancialCalculator.calculate calc t1 i)
                    (FinancialCalculator.calculate calc t2 i).

(** Two responses that agree on everything but the timestamp. *)
Definition sameResponse (r1 r2 : BondCalculationResponse) : Prop :=
  bondId r1 = bondId r2
  /\ success r1 = success r2
  /\ metricas r1 = metricas r2
  /\ flowsCount r1 = flowsCount r2
  /\ errors r1 = errors r2.

Definition sameOutcome (o1 o2 : Outcome BondCalculationResponse) : Prop :=
  match o1, o2 with
  | Ok r1, Ok r2 => sameResponse r1 r2
  | Throw e1, Throw e2 => e1 = e2
  | _, _ => False
  end.

(** The stored schedule of a bond, without the generated keys. *)
Definition storedSchedule (bondId : string) (d : Database) : list CashFlowData.t :=
  map CashFlow.data (flowsOfBond bondId d).

(** The tables after the status update: only the status of this bond may
    have changed, and only from DRAFT to ACTIVE. *)
Definition activated (bondId : string) (d : Database) : Database :=
  match findBond bondId d with
  | Some bond =>
      match Bond.status bond with
      | DRAFT =>
          set_bonds
            (map (fun b => if String.eqb (Bond.id b) bondId then Bond.withStatus ACTIVE b else b)
                 (bonds d)) d
      | _ => d
      end
  | None => d
  end.

(** The tables a recalculation reads are left alone. *)
Definition sameInputsDb (d d' : Database) : Prop :=
  bonds d' = bonds d /\ calculationInputs d' = calculationInputs d.

(** [getExistingCalculation] on the tables. *)
Definition existingCalculation (bondId : string) (d : Database)
  : option BondCalculationResponse :=
  match findMetrics bondId EMISOR d, findMetrics bondId BONISTA d with
  | Some em, Some bm =>
      if (0 <? List.length (flowsOfBond bondId d))%nat
      then Some (existingResponse bondId (List.length (flowsOfBond bondId d)) em bm)
      else None
  | _, _ => None
  end.

(** The body of [calculateBond] once a recalculation has been decided. *)
Definition recalculation (c : Collaborators) (bondId : string) (saveResults : bool)
    (w : World) : Outcome BondCalculationResponse * World :=
  match findBond bondId (db w) with
  | None => (Throw (BonoNoEncontrado bondId), w)
  | Some bond =>
      match bondFieldErrors bond with
      | _ :: _ => (Throw (BonoInvalido (bondFieldErrors bond)), w)
      | [] =>
          match convertPure c bond (db w) with
          | (Throw e, _) => (Throw e, w)
          | (Ok inputs, d1) =>
              let w1 := logCalculatorCall inputs (set_db d1 w) in
              match FinancialCalculator.calculate (calculator c) (clock w) inputs with
              | Throw e => (Throw e, w1)
              | Ok result =>
                  if saveResults then
                    if String.eqb (CalculationInputs.id inputs) "" then (Throw IdNoEncontrado, w1)
                    else
                      match saveTransactionPure bondId (CalculationInputs.id inputs) result
                                                (clock w) d1 with
                      | Throw e => (Throw e, w1)
                      | Ok d2 =>
                          (Ok (formatCalculationResponse bondId result),
                           set_db (activated bondId d2) w1)
                      end
                  else (Ok (formatCalculationResponse bondId result), w1)
              end
          end
      end
  end.


(** A series is malformed for a term of [numAnios] years: it is not an
    array, its length is not [numAnios], or one of its elements is a string
    with an opening bracket. *)
Definition malformedSeries (series : Json) (numAnios : Z) : Prop :=
  match series with
  | JArr items =>
      Z.of_nat (List.length items) <> numAnios
      \/ exists item, In item items /\ isCorruptItem item = true
  | _ => True
  end.

(** [item], at position [index], is the first element of [items] that fails
    the test [ok]. *)
Definition firstBad (ok : Json -> bool) (items : list Json) (index : nat) (item : Json)
  : Prop :=
  nth_error items index = Some item
  /\ ok item = false
  /\ forallb ok (firstn index items) = true.

(** The calculation of a bond is refused with the error [e]: the conversion
    throws it, the quick metrics and, for a valid bond asked to be
    recalculated, [calculateBond] answer with the failure response that
    carries it, and the world is as before, so that nothing has been written
    and the calculator has not been called. *)
Definition refusedWith (c : Collaborators) (bond : Bond.t) (w : World) (e : ErrorMessage)
  : Prop :=
  convertBondToCalculationInputs c bond w = (Throw e, w)
  /\ calculateQuickMetrics c (Bond.id bond) w
     = (Ok (failureResponse (Bond.id bond) (clock w) e), w)
  /\ (forall request,
        req_bondId request = Bond.id bond ->
        isCuid (Bond.id bond) = true ->
        req_recalculate request = Some true ->
        bondFieldErrors bond = [] ->
        calculateBond c request w = (Ok (failureResponse (Bond.id bond) (clock w) e), w)).

(** The calculation of a bond goes to the calculator with [inputs]: the
    conversion returns them and leaves the tables [d], the quick metrics and,
    for a valid bond asked to be recalculated, [calculateBond] hand them to
    the calculator. *)
Definition calculatedOn (c : Collaborators) (bond : Bond.t) (w : World)
    (inputs : CalculationInputs.t) (d : Database) : Prop :=
  convertBondToCalculationInputs c bond w = (Ok inputs, set_db d w)
  /\ calculatorCalls (snd (calculateQuickMetrics c (Bond.id bond) w))
     = inputs :: calculatorCalls w
  /\ (forall q,
        FinancialCalculator.calculateQuickMetrics (calculator c) (clock w) inputs = Ok q ->
        fst (calculateQuickMetrics c (Bond.id bond) w)
        = Ok (quickResponse (Bond.id bond) (clock w) q))
  /\ (forall request,
        req_bondId request = Bond.id bond ->
        isCuid (Bond.id bond) = true ->
        req_recalculate request = Some true ->
        bondFieldErrors bond = [] ->
        calculatorCalls (snd (calculateBond c request w)) = inputs :: calculatorCalls w).

(** Two bond rows that agree on every column but [status]. *)
Definition sameButStatus (b b' : Bond.t) : Prop :=
  Bond.id b' = Bond.id b
  /\ Bond.name b' = Bond.name b
  /\ Bond.valorNominal b' = Bond.valorNominal b
  /\ Bond.valorComercial b' = Bond.valorComercial b
  /\ Bond.numAnios b' = Bond.numAnios b
  /\ Bond.fechaEmision b' = Bond.fechaEmision b
  /\ Bond.frecuenciaCupon b' = Bond.frecuenciaCupon b
  /\ Bond.baseDias b' = Bond.baseDias b
  /\ Bond.tipoTasa b' = Bond.tipoTasa b
  /\ Bond.periodicidadCapitalizacion b' = Bond.periodicidadCapitalizacion b
  /\ Bond.tasaAnual b' = Bond.tasaAnual b
  /\ Bond.primaVencimiento b' = Bond.primaVencimiento b
  /\ Bond.impuestoRenta b' = Bond.impuestoRenta b
  /\ Bond.costs b' = Bond.costs b.

(** Modelled from the spec: [FinancialCalculator] is not among the sources.
    Section 5 of the specification makes the engine a pure function from the
    calculation inputs to the schedule and the metrics, with no state of its
    own, and section 3 has the result carry the computation timestamp: the
    schedule, the metrics, the intermediate values and the failures are given
    by [valuation] and [quickValuation], functions of the inputs alone, and
    only [fechaCalculo] is read from the clock. *)
Definition engineCalculator
    (valuation : CalculationInputs.t
                 -> Outcome (option (list Flow.t) * Metricas.t * option Json))
    (quickValuation : CalculationInputs.t -> Outcome Metricas.t)
  : FinancialCalculator.t :=
  {| FinancialCalculator.calculate := fun now inputs =>
       match valuation inputs with
       | Ok (flujos, metricas, intermedios) =>
           Ok {| CalculationResult.flujos := flujos;
                 CalculationResult.metricas := metricas;
                 CalculationResult.intermedios := intermedios;
                 CalculationResult.fechaCalculo := Some now |}
       | Throw e => Throw e
       end;
     FinancialCalculator.calculateQuickMetrics := fun now inputs => quickValuation inputs |}.

(** A bond that [validateBondForCalculation] must refuse. *)
Definition invalidBond (bond : Bond.t) : Prop :=
  (Bond.valorNominal bond <= 0)%Q
  \/ (Bond.valorComercial bond <= 0)%Q
  \/ Bond.numAnios bond <= 0
  \/ (Bond.tasaAnual bond < 0)%Q.

Definition withRecalculate (request : CalculateBondRequest) : CalculateBondRequest :=
  {| req_bondId := req_bondId request; req_recalculate := Some true;
     req_saveResults := req_saveResults request |}.

(** [calculateQuickMetrics] of the service as a function of the world. *)
Definition quickMetrics (c : Collaborators) (bid : string) (w : World)
  : Outcome BondCalculationResponse * World :=
  match findBond bid (db w) with
  | None => (Ok (failureResponse bid (clock w) (BonoNoEncontradoQuick bid)), w)
  | Some bond =>
      match convertPure c bond (db w) with
      | (Throw e, _) => (Ok (failureResponse bid (clock w) e), w)
      | (Ok inputs, d1) =>
          let w1 := logCalculatorCall inputs (set_db d1 w) in
          match FinancialCalculator.calculateQuickMetrics (calculator c) (clock w) inputs with
          | Ok q => (Ok (quickResponse bid (clock w) q), w1)
          | Throw e => (Ok (failureResponse bid (clock w) e), w1)
          end
      end
  end.

(** Two states of the tables that a recalculation cannot tell apart: the
    same inputs records, the same bonds up to their status. *)
Definition sameUpToStatus (d d' : Database) : Prop :=
  calculationInputs d' = calculationInputs d
  /\ map (Bond.withStatus DRAFT) (bonds d') = map (Bond.withStatus DRAFT) (bonds d).

(** The unique index of [cash_flows], read on the stored data. *)
Definition keyTaken (x : CashFlowData.t) (stored : list CashFlowData.t) : bool :=
  existsb (fun y => String.eqb (CashFlowData.bondId y) (CashFlowData.bondId x)
                    && (CashFlowData.periodo y =? CashFlowData.periodo x)) stored.

(** [createMany] with [skipDuplicates], read on the stored data of one bond:
    a record whose period is already stored is skipped. *)
Definition insertData (stored : list CashFlowData.t) (x : CashFlowData.t)
  : list CashFlowData.t :=
  if keyTaken x stored then stored else stored ++ [x].

(** The schedule stored for a bond after its records have been replaced by
    the given flows. *)
Definition replacedSchedule (bid : string) (flows : list Flow.t) : list CashFlowData.t :=
  fold_left insertData (map (toCashFlowData bid) flows) [].

(** ** The recalculation script

    [scripts/recalculate-all-bonds]: every bond is recalculated in turn, and
    an exception of one bond is caught and counted. *)

(** The two counters of the script. *)
Record ScriptSummary : Type := {
  successCount : nat;
  errorCount : nat
}.

(** One turn of the loop [for (const bond of allBonds)]: the call is wrapped
    in [try]/[catch], a response without [success] and an exception both
    count as an error. *)
Definition recalculateOne (c : Collaborators) (summary : ScriptSummary) (bond : Bond.t)
  : M ScriptSummary :=
  tryCatch (
    result <- calculateBond c {| req_bondId := Bond.id bond; req_recalculate := Some true;
                                 req_saveResults := Some true |} ;;
    if success result
    then ret {| successCount := S (successCount summary); errorCount := errorCount summary |}
    else ret {| successCount := successCount summary; errorCount := S (errorCount summary) |})
    (fun err =>
       ret {| successCount := successCount summary; errorCount := S (errorCount summary) |}).

(** The loop of [main] over the bonds read at the start ([bondModel.findMany]
    is not among the sources: its answer is the argument [allBonds]). *)
Fixpoint recalculateLoop (c : Collaborators) (allBonds : list Bond.t) (summary : ScriptSummary)
  : M ScriptSummary :=
  match allBonds with
  | [] => ret summary
  | bond :: rest =>
      summary' <- recalculateOne c summary bond ;;
      recalculateLoop c rest summary'
  end.

Definition recalculateAllBonds (c : Collaborators) (allBonds : list Bond.t) : M ScriptSummary :=
  recalculateLoop c allBonds {| successCount := 0; errorCount := 0 |}.

(** ** Readings used by the further properties *)

(** The year a coupon number is filed under by the input builder. *)
Definition yearIndexOf (config : Step4Dynamic.GracePeriodConfig) : Z :=
  (Step4Dynamic.couponNumber config - 1) / 2.

(** The grace type of year [k]: the one of the last configuration filed
    under that year, 'S' when there is none. *)
Definition graceOfYear (k : Z) (configs : list Step4Dynamic.GracePeriodConfig)
  : Step4Dynamic.GraceType :=
  fold_left (fun g config => if yearIndexOf config =? k
                             then Step4Dynamic.graceType config else g)
            configs Step4Dynamic.GraceS.

(** The columns of the unique indexes of the schema that the service
    writes under: [cash_flows(bond_id, periodo)],
    [financial_metrics(bond_id, role)] and
    [calculation_results(bond_id, calculation_inputs_id)]. *)
Definition flowKey (r : CashFlow.t) : string * Z :=
  (CashFlow.bondId r, CashFlow.periodo r).

Definition metricsKey (r : FinancialMetrics.t) : string * MetricsRole :=
  (FinancialMetrics.bondId r, FinancialMetrics.role r).

Definition resultKey (r : CalcResultRow.t) : string * string :=
  (CalcResultRow.bondId r, CalcResultRow.calculationInputsId r).

(** No two rows of a table agree on the columns of its unique index; the
    fourth index is [calculation_inputs(bond_id)]. *)
Definition uniqueIndexes (d : Database) : Prop :=
  NoDup (map flowKey (cashFlows d))
  /\ NoDup (map metricsKey (financialMetrics d))
  /\ NoDup (map resultKey (calculationResults d))
  /\ NoDup (map CalcInputsRecord.bondId (calculationInputs d)).

(** The rows of bond [other] are the same in both states of the tables. *)
Definition untouched (other : string) (d d' : Database) : Prop :=
  findBond other d' = findBond other d
  /\ findInputs other d' = findInputs other d
  /\ flowsOfBond other d' = flowsOfBond other d
  /\ filter (fun r => String.eqb (FinancialMetrics.bondId r) other) (financialMetrics d')
     = filter (fun r => String.eqb (FinancialMetrics.bondId r) other) (financialMetrics d)
  /\ filter (fun r => String.eqb (CalcResultRow.bondId r) other) (calculationResults d')
     = filter (fun r => String.eqb (CalcResultRow.bondId r) other) (calculationResults d).

(** A call made for [bondId] has left every other bond untouched. *)
Definition othersUntouched (bondId : string) (d d' : Database) : Prop :=
  forall other, String.eqb other bondId = false -> untouched other d d'.

(** A bond whose four validated fields are in range. *)
Definition validBond (bond : Bond.t) : Prop :=
  (0 < Bond.valorNominal bond)%Q
  /\ (0 < Bond.valorComercial bond)%Q
  /\ 0 < Bond.numAnios bond
  /\ (0 <= Bond.tasaAnual bond)%Q.

(** The tables other than [calculation_inputs] are as before. *)
Definition onlyInputsChanged (d d' : Database) : Prop :=
  bonds d' = bonds d
  /\ cashFlows d' = cashFlows d
  /\ financialMetrics d' = financialMetrics d
  /\ calculationResults d' = calculationResults d
  /\ nextId d' = nextId d.

(** What [Promise.allSettled] leaves for an id in the parallel mode of
    [calculateMultipleBonds]: the response of [calculateBond] for that id, or,
    for an id that the request schema refuses, a failure filed under
    ['unknown_in_batch']. *)
Definition settledFor (bid : string) (r : BondCalculationResponse) : Prop :=
  if isCuid bid then bondId r = bid
  else bondId r = "unknown_in_batch"
       /\ success r = false
       /\ flowsCount r = 0%nat
       /\ errors r = Some [ZodInvalidCuid].

(** The notifications [onProgress(i + 1, total)] of the sequential loop for
    [count] bonds, the most recent first. *)
Definition sequentialProgress (count : nat) : list (Z * Z) :=
  rev (map (fun k => (Z.of_nat k, Z.of_nat count)) (seq 1 count)).

(** ** Sample data *)

Module Sample.

Definition someFlow (p : Z) : Flow.t :=
  {| Flow.periodo := p; Flow.fecha := 1000 + p;
     Flow.inflacionAnual := None; Flow.inflacionSemestral := None;
     Flow.gracia := Some "S";
     Flow.bonoCapital := Some 1000%Q; Flow.bonoIndexado := Some 1000%Q;
     Flow.cupon := Some 40%Q; Flow.amortizacion := Some 0%Q;
     Flow.cuota := Some 40%Q; Flow.prima := Some 0%Q;
     Flow.escudoFiscal := Some 12%Q; Flow.flujoEmisor := Some (-40)%Q;
     Flow.flujoEmisorConEscudo := Some (-28)%Q; Flow.flujoBonista := Some 40%Q;
     Flow.flujoActualizado := None; Flow.faPlazoPonderado := None;
     Flow.factorConvexidad := None |}.

Definition someMetricas (i : CalculationInputs.t) : Metricas.t :=
  {| Metricas.precioActual := CalculationInputs.valorNominal i;
     Metricas.utilidadPerdida := CalculationInputs.valorComercial i;
     Metricas.tceaEmisor := 8 # 100;
     Metricas.tceaEmisorConEscudo := 6 # 100;
     Metricas.treaBonista := 7 # 100;
     Metricas.duracion := 4;
     Metricas.duracionModificada := 3;
     Metricas.convexidad := 20;
     Metricas.totalRatiosDecision := 27 |}.

(** A result with two periods. *)
Definition someResult : CalculationResult.t :=
  {| CalculationResult.flujos := Some [someFlow 0; someFlow 1];
     CalculationResult.metricas :=
       {| Metricas.precioActual := 1000; Metricas.utilidadPerdida := 50;
          Metricas.tceaEmisor := 8 # 100; Metricas.tceaEmisorConEscudo := 6 # 100;
          Metricas.treaBonista := 7 # 100; Metricas.duracion := 4;
          Metricas.duracionModificada := 3; Metricas.convexidad := 20;
          Metricas.totalRatiosDecision := 27 |};
     CalculationResult.intermedios := None;
     CalculationResult.fechaCalculo := None |}.

(** The same result without a schedule. *)
Definition emptyResult : CalculationResult.t :=
  {| CalculationResult.flujos := Some [];
     CalculationResult.metricas := CalculationResult.metricas someResult;
     CalculationResult.intermedios := None;
     CalculationResult.fechaCalculo := None |}.

(** A calculator that returns two periods and stamps the result with the
    clock. *)
Definition calc : FinancialCalculator.t :=
  {| FinancialCalculator.calculate := fun now i =>
       Ok {| CalculationResult.flujos := Some [someFlow 0; someFlow 1];
             CalculationResult.metricas := someMetricas i;
             CalculationResult.intermedios := None;
             CalculationResult.fechaCalculo := Some now |};
     FinancialCalculator.calculateQuickMetrics := fun now i => Ok (someMetricas i) |}.

Definition collab : Collaborators :=
  {| calculator := calc; JSON_parse := fun _ => None |}.

Definition bondId1 : string := "cjld2cjxh0000qzrmn831i7rn".

Definition someCosts : BondCosts.t :=
  {| BondCosts.estructuracionPct := 1 # 100; BondCosts.colocacionPct := 25 # 10000;
     BondCosts.flotacionPct := 45 # 10000; BondCosts.cavaliPct := 5 # 1000 |}.

Definition bond1 : Bond.t :=
  {| Bond.id := bondId1; Bond.name := "Bono A"; Bond.status := DRAFT;
     Bond.valorNominal := 1000; Bond.valorComercial := 1050; Bond.numAnios := 2;
     Bond.fechaEmision := 1000; Bond.frecuenciaCupon := SEMESTRAL; Bond.baseDias := 360;
     Bond.tipoTasa := EFECTIVA; Bond.periodicidadCapitalizacion := "semestral";
     Bond.tasaAnual := 8 # 100; Bond.primaVencimiento := 1 # 100;
     Bond.impuestoRenta := 30 # 100; Bond.costs := Some someCosts |}.

(** The same bond with a nominal value of zero. *)
Definition bondZeroNominal : Bond.t :=
  {| Bond.id := bondId1; Bond.name := "Bono A"; Bond.status := DRAFT;
     Bond.valorNominal := 0; Bond.valorComercial := 1050; Bond.numAnios := 2;
     Bond.fechaEmision := 1000; Bond.frecuenciaCupon := SEMESTRAL; Bond.baseDias := 360;
     Bond.tipoTasa := EFECTIVA; Bond.periodicidadCapitalizacion := "semestral";
     Bond.tasaAnual := 8 # 100; Bond.primaVencimiento := 1 # 100;
     Bond.impuestoRenta := 30 # 100; Bond.costs := Some someCosts |}.

(** Stored series of a two-year bond: the inflation series has one element
    only. *)
Definition shortInputs : CalcInputsRecord.t :=
  {| CalcInputsRecord.id := "inputs1"; CalcInputsRecord.bondId := bondId1;
     CalcInputsRecord.inflacionSerie := JArr [JNum (10 # 100)];
     CalcInputsRecord.graciaSerie := JArr [JStr "S"; JStr "S"] |}.

(** Well-formed stored series. *)
Definition goodInputs : CalcInputsRecord.t :=
  {| CalcInputsRecord.id := "inputs1"; CalcInputsRecord.bondId := bondId1;
     CalcInputsRecord.inflacionSerie := JArr [JNum (10 # 100); JNum (10 # 100)];
     CalcInputsRecord.graciaSerie := JArr [JStr "S"; JStr "P"] |}.

Definition oldFlow : CashFlow.t :=
  {| CashFlow.id := 0%nat; CashFlow.data := toCashFlowData bondId1 (someFlow 7) |}.

Definition mkDb (b : Bond.t) (r : CalcInputsRecord.t) (flows : list CashFlow.t) : Database :=
  {| bonds := [b]; calculationInputs := [r]; cashFlows := flows;
     financialMetrics := []; calculationResults := []; nextId := 1 |}.

Definition mkWorld (d : Database) : World :=
  {| db := d; clock := 5000; calculatorCalls := []; progress := [] |}.

(** A world whose bond has a malformed inflation series. *)
Definition worldShort : World := mkWorld (mkDb bond1 shortInputs []).

(** A world with well-formed series and one stored period. *)
Definition worldGood : World := mkWorld (mkDb bond1 goodInputs [oldFlow]).

(** A world whose bond has a nominal value of zero. *)
Definition worldZeroNominal : World := mkWorld (mkDb bondZeroNominal goodInputs []).

Definition request (recalculate : bool) : CalculateBondRequest :=
  {| req_bondId := bondId1; req_recalculate := Some recalculate;
     req_saveResults := Some true |}.

(** The world left by a first calculation on [worldGood]. *)
Definition worldCalculated : World :=
  snd (calculateBond collab (request true) worldGood).

(** Integer powers, enough for annual flows. *)
Definition powInt (base exponent : Q) : Q :=
  Qpower base (Qnum exponent / Z.pos (Qden exponent)).

End Sample.

(** ** Further sample data *)

Module Sample2.

(** A second bond, already active, with its own record and one stored
    period. *)
Definition bondId2 : string := "cjld2cyuq0000t3rmniod1foy".

Definition bond2 : Bond.t :=
  {| Bond.id := bondId2; Bond.name := "Bono B"; Bond.status := ACTIVE;
     Bond.valorNominal := 500; Bond.valorComercial := 480; Bond.numAnios := 1;
     Bond.fechaEmision := 2000; Bond.frecuenciaCupon := ANUAL; Bond.baseDias := 365;
     Bond.tipoTasa := NOMINAL; Bond.periodicidadCapitalizacion := "anual";
     Bond.tasaAnual := 5 # 100; Bond.primaVencimiento := 0;
     Bond.impuestoRenta := 30 # 100; Bond.costs := Some Sample.someCosts |}.

Definition inputs2 : CalcInputsRecord.t :=
  {| CalcInputsRecord.id := "inputs2"; CalcInputsRecord.bondId := bondId2;
     CalcInputsRecord.inflacionSerie := JArr [JNum (2 # 100)];
     CalcInputsRecord.graciaSerie := JArr [JStr "T"] |}.

Definition flow2 : CashFlow.t :=
  {| CashFlow.id := 0%nat; CashFlow.data := toCashFlowData bondId2 (Sample.someFlow 1) |}.

(** Stored series of the first bond, two years: the inflation series has a
    [null] in a series of the right length, the grace series an unknown
    code. *)
Definition dirtyInputs : CalcInputsRecord.t :=
  {| CalcInputsRecord.id := "inputs1"; CalcInputsRecord.bondId := Sample.bondId1;
     CalcInputsRecord.inflacionSerie := JArr [JNum (10 # 100); JNull];
     CalcInputsRecord.graciaSerie := JArr [JStr "P"; JStr "X"] |}.

(** Stored series kept as JSON text: the inflation text would parse to a
    well-formed series, the grace text to a series too short. *)
Definition textInputs : CalcInputsRecord.t :=
  {| CalcInputsRecord.id := "inputs1"; CalcInputsRecord.bondId := Sample.bondId1;
     CalcInputsRecord.inflacionSerie := JStr "[0.1,0.2]";
     CalcInputsRecord.graciaSerie := JStr "[S]" |}.

(** A parser that knows the two texts above. *)
Definition parseTexts (s : string) : option Json :=
  if String.eqb s "[0.1,0.2]" then Some (JArr [JNum (1 # 10); JNum (2 # 10)])
  else if String.eqb s "[S]" then Some (JArr [JStr "S"])
  else None.

Definition collabTexts : Collaborators :=
  {| calculator := Sample.calc; JSON_parse := parseTexts |}.

(** Stored series of the first bond with the inflation series kept as the
    text of a well-formed series. *)
Definition textGoodInputs : CalcInputsRecord.t :=
  {| CalcInputsRecord.id := "inputs1"; CalcInputsRecord.bondId := Sample.bondId1;
     CalcInputsRecord.inflacionSerie := JStr "[0.1,0.2]";
     CalcInputsRecord.graciaSerie := JArr [JStr "P"; JStr "S"] |}.

(** The first bond with a negative term. *)
Definition bondNegativeTerm : Bond.t :=
  {| Bond.id := Sample.bondId1; Bond.name := "Bono A"; Bond.status := DRAFT;
     Bond.valorNominal := 1000; Bond.valorComercial := 1050; Bond.numAnios := -1;
     Bond.fechaEmision := 1000; Bond.frecuenciaCupon := SEMESTRAL; Bond.baseDias := 360;
     Bond.tipoTasa := EFECTIVA; Bond.periodicidadCapitalizacion := "semestral";
     Bond.tasaAnual := 8 # 100; Bond.primaVencimiento := 1 # 100;
     Bond.impuestoRenta := 30 # 100; Bond.costs := Some Sample.someCosts |}.

Definition mkDb2 (b : Bond.t) (r : CalcInputsRecord.t) : Database :=
  {| bonds := [b; bond2]; calculationInputs := [r; inputs2]; cashFlows := [flow2];
     financialMetrics := []; calculationResults := []; nextId := 1 |}.

(** Two bonds, the first with a short inflation series. *)
Definition worldTwo : World := Sample.mkWorld (mkDb2 Sample.bond1 Sample.shortInputs).

(** Two bonds, the first with well-formed series. *)
Definition worldTwoGood : World := Sample.mkWorld (mkDb2 Sample.bond1 Sample.goodInputs).

(** Two bonds, the first with elements that are invalid yet not corrupt. *)
Definition worldDirty : World := Sample.mkWorld (mkDb2 Sample.bond1 dirtyInputs).

(** Two bonds, the first with its series kept as JSON text. *)
Definition worldTexts : World := Sample.mkWorld (mkDb2 Sample.bond1 textInputs).

Definition worldTextGood : World := Sample.mkWorld (mkDb2 Sample.bond1 textGoodInputs).

(** Two bonds, the first with a negative term. *)
Definition worldNegativeTerm : World :=
  Sample.mkWorld (mkDb2 bondNegativeTerm Sample.goodInputs).

(** A calculator that always fails. *)
Definition failingCalc : FinancialCalculator.t :=
  {| FinancialCalculator.calculate := fun now i => Throw (CalculatorFailure "no converge");
     FinancialCalculator.calculateQuickMetrics :=
       fun now i => Throw (CalculatorFailure "no converge") |}.

Definition collabFailing : Collaborators :=
  {| calculator := failingCalc; JSON_parse := fun _ => None |}.

(** A valuation in the manner of the specification: two periods and the
    metrics of [Sample.someMetricas], whatever the time. *)
Definition engineValuation (i : CalculationInputs.t)
  : Outcome (option (list Flow.t) * Metricas.t * option Json) :=
  Ok (Some [Sample.someFlow 0; Sample.someFlow 1], Sample.someMetricas i, None).

Definition engineQuick (i : CalculationInputs.t) : Outcome Metricas.t :=
  Ok (Sample.someMetricas i).

Definition engineCollab : Collaborators :=
  {| calculator := engineCalculator engineValuation engineQuick;
     JSON_parse := fun _ => None |}.

End Sample2.

(** * Proofs *)

Ltac break_match :=
  match goal with
  | |- context [match ?x with _ => _ end] =>
      lazymatch x with
      | context [match _ with _ => _ end] => fail
      | _ => destruct x eqn:?
      end
  end.

Ltac unfold_monad :=
  unfold bind, ret, throw, tryCatch, liftOutcome, newDate, readDb, writeDb, transaction in *.

(** ** Worlds *)

Lemma set_db_same (w : World) : set_db (db w) w = w.
Proof. destruct w; reflexivity. Qed.

Lemma set_db_set_db (d d' : Database) (w : World) : set_db d (set_db d' w) = set_db d w.
Proof. reflexivity. Qed.

Lemma db_set_db (d : Database) (w : World) : db (set_db d w) = d.
Proof. reflexivity. Qed.

Lemma clock_set_db (d : Database) (w : World) : clock (set_db d w) = clock w.
Proof. reflexivity. Qed.

Lemma calculatorCalls_set_db (d : Database) (w : World) :
  calculatorCalls (set_db d w) = calculatorCalls w.
Proof. reflexivity. Qed.

Lemma progress_set_db (d : Database) (w : World) : progress (set_db d w) = progress w.
Proof. reflexivity. Qed.

Create Rewrite HintDb world.

#[local] Hint Rewrite set_db_same set_db_set_db db_set_db clock_set_db
  calculatorCalls_set_db progress_set_db : world.

(** Reduce the pairs threaded by [bind] and normalise the world. *)
Ltac step := cbv beta iota; autorewrite with world.

Lemma find_some_existsb {A : Type} (p : A -> bool) (l : list A) (x : A) :
  find p l = Some x -> existsb p l = true.
Proof.
  intros H. apply find_some in H. apply existsb_exists. exists x. exact H.
Qed.

(** ** The repair *)

Lemma find_updateSeries (bondId : string) (infl gra : Json) (l : list CalcInputsRecord.t) :
  find (fun r => String.eqb (CalcInputsRecord.bondId r) bondId)
       (map (updateSeries bondId infl gra) l)
  = option_map (fun r => CalcInputsRecord.mk (CalcInputsRecord.id r) (CalcInputsRecord.bondId r)
                                             infl gra)
               (find (fun r => String.eqb (CalcInputsRecord.bondId r) bondId) l).
Proof.
  induction l as [|r l IH]; [reflexivity|].
  cbn [map find]. unfold updateSeries at 1 2.
  destruct (String.eqb (CalcInputsRecord.bondId r) bondId) eqn:E.
  - cbn. rewrite E. reflexivity.
  - rewrite E. exact IH.
Qed.

Lemma repairInconsistentSeries_run (bondId : string) (n : Z) (w : World) :
  repairInconsistentSeries bondId n w =
  match findInputs bondId (db w) with
  | None => (Throw (CalculationInputsNoEncontrado bondId), w)
  | Some ci =>
      match repairInflacion (CalcInputsRecord.inflacionSerie ci) n with
      | Throw e => (Throw e, w)
      | Ok infl =>
          match repairGracia (CalcInputsRecord.graciaSerie ci) n with
          | Throw e => (Throw e, w)
          | Ok gra => (Ok tt, set_db (repairedDb bondId infl gra (db w)) w)
          end
      end
  end.
Proof.
  unfold repairInconsistentSeries, calculationInputs_findUnique, calculationInputs_update.
  unfold_monad.
  destruct (findInputs bondId (db w)) as [ci|] eqn:Hfind; [|now rewrite set_db_same].
  apply find_some_existsb in Hfind as Hex.
  destruct (repairInflacion _ n); [|now rewrite set_db_same].
  destruct (repairGracia _ n); [|now rewrite set_db_same].
  unfold setSeries. rewrite Hex. reflexivity.
Qed.

(** After a successful repair the stored series are the arrays just written. *)
Lemma repair_writes_arrays (bondId : string) (infl gra : list Json) (d : Database)
    (ci : CalcInputsRecord.t) :
  findInputs bondId d = Some ci ->
  findInputs bondId (repairedDb bondId infl gra d)
  = Some (CalcInputsRecord.mk (CalcInputsRecord.id ci) (CalcInputsRecord.bondId ci)
                              (JArr infl) (JArr gra)).
Proof.
  unfold findInputs, repairedDb. cbn. intros H. rewrite find_updateSeries, H. reflexivity.
Qed.

Lemma convertBondToCalculationInputs_run (c : Collaborators) (bond : Bond.t) (w : World) :
  convertBondToCalculationInputs c bond w =
  (fst (convertPure c bond (db w)), set_db (snd (convertPure c bond (db w))) w).
Proof.
  unfold convertBondToCalculationInputs, convertPure.
  unfold bind at 1. unfold calculationInputs_findUnique at 1. unfold readDb at 1.
  destruct (Bond.costs bond) as [bc|]; [|cbn; now rewrite set_db_same].
  destruct (findInputs (Bond.id bond) (db w)) as [record|] eqn:Hfind;
    [|cbn; now rewrite set_db_same].
  cbv zeta.
  destruct (needsRepair _ _ _).
  - unfold tryCatch, bind at 1. rewrite repairInconsistentSeries_run. rewrite Hfind.
    destruct (repairInflacion _ _) as [infl|e]; [|cbn; now rewrite set_db_same].
    destruct (repairGracia _ _) as [gra|e]; [|cbn; now rewrite set_db_same].
    unfold bind, calculationInputs_findUnique, readDb, ret, asArray. cbn [db set_db].
    rewrite (repair_writes_arrays _ _ _ _ _ Hfind). reflexivity.
  - unfold validatedInputs.
    repeat break_match; cbn; rewrite ?set_db_same; reflexivity.
Qed.

(** ** What the repair and the validation guarantee *)

Lemma Array_fill_length {A : Type} (n : Z) (v : A) (l : list A) :
  Array_fill n v = Ok l -> Z.of_nat (List.length l) = n /\ l = repeat v (Z.to_nat n).
Proof.
  unfold Array_fill. destruct (n <? 0) eqn:Hneg; cbn; [discriminate|].
  destruct (maxArrayLength <? n); [discriminate|].
  intros H. injection H as <-. rewrite repeat_length. split; [|reflexivity].
  apply Z.ltb_ge in Hneg. lia.
Qed.

Lemma Array_fill_total {A : Type} (n : Z) (v : A) :
  0 <= n <= maxArrayLength -> Array_fill n v = Ok (repeat v (Z.to_nat n)).
Proof.
  intros [H0 H1]. unfold Array_fill.
  apply Z.ltb_ge in H0. rewrite H0.
  assert ((maxArrayLength <? n) = false) as -> by (apply Z.ltb_ge; lia).
  reflexivity.
Qed.

Lemma forallb_repeat {A : Type} (p : A -> bool) (v : A) (n : nat) :
  p v = true -> forallb p (repeat v n) = true.
Proof. intros H. induction n; cbn; [reflexivity|]. now rewrite H. Qed.

Lemma forallb_map_default {A : Type} (p : A -> bool) (v : A) (l : list A) :
  p v = true -> forallb p (map (fun x => if p x then x else v) l) = true.
Proof.
  intros H. induction l as [|x l IH]; cbn; [reflexivity|].
  rewrite IH, andb_true_r. destruct (p x) eqn:E; assumption.
Qed.

Lemma keepableItems_length (cur : Json) (n : Z) (items : list Json) :
  keepableItems cur n = Some items ->
  cur = JArr items /\ Z.of_nat (List.length items) = n /\ some isCorruptItem items = false.
Proof.
  unfold keepableItems, lengthDiffers. destruct cur; try discriminate.
  destruct (Z.of_nat (List.length items0) =? n) eqn:E; cbn; [|discriminate].
  destruct (some isCorruptItem items0) eqn:E2; [discriminate|].
  intros H. injection H as <-. apply Z.eqb_eq in E. auto.
Qed.

Lemma repairInflacion_ok (cur : Json) (n : Z) (infl : list Json) :
  repairInflacion cur n = Ok infl ->
  Z.of_nat (List.length infl) = n /\ forallb isFiniteNumber infl = true.
Proof.
  unfold repairInflacion. destruct (keepableItems cur n) as [items|] eqn:K.
  - apply keepableItems_length in K as (_ & Hlen & _).
    intros H. injection H as <-. rewrite length_map. split; [exact Hlen|].
    now apply forallb_map_default.
  - intros H. apply Array_fill_length in H as [Hlen ->]. split; [exact Hlen|].
    now apply forallb_repeat.
Qed.

Lemma repairGracia_ok (cur : Json) (n : Z) (gra : list Json) :
  repairGracia cur n = Ok gra ->
  Z.of_nat (List.length gra) = n /\ forallb isGraceCode gra = true.
Proof.
  unfold repairGracia. destruct (keepableItems cur n) as [items|] eqn:K.
  - apply keepableItems_length in K as (_ & Hlen & _).
    intros H. injection H as <-. rewrite length_map. split; [exact Hlen|].
    now apply forallb_map_default.
  - intros H. apply Array_fill_length in H as [Hlen ->]. split; [exact Hlen|].
    now apply forallb_repeat.
Qed.

Lemma repairInflacion_total (cur : Json) (n : Z) :
  0 <= n <= maxArrayLength -> exists infl, repairInflacion cur n = Ok infl.
Proof.
  intros H. unfold repairInflacion. destruct (keepableItems cur n); [eauto|].
  rewrite Array_fill_total by exact H. eauto.
Qed.

Lemma repairGracia_total (cur : Json) (n : Z) :
  0 <= n <= maxArrayLength -> exists gra, repairGracia cur n = Ok gra.
Proof.
  intros H. unfold repairGracia. destruct (keepableItems cur n); [eauto|].
  rewrite Array_fill_total by exact H. eauto.
Qed.

Lemma firstInvalid_none (ok : Json -> bool) (l : list Json) (i : nat) :
  firstInvalid ok i l = None <-> forallb ok l = true.
Proof.
  revert i. induction l as [|x l IH]; intros i; cbn; [tauto|].
  destruct (ok x); cbn; [apply IH|]. split; discriminate.
Qed.

Lemma finite_not_corrupt (l : list Json) :
  forallb isFiniteNumber l = true -> some isCorruptItem l = false.
Proof.
  unfold some. induction l as [|x l IH]; cbn; [reflexivity|].
  intros H. apply andb_prop in H as [Hx Hl]. rewrite (IH Hl).
  destruct x; cbn in *; try reflexivity; discriminate.
Qed.

Lemma grace_not_corrupt (l : list Json) :
  forallb isGraceCode l = true -> some isCorruptItem l = false.
Proof.
  unfold some. induction l as [|x l IH]; cbn; [reflexivity|].
  intros H. apply andb_prop in H as [Hx Hl]. rewrite (IH Hl), orb_false_r.
  destruct x; cbn in *; try reflexivity.
  apply orb_prop in Hx as [Hx|Hx]; [apply orb_prop in Hx as [Hx|Hx]|];
    apply String.eqb_eq in Hx; subst; reflexivity.
Qed.

(** A series that needs no repair is an array of the right length without
    corrupt elements. *)
Lemma needsRepair_false (rawI rawG : Json) (n : Z) :
  needsRepair rawI rawG n = false ->
  exists iI iG, rawI = JArr iI /\ rawG = JArr iG
    /\ Z.of_nat (List.length iI) = n /\ Z.of_nat (List.length iG) = n
    /\ some isCorruptItem iI = false /\ some isCorruptItem iG = false.
Proof.
  unfold needsRepair. intros H.
  apply orb_false_elim in H as [H HG]. apply orb_false_elim in H as [H HI].
  apply orb_false_elim in H as [H HL]. apply orb_false_elim in H as [HCI HCG].
  apply orb_false_elim in HL as [HLI HLG].
  destruct rawI as [| | | |iI|]; try discriminate.
  destruct rawG as [| | | |iG|]; try discriminate.
  cbn in *. unfold lengthDiffers in *.
  apply negb_false_iff, Z.eqb_eq in HLI. apply negb_false_iff, Z.eqb_eq in HLG.
  exists iI, iG. repeat split; assumption.
Qed.

Lemma validatedInputs_ok (recordId : string) (bond : Bond.t) (bc : BondCosts.t)
    (rawI rawG : Json) (i : CalculationInputs.t) :
  validatedInputs recordId bond bc rawI rawG = Ok i ->
  exists iI iG, rawI = JArr iI /\ rawG = JArr iG
    /\ forallb isFiniteNumber iI = true /\ forallb isGraceCode iG = true
    /\ i = buildInputs recordId bond bc iI iG.
Proof.
  unfold validatedInputs. destruct rawI as [| | | |iI|]; try discriminate.
  destruct (firstInvalid isFiniteNumber 0 iI) as [[? ?]|] eqn:EI; [discriminate|].
  destruct rawG as [| | | |iG|]; try discriminate.
  destruct (firstInvalid isGraceCode 0 iG) as [[? ?]|] eqn:EG; [discriminate|].
  intros H. injection H as <-. exists iI, iG.
  apply firstInvalid_none in EI, EG. auto.
Qed.

(** Every input produced by the conversion has series of [numAnios]
    well-formed elements, and carries the key of the stored record. *)
Lemma convertPure_ok (c : Collaborators) (bond : Bond.t) (d : Database)
    (i : CalculationInputs.t) :
  fst (convertPure c bond d) = Ok i ->
  seriesInvariant i
  /\ forallb isFiniteNumber (CalculationInputs.inflacionSerie i) = true
  /\ forallb isGraceCode (CalculationInputs.graciaSerie i) = true
  /\ CalculationInputs.numAnios i = Bond.numAnios bond
  /\ exists record bc,
       findInputs (Bond.id bond) d = Some record
       /\ Bond.costs bond = Some bc
       /\ i = buildInputs (CalcInputsRecord.id record) bond bc
                          (CalculationInputs.inflacionSerie i)
                          (CalculationInputs.graciaSerie i).
Proof.
  unfold convertPure, seriesInvariant.
  destruct (Bond.costs bond) as [bc|]; [|discriminate].
  destruct (findInputs (Bond.id bond) d) as [record|]; [|discriminate].
  cbv zeta. destruct (needsRepair _ _ _) eqn:Hneeds.
  - destruct (repairInflacion _ _) as [infl|] eqn:HI; [|discriminate].
    destruct (repairGracia _ _) as [gra|] eqn:HG; [|discriminate].
    cbn. intros H. injection H as <-. cbn.
    apply repairInflacion_ok in HI as [? ?]. apply repairGracia_ok in HG as [? ?].
    repeat split; try assumption. exists record, bc. auto.
  - cbn. intros H. apply validatedInputs_ok in H as (iI & iG & EI & EG & FI & FG & ->).
    apply needsRepair_false in Hneeds as (iI' & iG' & EI' & EG' & LI & LG & _).
    rewrite EI in EI'. rewrite EG in EG'. injection EI' as <-. injection EG' as <-.
    cbn. repeat split; try assumption. exists record, bc. auto.
Qed.

(** A conversion that fails leaves the tables as they were. *)
Lemma convertPure_throw (c : Collaborators) (bond : Bond.t) (d : Database) (e : ErrorMessage) :
  fst (convertPure c bond d) = Throw e -> snd (convertPure c bond d) = d.
Proof.
  unfold convertPure. repeat break_match; cbn; try reflexivity; discriminate.
Qed.

(** ** Saving the results *)

Lemma sameInputsDb_refl (d : Database) : sameInputsDb d d.
Proof. split; reflexivity. Qed.

Lemma sameInputsDb_trans (d1 d2 d3 : Database) :
  sameInputsDb d1 d2 -> sameInputsDb d2 d3 -> sameInputsDb d1 d3.
Proof. intros [A B] [C D]. split; congruence. Qed.

Lemma deleteFlows_inputs (bondId : string) (d : Database) :
  sameInputsDb d (deleteFlows bondId d).
Proof. split; reflexivity. Qed.

Lemma createFlows_inputs (data : list CashFlowData.t) (d d' : Database) :
  createFlows data d = Ok d' -> sameInputsDb d d'.
Proof.
  unfold createFlows. destruct (forallb _ data); [|discriminate].
  intros H. injection H as <-. split; reflexivity.
Qed.

Lemma upsertMetrics_inputs (bondId : string) (role : MetricsRole)
    (create : nat -> FinancialMetrics.t) (update : FinancialMetrics.t -> FinancialMetrics.t)
    (d d' : Database) :
  upsertMetrics bondId role create update d = Ok d' -> sameInputsDb d d'.
Proof.
  unfold upsertMetrics. repeat break_match; try discriminate;
    intros H; injection H as <-; split; reflexivity.
Qed.

Lemma upsertResult_inputs (bondId inputsId : string)
    (create : nat -> CalcResultRow.t) (update : CalcResultRow.t -> CalcResultRow.t)
    (d d' : Database) :
  upsertResult bondId inputsId create update d = Ok d' -> sameInputsDb d d'.
Proof.
  unfold upsertResult. repeat break_match; try discriminate;
    intros H; injection H as <-; split; reflexivity.
Qed.

Lemma saveFlowsPure_inputs (bondId : string) (result : CalculationResult.t)
    (d d' : Database) :
  saveFlowsPure bondId result d = Ok d' -> sameInputsDb d d'.
Proof.
  unfold saveFlowsPure. destruct (CalculationResult.flujos result) as [[|flow flows]|].
  - intros H. injection H as <-. apply sameInputsDb_refl.
  - intros H. apply createFlows_inputs in H.
    eapply sameInputsDb_trans; [apply deleteFlows_inputs|exact H].
  - intros H. injection H as <-. apply sameInputsDb_refl.
Qed.

Lemma saveTransactionPure_inputs (bondId inputsId : string) (result : CalculationResult.t)
    (now : Date) (d d' : Database) :
  saveTransactionPure bondId inputsId result now d = Ok d' -> sameInputsDb d d'.
Proof.
  unfold saveTransactionPure, andThen. cbv zeta.
  destruct (saveFlowsPure bondId result d) as [d1|] eqn:E1; [|discriminate].
  destruct (upsertMetrics bondId EMISOR _ _ d1) as [d2|] eqn:E2; [|discriminate].
  destruct (upsertMetrics bondId BONISTA _ _ d2) as [d3|] eqn:E3; [|discriminate].
  intros E4.
  apply saveFlowsPure_inputs in E1. apply upsertMetrics_inputs in E2, E3.
  apply upsertResult_inputs in E4.
  eauto using sameInputsDb_trans.
Qed.

Lemma bondExists_inputs (bondId : string) (d d' : Database) :
  sameInputsDb d d' -> bondExists bondId d' = bondExists bondId d.
Proof. intros [H _]. unfold bondExists. now rewrite H. Qed.

Lemma inputsIdExists_inputs (inputsId : string) (d d' : Database) :
  sameInputsDb d d' -> inputsIdExists inputsId d' = inputsIdExists inputsId d.
Proof. intros [_ H]. unfold inputsIdExists. now rewrite H. Qed.

Lemma createFlows_succeeds (bondId : string) (flows : list Flow.t) (d : Database) :
  bondExists bondId d = true ->
  exists d', createFlows (map (toCashFlowData bondId) flows) d = Ok d'.
Proof.
  intros H. unfold createFlows.
  assert (forallb (fun x => bondExists (CashFlowData.bondId x) d)
                  (map (toCashFlowData bondId) flows) = true) as ->.
  { apply forallb_forall. intros x Hx. apply in_map_iff in Hx as (f & <- & _). exact H. }
  eauto.
Qed.

Lemma upsertMetrics_succeeds (bondId : string) (role : MetricsRole)
    (create : nat -> FinancialMetrics.t) (update : FinancialMetrics.t -> FinancialMetrics.t)
    (d : Database) :
  bondExists bondId d = true -> exists d', upsertMetrics bondId role create update d = Ok d'.
Proof.
  intros H. unfold upsertMetrics. rewrite H. break_match; eauto.
Qed.

Lemma upsertResult_succeeds (bondId inputsId : string)
    (create : nat -> CalcResultRow.t) (update : CalcResultRow.t -> CalcResultRow.t)
    (d : Database) :
  bondExists bondId d = true -> inputsIdExists inputsId d = true ->
  exists d', upsertResult bondId inputsId create update d = Ok d'.
Proof.
  intros H1 H2. unfold upsertResult. rewrite H1, H2. break_match; cbn; eauto.
Qed.

(** The transaction cannot fail for an existing bond and an existing
    inputs record. *)
Lemma saveTransactionPure_succeeds (bondId inputsId : string) (result : CalculationResult.t)
    (now : Date) (d : Database) :
  bondExists bondId d = true -> inputsIdExists inputsId d = true ->
  exists d', saveTransactionPure bondId inputsId result now d = Ok d'.
Proof.
  intros HB HI. unfold saveTransactionPure, andThen. cbv zeta.
  assert (exists d1, saveFlowsPure bondId result d = Ok d1) as [d1 E1].
  { unfold saveFlowsPure. destruct (CalculationResult.flujos result) as [[|flow flows]|];
      eauto.
    apply createFlows_succeeds. exact HB. }
  rewrite E1. apply saveFlowsPure_inputs in E1 as S1.
  destruct (upsertMetrics_succeeds bondId EMISOR
              (emisorCreate bondId (CalculationResult.metricas result)
                 (orDefault (CalculationResult.fechaCalculo result) now))
              (emisorUpdate (CalculationResult.metricas result)
                 (orDefault (CalculationResult.fechaCalculo result) now)) d1) as [d2 E2].
  { now rewrite (bondExists_inputs _ _ _ S1). }
  rewrite E2. apply upsertMetrics_inputs in E2 as S2.
  pose proof (sameInputsDb_trans _ _ _ S1 S2) as S12.
  destruct (upsertMetrics_succeeds bondId BONISTA
              (bonistaCreate bondId (CalculationResult.metricas result)
                 (orDefault (CalculationResult.fechaCalculo result) now))
              (bonistaUpdate (CalculationResult.metricas result)
                 (orDefault (CalculationResult.fechaCalculo result) now)) d2) as [d3 E3].
  { now rewrite (bondExists_inputs _ _ _ S12). }
  rewrite E3. apply upsertMetrics_inputs in E3 as S3.
  pose proof (sameInputsDb_trans _ _ _ S12 S3) as S123.
  apply upsertResult_succeeds.
  - now rewrite (bondExists_inputs _ _ _ S123).
  - now rewrite (inputsIdExists_inputs _ _ _ S123).
Qed.

Lemma findBond_exists (bondId : string) (d : Database) (b : Bond.t) :
  findBond bondId d = Some b -> bondExists bondId d = true.
Proof. apply find_some_existsb. Qed.

Lemma activateDraft_run (bondId : string) (d : Database) :
  activateDraft bondId d = Ok (activated bondId d).
Proof.
  unfold activateDraft, activated. destruct (findBond bondId d) as [b|] eqn:E; [|reflexivity].
  destruct (Bond.status b); try reflexivity.
  unfold setStatus. now rewrite (findBond_exists _ _ _ E).
Qed.

Lemma saveCalculationResults_run (bondId inputsId : string) (result : CalculationResult.t)
    (w : World) :
  saveCalculationResults bondId inputsId result w =
  match saveTransactionPure bondId inputsId result (clock w) (db w) with
  | Throw e => (Throw e, w)
  | Ok d => (Ok tt, set_db (activated bondId d) w)
  end.
Proof.
  unfold saveCalculationResults, saveTransaction, saveTransactionPure, saveFlows, saveFlowsPure,
    andThen.
  unfold cashFlow_deleteMany, cashFlow_createMany, financialMetrics_upsert,
    calculationResult_upsert, BondModel_findById, BondModel_updateStatus.
  unfold_monad. cbv zeta.
  destruct (CalculationResult.flujos result) as [[|flow flows]|]; step.
  all: try (destruct (createFlows _ _) as [d1|]; step; [|reflexivity]).
  all: repeat (match goal with
       | |- context [upsertMetrics ?a ?b ?c ?e ?d] =>
           destruct (upsertMetrics a b c e d); step; [|reflexivity]
       end).
  all: match goal with
       | |- context [upsertResult ?a ?b ?c ?e ?d] =>
           destruct (upsertResult a b c e d) as [d4|]; step; [|reflexivity]
       end.
  all: unfold activated; destruct (findBond bondId d4) as [b|] eqn:EB; [|reflexivity];
    destruct (Bond.status b); try reflexivity;
    step; unfold setStatus; rewrite (findBond_exists _ _ _ EB); reflexivity.
Qed.

(** ** [calculateBond] *)

Lemma getExistingCalculation_run (bondId : string) (w : World) :
  getExistingCalculation bondId w = (Ok (existingCalculation bondId (db w)), w).
Proof.
  unfold getExistingCalculation, existingCalculation, cashFlow_count,
    financialMetrics_findUnique.
  unfold_monad.
  destruct (findMetrics bondId EMISOR (db w)); [|reflexivity].
  destruct (findMetrics bondId BONISTA (db w)); [|reflexivity].
  destruct (0 <? _)%nat; reflexivity.
Qed.

Lemma recalculation_run (c : Collaborators) (bondId : string) (saveResults : bool)
    (w : World) :
  calculateBondBody c bondId true saveResults w = recalculation c bondId saveResults w.
Proof.
  unfold calculateBondBody, recalculation.
  unfold bind at 1. unfold ret at 1. unfold bind at 1.
  unfold BondModel_findById at 1. unfold readDb at 1.
  destruct (findBond bondId (db w)) as [bond|]; [|reflexivity].
  unfold bind at 1. unfold validateBondForCalculation.
  destruct (bondFieldErrors bond) as [|err errs]; [|reflexivity].
  unfold ret at 1. unfold bind at 1. rewrite convertBondToCalculationInputs_run.
  destruct (convertPure c bond (db w)) as [[inputs|e] d1] eqn:EC; cbn [fst snd].
  2:{ apply (f_equal fst) in EC as E1. apply convertPure_throw in E1.
      rewrite EC in E1. cbn in E1. subst d1. now rewrite set_db_same. }
  unfold bind at 1. unfold calculator_calculate at 1. step.
  destruct (FinancialCalculator.calculate (calculator c) (clock w) inputs) as [result|e];
    [|reflexivity].
  destruct saveResults.
  - destruct (String.eqb (CalculationInputs.id inputs) ""); [reflexivity|].
    unfold bind at 1. rewrite saveCalculationResults_run. cbn [db clock logCalculatorCall].
    step.
    destruct (saveTransactionPure _ _ _ _ _); reflexivity.
  - reflexivity.
Qed.

Lemma calculateBondBody_run (c : Collaborators) (bondId : string)
    (recalculate saveResults : bool) (w : World) :
  calculateBondBody c bondId recalculate saveResults w =
  if recalculate then recalculation c bondId saveResults w
  else match existingCalculation bondId (db w) with
       | Some existing => (Ok existing, w)
       | None => recalculation c bondId saveResults w
       end.
Proof.
  destruct recalculate; [apply recalculation_run|].
  rewrite <- recalculation_run.
  unfold calculateBondBody. unfold bind at 1. rewrite getExistingCalculation_run.
  destruct (existingCalculation bondId (db w)); reflexivity.
Qed.

Lemma calculateBond_run (c : Collaborators) (request : CalculateBondRequest) (w : World) :
  calculateBond c request w =
  if isCuid (req_bondId request) then
    match calculateBondBody c (req_bondId request)
            (orDefault (req_recalculate request) false)
            (orDefault (req_saveResults request) true) w with
    | (Ok r, w') => (Ok r, w')
    | (Throw e, w') => (Ok (failureResponse (req_bondId request) (clock w') e), w')
    end
  else (Throw ZodInvalidCuid, w).
Proof.
  unfold calculateBond, CalculateBondRequestSchema_parse.
  unfold bind at 1. unfold liftOutcome.
  destruct (isCuid (req_bondId request)); [|reflexivity].
  unfold tryCatch. destruct (calculateBondBody _ _ _ _ w) as [[r|e] w']; reflexivity.
Qed.

(** ** Properties of [calculateBond] *)

Lemma recalculation_ok (c : Collaborators) (bid : string) (saveResults : bool)
    (w w' : World) (r : BondCalculationResponse) :
  recalculation c bid saveResults w = (Ok r, w') ->
  success r = true /\ bondId r = bid /\ errors r = None.
Proof.
  unfold recalculation. repeat break_match; try discriminate;
    intros H; injection H as <- <-; auto.
Qed.

Lemma existingCalculation_ok (bid : string) (d : Database) (r : BondCalculationResponse) :
  existingCalculation bid d = Some r ->
  success r = true /\ bondId r = bid /\ errors r = None.
Proof.
  unfold existingCalculation. repeat break_match; try discriminate.
  intros H. injection H as <-. auto.
Qed.

Lemma calculateBondBody_ok (c : Collaborators) (bid : string)
    (recalculate saveResults : bool) (w w' : World) (r : BondCalculationResponse) :
  calculateBondBody c bid recalculate saveResults w = (Ok r, w') ->
  success r = true /\ bondId r = bid /\ errors r = None.
Proof.
  rewrite calculateBondBody_run. destruct recalculate.
  - apply recalculation_ok.
  - destruct (existingCalculation bid (db w)) as [existing|] eqn:E.
    + intros H. injection H as <- <-. eapply existingCalculation_ok, E.
    + apply recalculation_ok.
Qed.



(** C10. With [recalculate = false], when the bond has at least one stored
    cash flow and stored metrics for EMISOR and for BONISTA, [calculateBond]
    returns the stored values as they are: each metric of the response is the
    corresponding column of the stored EMISOR or BONISTA row (a [tcea],
    [tceaConEscudo] or [trea] that is null reads as 0), [flowsCount] is the
    number of stored cash flows and [calculatedAt] is the stored calculation
    date of the EMISOR row.  The world is left as it was: nothing is written
    and the calculator is not called.  When one of the three is missing, the
    call behaves as the same request with [recalculate = true]. *)
Theorem calculateBond_returns_existing (c : Collaborators) (request : CalculateBondRequest)
    (w : World) :
  isCuid (req_bondId request) = true ->
  orDefault (req_recalculate request) false = false ->
  let bid := req_bondId request in
  let count := List.length (flowsOfBond bid (db w)) in
  (forall em bm,
      (0 < count)%nat ->
      findMetrics bid EMISOR (db w) = Some em ->
      findMetrics bid BONISTA (db w) = Some bm ->
      exists resp,
        calculateBond c request w = (Ok resp, w)
        /\ bondId resp = bid
        /\ success resp = true
        /\ errors resp = None
        /\ calculatedAt resp = Some (FinancialMetrics.fechaCalculo em)
        /\ flowsCount resp = count
        /\ e_precioActual (emisor (metricas resp)) = FinancialMetrics.precioActual em
        /\ e_van (emisor (metricas resp)) = FinancialMetrics.van em
        /\ e_tceaEmisor (emisor (metricas resp)) = orDefault (FinancialMetrics.tcea em) 0%Q
        /\ e_tceaEmisorConEscudo (emisor (metricas resp))
           = orDefault (FinancialMetrics.tceaConEscudo em) 0%Q
        /\ e_duracion (emisor (metricas resp)) = FinancialMetrics.duracion em
        /\ e_duracionModificada (emisor (metricas resp))
           = FinancialMetrics.duracionModificada em
        /\ e_convexidad (emisor (metricas resp)) = FinancialMetrics.convexidad em
        /\ e_totalRatiosDecision (emisor (metricas resp))
           = FinancialMetrics.totalRatiosDecision em
        /\ b_precioActual (bonista (metricas resp)) = FinancialMetrics.precioActual bm
        /\ b_van (bonista (metricas resp)) = FinancialMetrics.van bm
        /\ b_treaBonista (bonista (metricas resp)) = orDefault (FinancialMetrics.trea bm) 0%Q
        /\ b_duracion (bonista (metricas resp)) = FinancialMetrics.duracion bm
        /\ b_duracionModificada (bonista (metricas resp))
           = FinancialMetrics.duracionModificada bm
        /\ b_convexidad (bonista (metricas resp)) = FinancialMetrics.convexidad bm
        /\ b_totalRatiosDecision (bonista (metricas resp))
           = FinancialMetrics.totalRatiosDecision bm)
  /\ (count = 0%nat \/ findMetrics bid EMISOR (db w) = None
      \/ findMetrics bid BONISTA (db w) = None ->
      calculateBond c request w = calculateBond c (withRecalculate request) w).
Proof.
  intros Hcuid Hre bid count. split.
  - intros em bm Hcount Hem Hbm.
    exists (existingResponse bid count em bm). split.
    + rewrite calculateBond_run, Hcuid, calculateBondBody_run, Hre.
      unfold existingCalculation. fold bid. rewrite Hem, Hbm. fold count.
      apply Nat.ltb_lt in Hcount. rewrite Hcount. reflexivity.
    + repeat split.
  - intros Hmissing.
    rewrite !calculateBond_run. cbn [withRecalculate req_bondId req_recalculate
      req_saveResults orDefault]. rewrite Hcuid, !calculateBondBody_run, Hre.
    assert (existingCalculation (req_bondId request) (db w) = None) as ->; [|reflexivity].
    unfold existingCalculation. fold bid. fold count.
    destruct Hmissing as [H|[H|H]].
    + rewrite H. repeat break_match; try reflexivity; discriminate.
    + rewrite H. reflexivity.
    + rewrite H. break_match; reflexivity.
Qed.

Lemma calculateBond_returns_existing_witness :
  exists em bm resp,
    findMetrics Sample.bondId1 EMISOR (db Sample.worldCalculated) = Some em
    /\ findMetrics Sample.bondId1 BONISTA (db Sample.worldCalculated) = Some bm
    /\ calculateBond Sample.collab (Sample.request false) Sample.worldCalculated
       = (Ok resp, Sample.worldCalculated)
    /\ flowsCount resp = 2%nat
    /\ e_precioActual (emisor (metricas resp)) = FinancialMetrics.precioActual em
    /\ b_treaBonista (bonista (metricas resp)) = orDefault (FinancialMetrics.trea bm) 0%Q.
Proof.
  destruct (calculateBond_returns_existing Sample.collab (Sample.request false)
              Sample.worldCalculated eq_refl eq_refl) as [H _].
  cbv zeta in H.
  destruct (findMetrics Sample.bondId1 EMISOR (db Sample.worldCalculated)) as [em|] eqn:Eem;
    [|vm_compute in Eem; discriminate].
  destruct (findMetrics Sample.bondId1 BONISTA (db Sample.worldCalculated)) as [bm|] eqn:Ebm;
    [|vm_compute in Ebm; discriminate].
  assert (0 < List.length (flowsOfBond (req_bondId (Sample.request false))
                                       (db Sample.worldCalculated)))%nat as Hcount
    by (vm_compute; lia).
  destruct (H em bm Hcount Eem Ebm) as (resp & Hcall & Hrest).
  exists em, bm, resp. split; [reflexivity|]. split; [reflexivity|]. split; [exact Hcall|].
  split; [apply Hrest|]. split; apply Hrest.
Defined.

Lemma bondFieldErrors_invalid (bond : Bond.t) :
  invalidBond bond -> bondFieldErrors bond <> [].
Proof.
  unfold invalidBond, bondFieldErrors, isNegative, isZero, Qle, Qlt. cbn.
  intros H E.
  apply app_eq_nil in E as [E1 E]. apply app_eq_nil in E as [E2 E].
  apply app_eq_nil in E as [E3 E4].
  destruct H as [H|[H|[H|H]]].
  - destruct (Qnum (Bond.valorNominal bond) <? 0) eqn:A; [discriminate|].
    destruct (Qnum (Bond.valorNominal bond) =? 0) eqn:B; [discriminate|]. lia.
  - destruct (Qnum (Bond.valorComercial bond) <? 0) eqn:A; [discriminate|].
    destruct (Qnum (Bond.valorComercial bond) =? 0) eqn:B; [discriminate|]. lia.
  - destruct (Bond.numAnios bond <=? 0) eqn:A; [discriminate|]. lia.
  - destruct (Qnum (Bond.tasaAnual bond) <? 0) eqn:A; [discriminate|]. lia.
Qed.

(** C4. When a computation is attempted ([recalculate] is true, or nothing is
    stored yet) for a bond whose nominal value or commercial value is zero or
    negative, whose term is not positive, or whose annual rate is negative,
    [calculateBond] answers with the failure response carrying the
    invalid-bond error, and the world is exactly as before: the calculator has
    not been called, nothing has been written, and nothing is tried again. *)
Theorem calculateBond_rejects_invalid_bond (c : Collaborators)
    (request : CalculateBondRequest) (w : World) (bond : Bond.t) :
  isCuid (req_bondId request) = true ->
  orDefault (req_recalculate request) false = true
    \/ existingCalculation (req_bondId request) (db w) = None ->
  findBond (req_bondId request) (db w) = Some bond ->
  invalidBond bond ->
  calculateBond c request w
  = (Ok (failureResponse (req_bondId request) (clock w)
           (BonoInvalido (bondFieldErrors bond))), w)
  /\ bondFieldErrors bond <> [].
Proof.
  intros Hcuid Hattempt Hfind Hinvalid.
  pose proof (bondFieldErrors_invalid bond Hinvalid) as Hne. split; [|exact Hne].
  rewrite calculateBond_run, Hcuid, calculateBondBody_run.
  assert (recalculation c (req_bondId request) (orDefault (req_saveResults request) true) w
          = (Throw (BonoInvalido (bondFieldErrors bond)), w)) as Hrec.
  { unfold recalculation. rewrite Hfind.
    destruct (bondFieldErrors bond); [contradiction|reflexivity]. }
  destruct Hattempt as [H|H]; rewrite H; [|destruct (orDefault (req_recalculate request) false)];
    rewrite Hrec; reflexivity.
Qed.

Lemma calculateBond_rejects_invalid_bond_witness :
  calculateBond Sample.collab (Sample.request true) Sample.worldZeroNominal
  = (Ok (failureResponse Sample.bondId1 5000 (BonoInvalido [ValorNominalInvalido])),
     Sample.worldZeroNominal).
Proof.
  refine (proj1 (calculateBond_rejects_invalid_bond Sample.collab (Sample.request true)
                   Sample.worldZeroNominal Sample.bondZeroNominal eq_refl _ eq_refl _)).
  - left. reflexivity.
  - left. unfold Qle. cbn. lia.
Defined.

(** ** Properties of [saveCalculationResults] *)

Lemma find_map_same_key {A : Type} (p : A -> bool) (f : A -> A) (l : list A) :
  (forall x, p (f x) = p x) ->
  find p (map f l) = option_map f (find p l).
Proof.
  intros H. induction l as [|x l IH]; [reflexivity|].
  cbn. rewrite H. destruct (p x); [reflexivity|exact IH].
Qed.

Lemma findBond_inputs (bondId : string) (d d' : Database) :
  sameInputsDb d d' -> findBond bondId d' = findBond bondId d.
Proof. intros [H _]. unfold findBond. now rewrite H. Qed.

(** What the status update does to the bond found under each key. *)
Lemma findBond_activated (bondId other : string) (d : Database) :
  findBond other (activated bondId d)
  = match findBond bondId d with
    | Some bond =>
        match Bond.status bond with
        | DRAFT =>
            option_map (fun b => if String.eqb (Bond.id b) bondId
                                 then Bond.withStatus ACTIVE b else b)
                       (findBond other d)
        | _ => findBond other d
        end
    | None => findBond other d
    end.
Proof.
  unfold activated. destruct (findBond bondId d) as [bond|]; [|reflexivity].
  destruct (Bond.status bond); try reflexivity.
  unfold findBond. cbn. apply find_map_same_key.
  intros x. destruct (String.eqb (Bond.id x) bondId); reflexivity.
Qed.

Lemma findBond_id (bondId : string) (d : Database) (b : Bond.t) :
  findBond bondId d = Some b -> String.eqb (Bond.id b) bondId = true.
Proof. intros H. apply find_some in H. apply H. Qed.

Lemma withStatus_sameButStatus (s : BondStatus) (b : Bond.t) :
  Bond.status (Bond.withStatus s b) = s /\ sameButStatus b (Bond.withStatus s b).
Proof. split; [reflexivity|]. repeat split. Qed.

Lemma sameButStatus_refl (b : Bond.t) : sameButStatus b b.
Proof. repeat split. Qed.

(** C9. After [saveCalculationResults] has succeeded for a stored bond, the
    bond stored under that id has status ACTIVE when its status was DRAFT and
    its previous status otherwise; its other columns are as before; every
    other bond is unchanged, status included. *)
Theorem saveCalculationResults_activates_draft (bondId inputsId : string)
    (result : CalculationResult.t) (w w' : World) (bond : Bond.t) :
  saveCalculationResults bondId inputsId result w = (Ok tt, w') ->
  findBond bondId (db w) = Some bond ->
  (exists bond',
      findBond bondId (db w') = Some bond'
      /\ Bond.status bond' = match Bond.status bond with
                             | DRAFT => ACTIVE
                             | ACTIVE => ACTIVE
                             | EXPIRED => EXPIRED
                             end
      /\ sameButStatus bond bond')
  /\ (forall other, String.eqb other bondId = false ->
                    findBond other (db w') = findBond other (db w)).
Proof.
  rewrite saveCalculationResults_run.
  destruct (saveTransactionPure bondId inputsId result (clock w) (db w)) as [d|] eqn:E;
    [|discriminate].
  intros H Hfind. injection H as <-. step.
  apply saveTransactionPure_inputs in E.
  split.
  - rewrite findBond_activated, (findBond_inputs _ _ _ E), Hfind.
    destruct (Bond.status bond) eqn:Hs.
    + cbn. rewrite (findBond_id _ _ _ Hfind).
      exists (Bond.withStatus ACTIVE bond). split; [reflexivity|].
      apply withStatus_sameButStatus.
    + exists bond. split; [reflexivity|]. split; [exact Hs|apply sameButStatus_refl].
    + exists bond. split; [reflexivity|]. split; [exact Hs|apply sameButStatus_refl].
  - intros other Hother.
    rewrite findBond_activated, !(findBond_inputs _ _ _ E), Hfind.
    destruct (Bond.status bond); try reflexivity.
    destruct (findBond other (db w)) as [b|] eqn:Eb; [|reflexivity].
    cbn. apply findBond_id in Eb. apply String.eqb_eq in Eb. rewrite Eb, Hother. reflexivity.
Qed.

Lemma saveCalculationResults_activates_draft_witness :
  Bond.status Sample.bond1 = DRAFT
  /\ exists w' bond',
       saveCalculationResults Sample.bondId1 "inputs1" Sample.someResult Sample.worldGood
       = (Ok tt, w')
       /\ findBond Sample.bondId1 (db w') = Some bond'
       /\ Bond.status bond' = ACTIVE.
Proof.
  split; [reflexivity|].
  destruct (saveCalculationResults Sample.bondId1 "inputs1" Sample.someResult Sample.worldGood)
    as [[[]|e] w'] eqn:E; [|vm_compute in E; discriminate].
  destruct (proj1 (saveCalculationResults_activates_draft Sample.bondId1 "inputs1"
                     Sample.someResult Sample.worldGood w' Sample.bond1 E eq_refl))
    as (bond' & Hfind & Hstatus & _).
  exists w', bond'. split; [reflexivity|]. split; [exact Hfind|exact Hstatus].
Defined.

(** ** The stored schedule *)

Lemma upsertMetrics_flows (bondId : string) (role : MetricsRole)
    (create : nat -> FinancialMetrics.t) (update : FinancialMetrics.t -> FinancialMetrics.t)
    (d d' : Database) :
  upsertMetrics bondId role create update d = Ok d' -> cashFlows d' = cashFlows d.
Proof.
  unfold upsertMetrics. repeat break_match; try discriminate;
    intros H; injection H as <-; reflexivity.
Qed.

Lemma upsertResult_flows (bondId inputsId : string)
    (create : nat -> CalcResultRow.t) (update : CalcResultRow.t -> CalcResultRow.t)
    (d d' : Database) :
  upsertResult bondId inputsId create update d = Ok d' -> cashFlows d' = cashFlows d.
Proof.
  unfold upsertResult. repeat break_match; try discriminate;
    intros H; injection H as <-; reflexivity.
Qed.

Lemma activated_flows (bondId : string) (d : Database) :
  cashFlows (activated bondId d) = cashFlows d.
Proof. unfold activated. repeat break_match; reflexivity. Qed.

Lemma saveTransactionPure_flows (bondId inputsId : string) (result : CalculationResult.t)
    (now : Date) (d d' : Database) :
  saveTransactionPure bondId inputsId result now d = Ok d' ->
  exists d1, saveFlowsPure bondId result d = Ok d1 /\ cashFlows d' = cashFlows d1.
Proof.
  unfold saveTransactionPure, andThen. cbv zeta.
  destruct (saveFlowsPure bondId result d) as [d1|] eqn:E1; [|discriminate].
  destruct (upsertMetrics bondId EMISOR _ _ d1) as [d2|] eqn:E2; [|discriminate].
  destruct (upsertMetrics bondId BONISTA _ _ d2) as [d3|] eqn:E3; [|discriminate].
  intros E4. exists d1. split; [reflexivity|].
  apply upsertMetrics_flows in E2, E3. apply upsertResult_flows in E4. congruence.
Qed.

(** The rows appended by [createMany] are new: each carries a key drawn
    from the counter and the data of one of the given records. *)
Lemma insertFlows_appends (data : list CashFlowData.t) (rows : list CashFlow.t) (n : nat) :
  exists added,
    fst (fold_left insertFlow data (rows, n)) = rows ++ added
    /\ Forall (fun r => (n <= CashFlow.id r)%nat /\ In (CashFlow.data r) data) added.
Proof.
  revert rows n. induction data as [|x data IH]; intros rows n.
  - exists []. cbn. now rewrite app_nil_r.
  - cbn [fold_left]. unfold insertFlow at 2. cbn [fst snd].
    destruct (existsb (sameFlowKey x) rows).
    + destruct (IH rows n) as (added & E & F). exists added. split; [exact E|].
      eapply Forall_impl; [|exact F]. cbn. intros r [? ?]. auto.
    + destruct (IH (rows ++ [CashFlow.mk n x]) (S n)) as (added & E & F).
      exists (CashFlow.mk n x :: added). split.
      * rewrite E, <- app_assoc. reflexivity.
      * constructor; [cbn; auto|].
        eapply Forall_impl; [|exact F]. cbn. intros r [? ?]. split; [lia|auto].
Qed.

(** With pairwise distinct periods, none of them stored yet for the bond,
    [createMany] stores every record, in order. *)
Lemma insertFlows_all (bondId : string) (flows : list Flow.t) (rows : list CashFlow.t)
    (n : nat) :
  NoDup (map Flow.periodo flows) ->
  (forall r, In r rows -> CashFlow.bondId r = bondId ->
             ~ In (CashFlow.periodo r) (map Flow.periodo flows)) ->
  exists added,
    fst (fold_left insertFlow (map (toCashFlowData bondId) flows) (rows, n)) = rows ++ added
    /\ map CashFlow.data added = map (toCashFlowData bondId) flows.
Proof.
  revert rows n. induction flows as [|f flows IH]; intros rows n Hnd Hrows.
  - exists []. cbn. now rewrite app_nil_r.
  - cbn [map fold_left]. unfold insertFlow at 2. cbn [fst snd].
    assert (existsb (sameFlowKey (toCashFlowData bondId f)) rows = false) as ->.
    { apply not_true_is_false. intros H. apply existsb_exists in H as (r & Hr & Hk).
      unfold sameFlowKey in Hk. apply andb_prop in Hk as [Hb Hp].
      apply String.eqb_eq in Hb. apply Z.eqb_eq in Hp. cbn in Hb, Hp.
      apply (Hrows r Hr Hb). cbn. left. symmetry. exact Hp. }
    inversion Hnd as [|p ps Hnotin Hnd']; subst.
    destruct (IH (rows ++ [CashFlow.mk n (toCashFlowData bondId f)]) (S n) Hnd')
      as (added & E & D).
    { intros r Hr Hb Hin. apply in_app_or in Hr as [Hr|[<-|[]]].
      - apply (Hrows r Hr Hb). cbn. right. exact Hin.
      - apply Hnotin. exact Hin. }
    exists (CashFlow.mk n (toCashFlowData bondId f) :: added). split.
    + rewrite E, <- app_assoc. reflexivity.
    + cbn. now rewrite D.
Qed.

Lemma filter_none {A : Type} (p : A -> bool) (l : list A) :
  (forall x, In x l -> p x = false) -> filter p l = [].
Proof.
  induction l as [|x l IH]; intros H; [reflexivity|]. cbn.
  rewrite (H x (or_introl eq_refl)). apply IH. intros y Hy. apply H. now right.
Qed.

Lemma filter_all {A : Type} (p : A -> bool) (l : list A) :
  (forall x, In x l -> p x = true) -> filter p l = l.
Proof.
  induction l as [|x l IH]; intros H; [reflexivity|]. cbn.
  rewrite (H x (or_introl eq_refl)). f_equal. apply IH. intros y Hy. apply H. now right.
Qed.

(** The effect of a successful [saveFlows] with a non-empty schedule. *)
Lemma saveFlowsPure_replaces (bondId : string) (result : CalculationResult.t)
    (flow : Flow.t) (flows : list Flow.t) (d d1 : Database) :
  CalculationResult.flujos result = Some (flow :: flows) ->
  saveFlowsPure bondId result d = Ok d1 ->
  exists added,
    cashFlows d1
    = filter (fun r => negb (String.eqb (CashFlow.bondId r) bondId)) (cashFlows d) ++ added
    /\ Forall (fun r => (nextId d <= CashFlow.id r)%nat
                        /\ In (CashFlow.data r) (map (toCashFlowData bondId) (flow :: flows)))
              added
    /\ (NoDup (map Flow.periodo (flow :: flows)) ->
        map CashFlow.data added = map (toCashFlowData bondId) (flow :: flows)).
Proof.
  intros Hf. unfold saveFlowsPure. rewrite Hf. unfold createFlows.
  destruct (forallb _ _); [|discriminate].
  intros H. injection H as <-. cbn [cashFlows set_cashFlows deleteFlows nextId].
  destruct (insertFlows_appends (map (toCashFlowData bondId) (flow :: flows))
              (filter (fun r => negb (String.eqb (CashFlow.bondId r) bondId)) (cashFlows d))
              (nextId d)) as (added & E & F).
  exists added. split; [exact E|]. split; [exact F|].
  intros Hnd.
  destruct (insertFlows_all bondId (flow :: flows)
              (filter (fun r => negb (String.eqb (CashFlow.bondId r) bondId)) (cashFlows d))
              (nextId d) Hnd) as (added' & E' & D').
  { intros r Hr Hb. apply filter_In in Hr as [_ Hr].
    apply String.eqb_eq in Hb. rewrite Hb in Hr. discriminate. }
  rewrite E in E'. apply app_inv_head in E'. subst added'. exact D'.
Qed.

(** ** The stored schedule as a function of the flows *)

Lemma existsb_sameFlowKey (bid : string) (x : CashFlowData.t) (rows : list CashFlow.t) :
  CashFlowData.bondId x = bid ->
  existsb (sameFlowKey x) rows
  = keyTaken x (map CashFlow.data
                    (filter (fun r => String.eqb (CashFlow.bondId r) bid) rows)).
Proof.
  intros Hx. unfold keyTaken. induction rows as [|r rows IH]; [reflexivity|].
  cbn [existsb filter]. rewrite IH. unfold sameFlowKey at 1. rewrite Hx.
  destruct (String.eqb (CashFlow.bondId r) bid) eqn:E; [|reflexivity].
  cbn [map existsb]. unfold CashFlow.bondId, CashFlow.periodo in *. rewrite E.
  reflexivity.
Qed.

Lemma insertFlow_schedule (bid : string) (x : CashFlowData.t) (acc : list CashFlow.t * nat) :
  CashFlowData.bondId x = bid ->
  map CashFlow.data (filter (fun r => String.eqb (CashFlow.bondId r) bid)
                            (fst (insertFlow acc x)))
  = insertData (map CashFlow.data
                    (filter (fun r => String.eqb (CashFlow.bondId r) bid) (fst acc))) x.
Proof.
  intros Hx. unfold insertFlow, insertData.
  rewrite (existsb_sameFlowKey bid x (fst acc) Hx).
  destruct (keyTaken x _); [reflexivity|].
  cbn [fst]. rewrite filter_app, map_app. cbn [filter].
  unfold CashFlow.bondId at 2. cbn [CashFlow.data]. rewrite Hx, String.eqb_refl.
  reflexivity.
Qed.

Lemma insertFlows_schedule (bid : string) (data : list CashFlowData.t)
    (acc : list CashFlow.t * nat) :
  (forall x, In x data -> CashFlowData.bondId x = bid) ->
  map CashFlow.data (filter (fun r => String.eqb (CashFlow.bondId r) bid)
                            (fst (fold_left insertFlow data acc)))
  = fold_left insertData data
      (map CashFlow.data (filter (fun r => String.eqb (CashFlow.bondId r) bid) (fst acc))).
Proof.
  revert acc. induction data as [|x data IH]; intros acc H; [reflexivity|].
  cbn [fold_left]. rewrite IH by (intros y Hy; apply H; now right).
  rewrite insertFlow_schedule by (apply H; now left). reflexivity.
Qed.

(** After a successful [saveFlows] the stored schedule of the bond is a
    function of the flows alone when there are flows, and is untouched when
    there are none. *)
Lemma saveFlowsPure_schedule (bid : string) (result : CalculationResult.t)
    (d d' : Database) :
  saveFlowsPure bid result d = Ok d' ->
  storedSchedule bid d'
  = match CalculationResult.flujos result with
    | Some (flow :: flows) => replacedSchedule bid (flow :: flows)
    | _ => storedSchedule bid d
    end.
Proof.
  unfold saveFlowsPure.
  destruct (CalculationResult.flujos result) as [[|flow flows]|];
    try (intros H; injection H as <-; reflexivity).
  unfold createFlows. destruct (forallb _ _); [|discriminate].
  intros H. injection H as <-.
  unfold storedSchedule, flowsOfBond, replacedSchedule.
  cbn [cashFlows set_cashFlows deleteFlows nextId].
  etransitivity.
  - apply (insertFlows_schedule bid (map (toCashFlowData bid) (flow :: flows))
             (filter (fun r => negb (String.eqb (CashFlow.bondId r) bid)) (cashFlows d),
              nextId d)).
    intros x Hx. apply in_map_iff in Hx as (f & <- & _). reflexivity.
  - cbn [fst]. rewrite filter_none; [reflexivity|].
    intros r Hr. apply filter_In in Hr as [_ Hr]. now apply negb_true_iff in Hr.
Qed.

Lemma storedSchedule_same (bid : string) (d d' : Database) :
  cashFlows d' = cashFlows d -> storedSchedule bid d' = storedSchedule bid d.
Proof. intros H. unfold storedSchedule, flowsOfBond. now rewrite H. Qed.

(** The stored schedule after a successful transaction. *)
Lemma saveTransactionPure_schedule (bid inputsId : string) (result : CalculationResult.t)
    (now : Date) (d d' : Database) :
  saveTransactionPure bid inputsId result now d = Ok d' ->
  storedSchedule bid (activated bid d')
  = match CalculationResult.flujos result with
    | Some (flow :: flows) => replacedSchedule bid (flow :: flows)
    | _ => storedSchedule bid d
    end.
Proof.
  intros H. apply saveTransactionPure_flows in H as (d1 & E1 & Ed).
  rewrite (storedSchedule_same bid d' (activated bid d') (activated_flows bid d')).
  rewrite (storedSchedule_same bid d1 d' Ed).
  apply saveFlowsPure_schedule, E1.
Qed.

Lemma filter_filter_weaker {A : Type} (p q : A -> bool) (l : list A) :
  (forall x, p x = true -> q x = true) -> filter p (filter q l) = filter p l.
Proof.
  intros H. induction l as [|x l IH]; [reflexivity|]. cbn.
  destruct (q x) eqn:Q; cbn.
  - now rewrite IH.
  - destruct (p x) eqn:P; [|exact IH]. apply H in P. congruence.
Qed.

Lemma added_bondId (bondId : string) (flows : list Flow.t) (r : CashFlow.t) :
  In (CashFlow.data r) (map (toCashFlowData bondId) flows) -> CashFlow.bondId r = bondId.
Proof.
  intros H. apply in_map_iff in H as (f & E & _). unfold CashFlow.bondId. now rewrite <- E.
Qed.

Lemma flowsOfBond_activated (other bondId : string) (d : Database) :
  flowsOfBond other (activated bondId d) = flowsOfBond other d.
Proof. unfold flowsOfBond. now rewrite activated_flows. Qed.

(** C6, as amended.  [saveCalculationResults] runs its writes in one
    transaction: when it throws, the tables are as before.  Whatever the
    result, every stored period record is either a record that was already
    stored, unchanged, or a record with a newly generated key: none is updated
    in place.  When the save succeeds for a result whose schedule is not empty,
    the records of the bond are all newly inserted and carry the data of the
    new schedule: the stored schedule is the new one, with a period met twice
    stored once (so all of it, in order, when the periods are pairwise
    distinct); the records of the other bonds are untouched.  When the
    schedule is empty or missing, the stored records are left as they are. *)
Theorem saveCalculationResults_replaces_schedule (bondId inputsId : string)
    (result : CalculationResult.t) (w : World) :
  let o := fst (saveCalculationResults bondId inputsId result w) in
  let w' := snd (saveCalculationResults bondId inputsId result w) in
  (forall e, o = Throw e -> db w' = db w)
  /\ (forall r, In r (cashFlows (db w')) ->
                In r (cashFlows (db w)) \/ (nextId (db w) <= CashFlow.id r)%nat)
  /\ (forall flow flows,
        o = Ok tt ->
        CalculationResult.flujos result = Some (flow :: flows) ->
        (forall r, In r (flowsOfBond bondId (db w')) ->
                   (nextId (db w) <= CashFlow.id r)%nat
                   /\ In (CashFlow.data r) (map (toCashFlowData bondId) (flow :: flows)))
        /\ (forall other, String.eqb other bondId = false ->
                          flowsOfBond other (db w') = flowsOfBond other (db w))
        /\ storedSchedule bondId (db w') = replacedSchedule bondId (flow :: flows)
        /\ (NoDup (map Flow.periodo (flow :: flows)) ->
            storedSchedule bondId (db w') = map (toCashFlowData bondId) (flow :: flows)))
  /\ (o = Ok tt ->
      CalculationResult.flujos result = None \/ CalculationResult.flujos result = Some [] ->
      cashFlows (db w') = cashFlows (db w)).
Proof.
  cbv zeta. rewrite saveCalculationResults_run.
  destruct (saveTransactionPure bondId inputsId result (clock w) (db w)) as [d|e0] eqn:E;
    cbn [fst snd].
  2:{ repeat split; try discriminate; auto. }
  step. rewrite activated_flows. unfold storedSchedule.
  pose proof (saveTransactionPure_schedule _ _ _ _ _ _ E) as Hschedule.
  apply saveTransactionPure_flows in E as (d1 & E1 & Ed). rewrite Ed.
  split; [discriminate|].
  destruct (CalculationResult.flujos result) as [[|flow flows]|] eqn:Hf.
  1,3: (assert (d1 = db w) as -> by (unfold saveFlowsPure in E1; rewrite Hf in E1; congruence);
        repeat split; try discriminate; auto).
  destruct (saveFlowsPure_replaces bondId result flow flows (db w) d1 Hf E1)
    as (added & EA & FA & DA).
  assert (forall r, In r added -> CashFlow.bondId r = bondId) as Hadded.
  { intros r Hr. rewrite Forall_forall in FA. destruct (FA r Hr) as [_ Hin].
    eapply added_bondId, Hin. }
  split; [|split].
  - intros r Hr. rewrite EA in Hr. apply in_app_or in Hr as [Hr|Hr].
    + left. apply filter_In in Hr. apply Hr.
    + right. rewrite Forall_forall in FA. apply (FA r Hr).
  - intros flow' flows' _ Hsome. injection Hsome as <- <-.
    assert (flowsOfBond bondId d = added) as Hbond.
    { unfold flowsOfBond. rewrite Ed, EA, filter_app.
      rewrite filter_none, filter_all; [reflexivity| |].
      - intros r Hr. apply String.eqb_eq. now apply Hadded.
      - intros r Hr. apply filter_In in Hr as [_ Hr].
        now apply negb_true_iff in Hr. }
    split; [|split; [|split]].
    + intros r Hr. rewrite flowsOfBond_activated, Hbond in Hr.
      rewrite Forall_forall in FA. apply (FA r Hr).
    + intros other Hother. rewrite flowsOfBond_activated.
      unfold flowsOfBond. rewrite Ed, EA, filter_app.
      rewrite (filter_none _ added), app_nil_r.
      * apply filter_filter_weaker. intros x Hx. apply String.eqb_eq in Hx.
        rewrite Hx, Hother. reflexivity.
      * intros r Hr. rewrite (Hadded r Hr), String.eqb_sym. exact Hother.
    + unfold storedSchedule in Hschedule. rewrite Hschedule, ?Hf. reflexivity.
    + intros Hnd. rewrite flowsOfBond_activated, Hbond. apply DA, Hnd.
  - intros _ [H|H]; discriminate.
Qed.

Lemma saveCalculationResults_replaces_schedule_witness :
  fst (saveCalculationResults Sample.bondId1 "inputs1" Sample.someResult Sample.worldGood)
  = Ok tt
  /\ storedSchedule Sample.bondId1
       (db (snd (saveCalculationResults Sample.bondId1 "inputs1" Sample.someResult
                   Sample.worldGood)))
     = map (toCashFlowData Sample.bondId1) [Sample.someFlow 0; Sample.someFlow 1].
Proof.
  split; [reflexivity|].
  destruct (saveCalculationResults_replaces_schedule Sample.bondId1 "inputs1"
              Sample.someResult Sample.worldGood) as (_ & _ & H & _).
  destruct (H (Sample.someFlow 0) [Sample.someFlow 1] eq_refl eq_refl) as (_ & _ & _ & Hall).
  apply Hall. repeat constructor; cbn; intuition discriminate.
Defined.

(** C6, as stated, fails: saving a result whose schedule is empty succeeds
    and the period record stored before is still there. *)
Lemma saveCalculationResults_keeps_old_schedule :
  fst (saveCalculationResults Sample.bondId1 "inputs1" Sample.emptyResult Sample.worldGood)
  = Ok tt
  /\ In Sample.oldFlow (flowsOfBond Sample.bondId1 (db Sample.worldGood))
  /\ In Sample.oldFlow
        (flowsOfBond Sample.bondId1
           (db (snd (saveCalculationResults Sample.bondId1 "inputs1" Sample.emptyResult
                       Sample.worldGood)))).
Proof.
  split; [reflexivity|]. split; vm_compute; left; reflexivity.
Qed.

(** ** The series that reach the calculator *)

Lemma seriesErrors_nil (i : CalculationInputs.t) :
  seriesInvariant i ->
  forallb isFiniteNumber (CalculationInputs.inflacionSerie i) = true ->
  forallb isGraceCode (CalculationInputs.graciaSerie i) = true ->
  seriesErrors i = [].
Proof.
  intros [HI HG] FI FG. unfold seriesErrors, lengthDiffers.
  apply Z.eqb_eq in HI, HG. rewrite HI, HG.
  rewrite (finite_not_corrupt _ FI), (grace_not_corrupt _ FG). reflexivity.
Qed.

Lemma calculateQuickMetrics_run (c : Collaborators) (bid : string) (w : World) :
  calculateQuickMetrics c bid w = quickMetrics c bid w.
Proof.
  unfold calculateQuickMetrics, quickMetrics, tryCatch.
  unfold bind at 1. unfold BondModel_findById at 1. unfold readDb at 1.
  destruct (findBond bid (db w)) as [bond|]; [|reflexivity].
  unfold bind at 1. rewrite convertBondToCalculationInputs_run.
  destruct (convertPure c bond (db w)) as [[inputs|e] d1] eqn:EC; cbn [fst snd].
  2:{ apply (f_equal fst) in EC as E1. apply convertPure_throw in E1.
      rewrite EC in E1. cbn in E1. subst d1. unfold_monad. now rewrite set_db_same. }
  apply (f_equal fst) in EC as E1. cbn in E1.
  apply convertPure_ok in E1 as (Hinv & FI & FG & _).
  unfold bind at 1. unfold validateSeriesConsistency.
  rewrite (seriesErrors_nil _ Hinv FI FG).
  unfold ret at 1. unfold bind at 1. unfold calculator_calculateQuickMetrics at 1.
  step.
  destruct (FinancialCalculator.calculateQuickMetrics (calculator c) (clock w) inputs);
    reflexivity.
Qed.

Lemma recalculation_calls (c : Collaborators) (bid : string) (saveResults : bool)
    (w : World) :
  exists new,
    calculatorCalls (snd (recalculation c bid saveResults w)) = new ++ calculatorCalls w
    /\ Forall seriesInvariant new.
Proof.
  unfold recalculation.
  destruct (findBond bid (db w)) as [bond|]; [|exists []; auto].
  destruct (bondFieldErrors bond); [|exists []; auto].
  destruct (convertPure c bond (db w)) as [[inputs|e] d1] eqn:EC; [|exists []; auto].
  apply (f_equal fst) in EC. apply convertPure_ok in EC as (Hinv & _).
  exists [inputs]. split; [|auto].
  cbv zeta. repeat break_match; reflexivity.
Qed.

Lemma quickMetrics_calls (c : Collaborators) (bid : string) (w : World) :
  exists new,
    calculatorCalls (snd (quickMetrics c bid w)) = new ++ calculatorCalls w
    /\ Forall seriesInvariant new.
Proof.
  unfold quickMetrics.
  destruct (findBond bid (db w)) as [bond|]; [|exists []; auto].
  destruct (convertPure c bond (db w)) as [[inputs|e] d1] eqn:EC; [|exists []; auto].
  apply (f_equal fst) in EC. apply convertPure_ok in EC as (Hinv & _).
  exists [inputs]. split; [|auto].
  cbv zeta. repeat break_match; reflexivity.
Qed.

Lemma calculateBond_calls (c : Collaborators) (request : CalculateBondRequest) (w : World) :
  exists new,
    calculatorCalls (snd (calculateBond c request w)) = new ++ calculatorCalls w
    /\ Forall seriesInvariant new.
Proof.
  rewrite calculateBond_run. destruct (isCuid (req_bondId request)); [|exists []; auto].
  rewrite calculateBondBody_run.
  assert (forall s, exists new,
    calculatorCalls
      (snd (let (o, w') := recalculation c (req_bondId request) s w in
            match o with
            | Ok r => (Ok r, w')
            | Throw e => (Ok (failureResponse (req_bondId request) (clock w') e), w')
            end)) = new ++ calculatorCalls w /\ Forall seriesInvariant new) as Hrec.
  { intros s. destruct (recalculation_calls c (req_bondId request) s w) as (new & E & F).
    exists new. split; [|exact F].
    destruct (recalculation c (req_bondId request) s w) as [[r|e] w']; exact E. }
  destruct (orDefault (req_recalculate request) false); [apply Hrec|].
  destruct (existingCalculation (req_bondId request) (db w)); [exists []; auto|apply Hrec].
Qed.

Lemma setAt_length {A : Type} (l : list A) (n : nat) (v : A) :
  List.length (Step4Dynamic.setAt l n v) = List.length l.
Proof.
  revert n. induction l as [|x l IH]; intros [|n]; cbn; try reflexivity. now rewrite IH.
Qed.

Lemma applyGraceConfig_length (years : Z) (g : list (option Step4Dynamic.GraceType))
    (config : Step4Dynamic.GracePeriodConfig) :
  Z.of_nat (List.length g) = years ->
  List.length (Step4Dynamic.applyGraceConfig years g config) = List.length g.
Proof.
  intros H. unfold Step4Dynamic.applyGraceConfig, Step4Dynamic.arrayAssign.
  destruct (_ <? years) eqn:Hlt; [|reflexivity].
  destruct (_ <? 0) eqn:Hneg; [reflexivity|].
  apply Z.ltb_lt in Hlt. apply Z.ltb_ge in Hneg.
  assert ((Z.to_nat ((Step4Dynamic.couponNumber config - 1) / 2) <? List.length g)%nat = true)
    as -> by (apply Nat.ltb_lt; lia).
  apply setAt_length.
Qed.

Lemma fold_applyGraceConfig_length (years : Z)
    (configs : list Step4Dynamic.GracePeriodConfig) (g : list (option Step4Dynamic.GraceType)) :
  Z.of_nat (List.length g) = years ->
  List.length (fold_left (Step4Dynamic.applyGraceConfig years) configs g) = List.length g.
Proof.
  revert g. induction configs as [|config configs IH]; intros g H; [reflexivity|].
  cbn. rewrite IH; [apply applyGraceConfig_length, H|].
  now rewrite applyGraceConfig_length.
Qed.

(** C5. The input builder of the wizard, when it returns, returns two
    series of exactly [numAnios] elements; and every input handed to the
    calculator by [calculateBond] or by [calculateQuickMetrics] has an
    inflation series and a grace series of exactly [numAnios] elements. *)
Theorem series_have_numAnios_elements :
  (forall (parseInt : string -> option Z) (parseFloat : string -> option Q)
          (bondData : Step4Dynamic.BondData) (ui : Step4Dynamic.UiInputs),
      Step4Dynamic.buildCalculationInputs parseInt parseFloat bondData = Ok ui ->
      Z.of_nat (List.length (Step4Dynamic.ui_inflacionSerie ui)) = Step4Dynamic.ui_numAnios ui
      /\ Z.of_nat (List.length (Step4Dynamic.ui_graciaSerie ui)) = Step4Dynamic.ui_numAnios ui)
  /\ (forall (c : Collaborators) (request : CalculateBondRequest) (w : World),
        exists new,
          calculatorCalls (snd (calculateBond c request w)) = new ++ calculatorCalls w
          /\ Forall seriesInvariant new)
  /\ (forall (c : Collaborators) (bid : string) (w : World),
        exists new,
          calculatorCalls (snd (calculateQuickMetrics c bid w)) = new ++ calculatorCalls w
          /\ Forall seriesInvariant new).
Proof.
  split; [|split].
  - intros parseInt parseFloat bondData ui. unfold Step4Dynamic.buildCalculationInputs.
    destruct (parseInt _) as [years|]; [|discriminate].
    destruct (Array_fill years (parseFloat _)) as [inflacionSerie|] eqn:EI; [|discriminate].
    destruct (Array_fill years (Some Step4Dynamic.GraceS)) as [filled|] eqn:EG; [|discriminate].
    intros H. injection H as <-. cbn.
    apply Array_fill_length in EI as [LI _]. apply Array_fill_length in EG as [LG _].
    split; [exact LI|]. rewrite fold_applyGraceConfig_length; assumption.
  - apply calculateBond_calls.
  - intros c bid w. rewrite calculateQuickMetrics_run. apply quickMetrics_calls.
Qed.

Lemma series_have_numAnios_elements_witness :
  exists i,
    calculatorCalls (snd (calculateBond Sample.collab (Sample.request true) Sample.worldShort))
    = [i]
    /\ seriesInvariant i.
Proof.
  destruct (proj1 (proj2 series_have_numAnios_elements) Sample.collab (Sample.request true)
              Sample.worldShort) as (new & E & F).
  destruct new as [|i [|j new]]; [vm_compute in E; discriminate| |vm_compute in E; discriminate].
  exists i. split; [exact E|]. now inversion F.
Defined.

(** ** Malformed stored series *)

Lemma some_exists {A : Type} (p : A -> bool) (l : list A) :
  some p l = true <-> exists x, In x l /\ p x = true.
Proof. unfold some. apply existsb_exists. Qed.

Lemma keepableItems_malformed (series : Json) (n : Z) :
  (malformedSeries series n -> keepableItems series n = None)
  /\ (~ malformedSeries series n ->
      exists items, series = JArr items /\ keepableItems series n = Some items
                    /\ Z.of_nat (List.length items) = n
                    /\ some isCorruptItem items = false).
Proof.
  unfold keepableItems, malformedSeries, lengthDiffers.
  destruct series as [| | | |items|]; try (split; [reflexivity|intros H; now destruct H]).
  destruct (Z.of_nat (List.length items) =? n) eqn:L; cbn.
  - apply Z.eqb_eq in L. destruct (some isCorruptItem items) eqn:C.
    + split; [reflexivity|]. intros H. exfalso. apply H. right. now apply some_exists.
    + split.
      * intros [H|H]; [contradiction|]. apply some_exists in H. congruence.
      * intros _. exists items. auto.
  - apply Z.eqb_neq in L. split; [reflexivity|]. intros H. exfalso. apply H. now left.
Qed.

Lemma keepableItems_none (series : Json) (n : Z) :
  keepableItems series n = None -> malformedSeries series n.
Proof.
  unfold keepableItems, malformedSeries, lengthDiffers.
  destruct series as [| | | |items|]; try (intros _; exact I).
  destruct (Z.of_nat (List.length items) =? n) eqn:L; cbn.
  - destruct (some isCorruptItem items) eqn:C; [|discriminate].
    intros _. right. now apply some_exists.
  - intros _. left. now apply Z.eqb_neq.
Qed.

Lemma needsRepair_malformed (x y : Json) (n : Z) :
  needsRepair x y n = true <-> (malformedSeries x n \/ malformedSeries y n).
Proof.
  destruct (needsRepair x y n) eqn:E.
  - split; [intros _|reflexivity].
    destruct (keepableItems x n) as [ix|] eqn:Kx.
    + destruct (keepableItems y n) as [iy|] eqn:Ky.
      * exfalso. unfold keepableItems in Kx, Ky.
        destruct x as [| | | |xs|]; try discriminate.
        destruct y as [| | | |ys|]; try discriminate.
        unfold needsRepair in E. cbn in E.
        destruct (lengthDiffers xs n); [discriminate|].
        destruct (lengthDiffers ys n); [cbn in Ky; discriminate|].
        cbn in Kx, Ky.
        destruct (some isCorruptItem xs); [discriminate|].
        destruct (some isCorruptItem ys); discriminate.
      * right. now apply keepableItems_none.
    + left. now apply keepableItems_none.
  - split; [discriminate|]. intros H. exfalso.
    apply needsRepair_false in E as (iI & iG & -> & -> & LI & LG & CI & CG).
    destruct H as [[H|H]|[H|H]]; try contradiction;
      apply some_exists in H; congruence.
Qed.

Lemma firstInvalid_firstBad (ok : Json -> bool) (items : list Json) (k index : nat)
    (item : Json) :
  firstBad ok items index item -> firstInvalid ok k items = Some ((k + index)%nat, item).
Proof.
  revert k index. induction items as [|x items IH]; intros k index (Hn & Hb & Hf).
  - destruct index; discriminate.
  - destruct index as [|index]; cbn in *.
    + injection Hn as ->. rewrite Hb. now rewrite Nat.add_0_r.
    + apply andb_prop in Hf as [Hx Hf]. rewrite Hx.
      rewrite (IH (S k) index); [|repeat split; assumption].
      now rewrite Nat.add_succ_r.
Qed.

(** C1, as amended.  Each stored series is read as the conversion reads it:
    a series stored as a string is replaced by what [JSON.parse] makes of it,
    when it parses.  For a stored bond with its costs and its record, and
    [0 <= numAnios <= 2^32 - 1]:

    - if a series so read is malformed (not an array, of a length other than
      [numAnios], or holding a string with an opening bracket), the
      calculation does not fail on that account: both stored series are
      rewritten, a stored series that is itself malformed (a series stored as
      a string always is) by [numAnios] copies of the default (0.03, 'S'),
      the other with each invalid element replaced by the default, and the
      calculator is called on the rewritten series, each of [numAnios]
      well-formed elements;
    - if neither is malformed, nothing is repaired: the calculation is
      refused, with nothing written and no call of the calculator, on the
      first inflation value that is not a finite number, or else on the first
      grace code that is not 'S', 'P' or 'T'; when there is none the series
      as read go to the calculator unchanged. *)
Theorem malformed_series_are_repaired (c : Collaborators) (bond : Bond.t)
    (record : CalcInputsRecord.t) (bondCosts : BondCosts.t) (w : World) :
  findBond (Bond.id bond) (db w) = Some bond ->
  Bond.costs bond = Some bondCosts ->
  findInputs (Bond.id bond) (db w) = Some record ->
  0 <= Bond.numAnios bond <= maxArrayLength ->
  let n := Bond.numAnios bond in
  let storedInflacion := CalcInputsRecord.inflacionSerie record in
  let storedGracia := CalcInputsRecord.graciaSerie record in
  let readInflacion := parseIfString c storedInflacion in
  let readGracia := parseIfString c storedGracia in
  (malformedSeries readInflacion n \/ malformedSeries readGracia n ->
   exists inflacion gracia,
     let inputs := buildInputs (CalcInputsRecord.id record) bond bondCosts inflacion gracia in
     let repaired := repairedDb (Bond.id bond) inflacion gracia (db w) in
     (malformedSeries storedInflacion n -> inflacion = repeat defaultInflacion (Z.to_nat n))
     /\ (forall items,
           ~ malformedSeries storedInflacion n -> storedInflacion = JArr items ->
           inflacion = map (fun item => if isFiniteNumber item then item
                                        else defaultInflacion) items)
     /\ (malformedSeries storedGracia n -> gracia = repeat defaultGracia (Z.to_nat n))
     /\ (forall items,
           ~ malformedSeries storedGracia n -> storedGracia = JArr items ->
           gracia = map (fun item => if isGraceCode item then item else defaultGracia) items)
     /\ seriesInvariant inputs
     /\ forallb isFiniteNumber inflacion = true
     /\ forallb isGraceCode gracia = true
     /\ findInputs (Bond.id bond) repaired
        = Some (CalcInputsRecord.mk (CalcInputsRecord.id record)
                                    (CalcInputsRecord.bondId record)
                                    (JArr inflacion) (JArr gracia))
     /\ calculatedOn c bond w inputs repaired)
  /\ (~ malformedSeries readInflacion n -> ~ malformedSeries readGracia n ->
      exists inflacionItems graciaItems,
        readInflacion = JArr inflacionItems
        /\ readGracia = JArr graciaItems
        /\ (forall index item,
              firstBad isFiniteNumber inflacionItems index item ->
              refusedWith c bond w (InflacionItemNotFinite index item))
        /\ (forall index item,
              forallb isFiniteNumber inflacionItems = true ->
              firstBad isGraceCode graciaItems index item ->
              refusedWith c bond w (GraciaItemInvalid index item))
        /\ (forallb isFiniteNumber inflacionItems = true ->
            forallb isGraceCode graciaItems = true ->
            calculatedOn c bond w
              (buildInputs (CalcInputsRecord.id record) bond bondCosts
                           inflacionItems graciaItems)
              (db w))).
Proof.
  intros Hbond Hcosts Hrecord Hrange n storedInflacion storedGracia readInflacion readGracia.
  subst n storedInflacion storedGracia readInflacion readGracia.
  assert (forall inputs d,
             convertPure c bond (db w) = (Ok inputs, d) ->
             calculatedOn c bond w inputs d) as Hcalc.
  { intros inputs d HC. unfold calculatedOn.
    split; [rewrite convertBondToCalculationInputs_run, HC; reflexivity|].
    split.
    { rewrite calculateQuickMetrics_run. unfold quickMetrics. rewrite Hbond, HC. cbv zeta.
      destruct (FinancialCalculator.calculateQuickMetrics _ _ _); reflexivity. }
    split.
    { intros q Hq. rewrite calculateQuickMetrics_run. unfold quickMetrics.
      rewrite Hbond, HC. cbv zeta. rewrite Hq. reflexivity. }
    intros request Hid Hcuid Hre Hvalid.
    rewrite calculateBond_run, Hid, Hcuid, calculateBondBody_run, Hre. cbn [orDefault].
    unfold recalculation. rewrite Hbond, Hvalid, HC. cbv zeta.
    repeat break_match; reflexivity. }
  assert (forall e,
             convertPure c bond (db w) = (Throw e, db w) ->
             refusedWith c bond w e) as Hrefused.
  { intros e HC. unfold refusedWith.
    split; [rewrite convertBondToCalculationInputs_run, HC; cbn; now rewrite set_db_same|].
    split.
    { rewrite calculateQuickMetrics_run. unfold quickMetrics. rewrite Hbond, HC. reflexivity. }
    intros request Hid Hcuid Hre Hvalid.
    rewrite calculateBond_run, Hid, Hcuid, calculateBondBody_run, Hre. cbn [orDefault].
    unfold recalculation. rewrite Hbond, Hvalid, HC. reflexivity. }
  split.
  - intros Hmal. apply needsRepair_malformed in Hmal as Hneeds.
    destruct (repairInflacion_total (CalcInputsRecord.inflacionSerie record) _ Hrange)
      as [inflacion HI].
    destruct (repairGracia_total (CalcInputsRecord.graciaSerie record) _ Hrange)
      as [gracia HG].
    exists inflacion, gracia. cbv zeta.
    assert (convertPure c bond (db w)
            = (Ok (buildInputs (CalcInputsRecord.id record) bond bondCosts inflacion gracia),
               repairedDb (Bond.id bond) inflacion gracia (db w))) as HC.
    { unfold convertPure. rewrite Hcosts, Hrecord. cbv zeta.
      rewrite Hneeds, HI, HG. reflexivity. }
    pose proof (repairInflacion_ok _ _ _ HI) as [LI FI].
    pose proof (repairGracia_ok _ _ _ HG) as [LG FG].
    split.
    { intros M. apply keepableItems_malformed in M. unfold repairInflacion in HI.
      rewrite M in HI. apply Array_fill_length in HI. apply HI. }
    split.
    { intros items M E. apply keepableItems_malformed in M as (items' & E' & K & _).
      rewrite E in E'. injection E' as <-. unfold repairInflacion in HI. rewrite K in HI.
      now injection HI as <-. }
    split.
    { intros M. apply keepableItems_malformed in M. unfold repairGracia in HG.
      rewrite M in HG. apply Array_fill_length in HG. apply HG. }
    split.
    { intros items M E. apply keepableItems_malformed in M as (items' & E' & K & _).
      rewrite E in E'. injection E' as <-. unfold repairGracia in HG. rewrite K in HG.
      now injection HG as <-. }
    split; [split; assumption|]. split; [exact FI|]. split; [exact FG|].
    split; [apply repair_writes_arrays, Hrecord|].
    apply Hcalc, HC.
  - intros MI MG.
    apply keepableItems_malformed in MI as (inflacionItems & EI & _ & LI & CI).
    apply keepableItems_malformed in MG as (graciaItems & EG & _ & LG & CG).
    exists inflacionItems, graciaItems. split; [exact EI|]. split; [exact EG|].
    assert (needsRepair (parseIfString c (CalcInputsRecord.inflacionSerie record))
                        (parseIfString c (CalcInputsRecord.graciaSerie record))
                        (Bond.numAnios bond) = false) as Hneeds.
    { rewrite EI, EG. unfold needsRepair, hasCorrupt, hasWrongLengthOne, lengthDiffers. cbn.
      apply Z.eqb_eq in LI, LG. now rewrite CI, CG, LI, LG. }
    assert (convertPure c bond (db w)
            = (validatedInputs (CalcInputsRecord.id record) bond bondCosts
                               (JArr inflacionItems) (JArr graciaItems), db w)) as HC.
    { unfold convertPure. rewrite Hcosts, Hrecord. cbv zeta.
      rewrite Hneeds, EI, EG. reflexivity. }
    split; [|split].
    + intros index item Hbad. apply Hrefused. rewrite HC. unfold validatedInputs.
      rewrite (firstInvalid_firstBad _ _ 0 _ _ Hbad). reflexivity.
    + intros index item FI Hbad. apply Hrefused. rewrite HC. unfold validatedInputs.
      rewrite (proj2 (firstInvalid_none _ _ _) FI), (firstInvalid_firstBad _ _ 0 _ _ Hbad).
      reflexivity.
    + intros FI FG. apply Hcalc. rewrite HC. unfold validatedInputs.
      rewrite (proj2 (firstInvalid_none _ _ _) FI), (proj2 (firstInvalid_none _ _ _) FG).
      reflexivity.
Qed.

Lemma malformed_series_are_repaired_witness :
  convertBondToCalculationInputs Sample.collab Sample.bond1 Sample.worldShort
  = (Ok (buildInputs "inputs1" Sample.bond1 Sample.someCosts
           [JNum (3 # 100); JNum (3 # 100)] [JStr "S"; JStr "S"]),
     set_db (repairedDb Sample.bondId1 [JNum (3 # 100); JNum (3 # 100)]
                        [JStr "S"; JStr "S"] (db Sample.worldShort))
            Sample.worldShort)
  /\ refusedWith Sample.collab Sample.bond1 Sample2.worldDirty
                 (InflacionItemNotFinite 1 JNull).
Proof.
  split.
  - destruct (malformed_series_are_repaired Sample.collab Sample.bond1 Sample.shortInputs
                Sample.someCosts Sample.worldShort eq_refl eq_refl eq_refl) as [Hrepair _].
    { unfold maxArrayLength. cbn. lia. }
    cbv zeta in Hrepair.
    destruct Hrepair as (inflacion & gracia & HI & _ & _ & HG & _ & _ & _ & _ & HC & _).
    { left. left. cbn. lia. }
    rewrite HI in HC by (left; cbn; lia).
    rewrite (HG [JStr "S"; JStr "S"]) in HC.
    + exact HC.
    + intros [M|(item & [<-|[<-|[]]] & M)]; [cbn in M; lia|discriminate|discriminate].
    + reflexivity.
  - destruct (malformed_series_are_repaired Sample.collab Sample.bond1 Sample2.dirtyInputs
                Sample.someCosts Sample2.worldDirty eq_refl eq_refl eq_refl) as [_ Hkeep].
    { unfold maxArrayLength. cbn. lia. }
    cbv zeta in Hkeep.
    destruct Hkeep as (inflacionItems & graciaItems & EI & _ & Hbad & _).
    + intros [M|(item & [<-|[<-|[]]] & M)]; [cbn in M; lia|discriminate|discriminate].
    + intros [M|(item & [<-|[<-|[]]] & M)]; [cbn in M; lia|discriminate|discriminate].
    + apply Hbad. cbn in EI. injection EI as <-. repeat split.
Defined.

(** C1, as stated, fails: the stored inflation series of a two-year bond has
    one element, yet [calculateBond] and [calculateQuickMetrics] both succeed,
    and the stored series has become two copies of the default 0.03. *)
Lemma malformed_series_do_not_fail :
  lengthDiffers [JNum (10 # 100)] (Bond.numAnios Sample.bond1) = true
  /\ findInputs Sample.bondId1 (db Sample.worldShort) = Some Sample.shortInputs
  /\ (exists resp w',
        calculateBond Sample.collab (Sample.request true) Sample.worldShort = (Ok resp, w')
        /\ success resp = true
        /\ option_map CalcInputsRecord.inflacionSerie (findInputs Sample.bondId1 (db w'))
           = Some (JArr [JNum (3 # 100); JNum (3 # 100)]))
  /\ (exists resp w',
        calculateQuickMetrics Sample.collab Sample.bondId1 Sample.worldShort = (Ok resp, w')
        /\ success resp = true
        /\ option_map CalcInputsRecord.inflacionSerie (findInputs Sample.bondId1 (db w'))
           = Some (JArr [JNum (3 # 100); JNum (3 # 100)])).
Proof.
  split; [reflexivity|]. split; [reflexivity|]. split.
  - destruct (calculateBond Sample.collab (Sample.request true) Sample.worldShort)
      as [o w'] eqn:E.
    assert (o = fst (calculateBond Sample.collab (Sample.request true) Sample.worldShort))
      as Ho by now rewrite E.
    assert (w' = snd (calculateBond Sample.collab (Sample.request true) Sample.worldShort))
      as Hw by now rewrite E.
    vm_compute in Ho. subst o. eexists _, w'. split; [reflexivity|].
    split; [reflexivity|]. subst w'. vm_compute. reflexivity.
  - destruct (calculateQuickMetrics Sample.collab Sample.bondId1 Sample.worldShort)
      as [o w'] eqn:E.
    assert (o = fst (calculateQuickMetrics Sample.collab Sample.bondId1 Sample.worldShort))
      as Ho by now rewrite E.
    assert (w' = snd (calculateQuickMetrics Sample.collab Sample.bondId1 Sample.worldShort))
      as Hw by now rewrite E.
    vm_compute in Ho. subst o. eexists _, w'. split; [reflexivity|].
    split; [reflexivity|]. subst w'. vm_compute. reflexivity.
Qed.

(** ** Running the calculation twice *)

Lemma bondFieldErrors_withStatus (s : BondStatus) (b : Bond.t) :
  bondFieldErrors (Bond.withStatus s b) = bondFieldErrors b.
Proof. reflexivity. Qed.

Lemma convertPure_withStatus (c : Collaborators) (s : BondStatus) (b : Bond.t) (d : Database) :
  convertPure c (Bond.withStatus s b) d = convertPure c b d.
Proof. reflexivity. Qed.

Lemma sameUpToStatus_refl (d : Database) : sameUpToStatus d d.
Proof. split; reflexivity. Qed.

Lemma sameUpToStatus_trans (d1 d2 d3 : Database) :
  sameUpToStatus d1 d2 -> sameUpToStatus d2 d3 -> sameUpToStatus d1 d3.
Proof. intros [A B] [C D]. split; congruence. Qed.

Lemma sameInputsDb_upToStatus (d d' : Database) : sameInputsDb d d' -> sameUpToStatus d d'.
Proof. intros [A B]. split; congruence. Qed.

Lemma activated_upToStatus (bid : string) (d : Database) :
  sameUpToStatus d (activated bid d).
Proof.
  unfold activated. destruct (findBond bid d) as [b|]; [|apply sameUpToStatus_refl].
  destruct (Bond.status b); try apply sameUpToStatus_refl.
  split; [reflexivity|]. cbn. rewrite map_map. apply map_ext.
  intros x. destruct (String.eqb (Bond.id x) bid); reflexivity.
Qed.

Lemma findBond_upToStatus (bid : string) (d d' : Database) (bond : Bond.t) :
  map (Bond.withStatus DRAFT) (bonds d') = map (Bond.withStatus DRAFT) (bonds d) ->
  findBond bid d = Some bond ->
  exists bond', findBond bid d' = Some bond'
                /\ Bond.withStatus DRAFT bond' = Bond.withStatus DRAFT bond.
Proof.
  intros H Hfind.
  assert (option_map (Bond.withStatus DRAFT) (findBond bid d')
          = option_map (Bond.withStatus DRAFT) (findBond bid d)) as E.
  { unfold findBond.
    rewrite <- (find_map_same_key (fun b => String.eqb (Bond.id b) bid)
                  (Bond.withStatus DRAFT) (bonds d')) by (intros; reflexivity).
    rewrite <- (find_map_same_key (fun b => String.eqb (Bond.id b) bid)
                  (Bond.withStatus DRAFT) (bonds d)) by (intros; reflexivity).
    now rewrite H. }
  rewrite Hfind in E. destruct (findBond bid d') as [bond'|]; [|discriminate].
  exists bond'. split; [reflexivity|].
  exact (f_equal (fun o => orDefault o (Bond.withStatus DRAFT bond)) E).
Qed.

Lemma findInputs_same (bid : string) (d d' : Database) :
  calculationInputs d' = calculationInputs d -> findInputs bid d' = findInputs bid d.
Proof. intros H. unfold findInputs. now rewrite H. Qed.

Lemma convertPure_bonds (c : Collaborators) (bond : Bond.t) (d : Database) :
  bonds (snd (convertPure c bond d)) = bonds d.
Proof. unfold convertPure. repeat break_match; reflexivity. Qed.

Lemma inputsIdExists_found (bid : string) (d : Database) (record : CalcInputsRecord.t) :
  findInputs bid d = Some record -> inputsIdExists (CalcInputsRecord.id record) d = true.
Proof.
  intros H. apply find_some in H as [Hin _]. unfold inputsIdExists.
  apply existsb_exists. exists record. split; [exact Hin|apply String.eqb_refl].
Qed.

(** A second conversion, on the tables left by a successful first one,
    repairs nothing and returns the same inputs. *)
Lemma convertPure_stable (c : Collaborators) (bond : Bond.t) (d d1 d2 : Database)
    (i : CalculationInputs.t) :
  convertPure c bond d = (Ok i, d1) ->
  calculationInputs d2 = calculationInputs d1 ->
  convertPure c bond d2 = (Ok i, d2)
  /\ inputsIdExists (CalculationInputs.id i) d2 = true.
Proof.
  unfold convertPure.
  destruct (Bond.costs bond) as [bc|]; [|discriminate].
  destruct (findInputs (Bond.id bond) d) as [record|] eqn:Hfind; [|discriminate].
  cbv zeta. destruct (needsRepair _ _ _) eqn:Hneeds.
  - destruct (repairInflacion _ _) as [infl|] eqn:HI; [|discriminate].
    destruct (repairGracia _ _) as [gra|] eqn:HG; [|discriminate].
    intros H Hsame. injection H as Hi Hd. subst i d1.
    pose proof (repair_writes_arrays (Bond.id bond) infl gra d record Hfind) as Hwritten.
    rewrite <- (findInputs_same _ _ _ Hsame) in Hwritten. rewrite Hwritten.
    cbn [CalcInputsRecord.inflacionSerie CalcInputsRecord.graciaSerie CalcInputsRecord.id
         parseIfString].
    apply repairInflacion_ok in HI as [LI FI]. apply repairGracia_ok in HG as [LG FG].
    assert (needsRepair (JArr infl) (JArr gra) (Bond.numAnios bond) = false) as ->.
    { unfold needsRepair, hasCorrupt, hasWrongLengthOne, lengthDiffers. cbn.
      rewrite (finite_not_corrupt _ FI), (grace_not_corrupt _ FG).
      apply Z.eqb_eq in LI, LG. rewrite LI, LG. reflexivity. }
    unfold validatedInputs.
    apply (firstInvalid_none _ _ 0%nat) in FI, FG. rewrite FI, FG.
    split; [reflexivity|]. cbn. apply (inputsIdExists_found _ _ _ Hwritten).
  - intros H Hsame. injection H as Hv Hd. subst d1.
    rewrite (findInputs_same _ _ _ Hsame), Hfind, Hneeds, Hv.
    split; [reflexivity|].
    apply validatedInputs_ok in Hv as (iI & iG & _ & _ & _ & _ & Hi). subst i. cbn.
    unfold inputsIdExists. rewrite Hsame. eapply inputsIdExists_found, Hfind.
Qed.

Lemma formatCalculationResponse_same (bid : string) (r1 r2 : CalculationResult.t) :
  CalculationResult.flujos r1 = CalculationResult.flujos r2 ->
  CalculationResult.metricas r1 = CalculationResult.metricas r2 ->
  sameResponse (formatCalculationResponse bid r1) (formatCalculationResponse bid r2).
Proof.
  intros F M. unfold sameResponse, formatCalculationResponse. cbn. rewrite F, M. auto 6.
Qed.


(** After a successful conversion, any tables equal to the ones it left, up
    to the status of the bonds, yield the same bond fields and the same
    inputs, and accept the results. *)
Lemma settled (c : Collaborators) (bid : string) (bond : Bond.t) (d d1 d' : Database)
    (inputs : CalculationInputs.t) :
  findBond bid d = Some bond ->
  convertPure c bond d = (Ok inputs, d1) ->
  sameUpToStatus d1 d' ->
  exists bond',
    findBond bid d' = Some bond'
    /\ bondFieldErrors bond' = bondFieldErrors bond
    /\ convertPure c bond' d' = (Ok inputs, d')
    /\ bondExists bid d' = true
    /\ inputsIdExists (CalculationInputs.id inputs) d' = true.
Proof.
  intros Hbond HC Hup.
  assert (map (Bond.withStatus DRAFT) (bonds d') = map (Bond.withStatus DRAFT) (bonds d))
    as Hbonds.
  { rewrite (proj2 Hup). f_equal.
    rewrite <- (convertPure_bonds c bond d), HC. reflexivity. }
  destruct (findBond_upToStatus bid d d' bond Hbonds Hbond) as (bond' & Hbond' & Hsame).
  exists bond'. split; [exact Hbond'|].
  destruct (convertPure_stable c bond d d1 d' inputs HC (proj1 Hup)) as [Hst Hid].
  split; [|split; [|split]].
  - rewrite <- (bondFieldErrors_withStatus DRAFT bond'), Hsame. reflexivity.
  - rewrite <- (convertPure_withStatus c DRAFT bond'), Hsame. exact Hst.
  - eapply findBond_exists, Hbond'.
  - exact Hid.
Qed.

(** A recalculation on tables that are the ones left by a successful
    conversion, up to the status of the bonds: nothing is repaired, the same
    inputs reach the calculator, and the results are accepted. *)
Lemma recalculation_settled (c : Collaborators) (bid : string) (saveResults : bool)
    (bond : Bond.t) (d d1 : Database) (inputs : CalculationInputs.t) (w3 : World) :
  findBond bid d = Some bond ->
  bondFieldErrors bond = [] ->
  convertPure c bond d = (Ok inputs, d1) ->
  sameUpToStatus d1 (db w3) ->
  recalculation c bid saveResults w3
  = (let w1 := logCalculatorCall inputs w3 in
     match FinancialCalculator.calculate (calculator c) (clock w3) inputs with
     | Throw e => (Throw e, w1)
     | Ok result =>
         if saveResults then
           if String.eqb (CalculationInputs.id inputs) "" then (Throw IdNoEncontrado, w1)
           else
             match saveTransactionPure bid (CalculationInputs.id inputs) result
                                       (clock w3) (db w3) with
             | Throw e => (Throw e, w1)
             | Ok d2 =>
                 (Ok (formatCalculationResponse bid result), set_db (activated bid d2) w1)
             end
         else (Ok (formatCalculationResponse bid result), w1)
     end)
  /\ (forall result now,
        exists d2, saveTransactionPure bid (CalculationInputs.id inputs) result now (db w3)
                   = Ok d2).
Proof.
  intros Hbond Herrs HC Hup.
  destruct (settled c bid bond d d1 (db w3) inputs Hbond HC Hup)
    as (bond' & Hb' & He' & Hc' & Hex & Hid).
  split.
  - unfold recalculation. rewrite Hb', He', Herrs, Hc', set_db_same. reflexivity.
  - intros result now. apply saveTransactionPure_succeeds; assumption.
Qed.

(** Running the body of [calculateBond] again, on the tables left by a
    first run: the same outcome but for the timestamp, and the same stored
    schedule. *)
Lemma recalculation_again (c : Collaborators) (bid : string) (saveResults : bool)
    (w w2 : World) :
  clockIndependent (calculator c) ->
  db w2 = db (snd (recalculation c bid saveResults w)) ->
  sameOutcome (fst (recalculation c bid saveResults w))
              (fst (recalculation c bid saveResults w2))
  /\ storedSchedule bid (db (snd (recalculation c bid saveResults w2)))
     = storedSchedule bid (db w2).
Proof.
  intros Hclock. unfold recalculation at 1 2.
  destruct (findBond bid (db w)) as [bond|] eqn:Hbond.
  2:{ cbn. intros H. unfold recalculation. rewrite H, Hbond. split; reflexivity || (cbn; now rewrite H). }
  destruct (bondFieldErrors bond) as [|err errs] eqn:Herrs.
  2:{ cbn. intros H. unfold recalculation. rewrite H, Hbond, Herrs.
      split; reflexivity || (cbn; now rewrite H). }
  destruct (convertPure c bond (db w)) as [[inputs|e] d1] eqn:HC.
  2:{ cbn. intros H. unfold recalculation. rewrite H, Hbond, Herrs, HC.
      split; reflexivity || (cbn; now rewrite H). }
  cbv zeta.
  pose proof (fun w3 => recalculation_settled c bid saveResults bond (db w) d1 inputs w3
                          Hbond Herrs HC) as Hsettled.
  pose proof (Hclock (clock w) (clock w2) inputs) as Hsame.
  unfold sameComputation in Hsame.
  destruct (FinancialCalculator.calculate (calculator c) (clock w) inputs) as [result|e] eqn:E1.
  - destruct saveResults.
    + destruct (String.eqb (CalculationInputs.id inputs) "") eqn:Eid.
      * cbn [fst snd]. intros H.
        destruct (Hsettled w2) as [-> _]; [rewrite H; apply sameUpToStatus_refl|].
        cbv zeta.
        destruct (FinancialCalculator.calculate (calculator c) (clock w2) inputs);
          [|contradiction].
        split; reflexivity.
      * destruct (Hsettled (set_db d1 w) (sameUpToStatus_refl d1)) as [_ Hok].
        destruct (Hok result (clock w)) as [d2 Hsave]. cbn [db set_db] in Hsave.
        rewrite Hsave. cbn [fst snd]. intros H.
        assert (sameUpToStatus d1 (db w2)) as Hup.
        { rewrite H. cbn. apply saveTransactionPure_inputs in Hsave.
          eapply sameUpToStatus_trans;
            [apply sameInputsDb_upToStatus, Hsave|apply activated_upToStatus]. }
        destruct (Hsettled w2 Hup) as [-> Hok2]. cbv zeta.
        destruct (FinancialCalculator.calculate (calculator c) (clock w2) inputs)
          as [result2|]; [|contradiction].
        destruct (Hok2 result2 (clock w2)) as [d2' Hsave2]. rewrite Hsave2.
        destruct Hsame as [Hflujos Hmetricas]. cbn [fst snd].
        split; [now apply formatCalculationResponse_same|].
        step. rewrite (saveTransactionPure_schedule _ _ _ _ _ _ Hsave2), <- Hflujos.
        rewrite H. cbn [db set_db logCalculatorCall].
        rewrite (saveTransactionPure_schedule _ _ _ _ _ _ Hsave).
        destruct (CalculationResult.flujos result) as [[|flow flows]|]; try reflexivity.
        all: symmetry; apply storedSchedule_same.
        all: apply saveTransactionPure_flows in Hsave as (dd & Ef & Ed);
          unfold saveFlowsPure in Ef.
        all: rewrite activated_flows, Ed.
        all: destruct (CalculationResult.flujos result) as [[|? ?]|]; try discriminate;
          injection Ef as <-; reflexivity.
    + cbn [fst snd]. intros H.
      destruct (Hsettled w2) as [-> _]; [rewrite H; apply sameUpToStatus_refl|].
      cbv zeta.
      destruct (FinancialCalculator.calculate (calculator c) (clock w2) inputs);
        [|contradiction].
      destruct Hsame. split; [now apply formatCalculationResponse_same|reflexivity].
  - cbn [fst snd]. intros H.
    destruct (Hsettled w2) as [-> _]; [rewrite H; apply sameUpToStatus_refl|].
    cbv zeta.
    destruct (FinancialCalculator.calculate (calculator c) (clock w2) inputs);
      [contradiction|].
    split; [exact Hsame|reflexivity].
Qed.

(** The outcomes of a recalculation, by the step that ends it. *)
Lemma recalculation_cases (c : Collaborators) (bid : string) (saveResults : bool) (w : World) :
  (exists e, recalculation c bid saveResults w = (Throw e, w))
  \/ exists bond inputs d1,
       findBond bid (db w) = Some bond
       /\ Bond.id bond = bid
       /\ bondFieldErrors bond = []
       /\ convertPure c bond (db w) = (Ok inputs, d1)
       /\ ((exists e, recalculation c bid saveResults w
                      = (Throw e, logCalculatorCall inputs (set_db d1 w)))
           \/ (exists result,
                  FinancialCalculator.calculate (calculator c) (clock w) inputs = Ok result
                  /\ saveResults = false
                  /\ recalculation c bid saveResults w
                     = (Ok (formatCalculationResponse bid result),
                        logCalculatorCall inputs (set_db d1 w)))
           \/ (exists result d2,
                  FinancialCalculator.calculate (calculator c) (clock w) inputs = Ok result
                  /\ saveResults = true
                  /\ saveTransactionPure bid (CalculationInputs.id inputs) result (clock w) d1
                     = Ok d2
                  /\ recalculation c bid saveResults w
                     = (Ok (formatCalculationResponse bid result),
                        set_db (activated bid d2) (logCalculatorCall inputs (set_db d1 w))))).
Proof.
  unfold recalculation.
  destruct (findBond bid (db w)) as [bond|] eqn:Hb; [|left; eauto].
  destruct (bondFieldErrors bond) as [|x xs] eqn:Hv; [|left; eauto].
  destruct (convertPure c bond (db w)) as [[inputs|e] d1] eqn:Hc; [|left; eauto].
  right. exists bond, inputs, d1.
  apply findBond_id, String.eqb_eq in Hb as Hid.
  repeat split; try assumption; try reflexivity.
  cbv zeta.
  destruct (FinancialCalculator.calculate (calculator c) (clock w) inputs) as [result|e];
    [|left; eauto].
  destruct saveResults.
  - destruct (String.eqb (CalculationInputs.id inputs) ""); [left; eauto|].
    destruct (saveTransactionPure bid _ result (clock w) d1) as [d2|e] eqn:Hs; [|left; eauto].
    right. right. exists result, d2. auto.
  - right. left. exists result. auto.
Qed.

Lemma recalculation_clock (c : Collaborators) (bid : string) (saveResults : bool)
    (w : World) :
  clock (snd (recalculation c bid saveResults w)) = clock w.
Proof.
  destruct (recalculation_cases c bid saveResults w)
    as [[e ->]|(bond & inputs & d1 & _ & _ & _ & _ & H)]; [reflexivity|].
  destruct H as [[e ->]|[(result & _ & _ & ->)|(result & d2 & _ & _ & _ & ->)]]; reflexivity.
Qed.

(** After a recalculation that reached the calculator, the tables are those
    of the conversion up to the status of the bonds, and the inputs of the
    conversion are the ones handed to the calculator. *)
Lemma recalculation_leaves_settled (c : Collaborators) (bid : string) (saveResults : bool)
    (w : World) (bond : Bond.t) (inputs : CalculationInputs.t) (d1 : Database) :
  findBond bid (db w) = Some bond ->
  bondFieldErrors bond = [] ->
  convertPure c bond (db w) = (Ok inputs, d1) ->
  sameUpToStatus d1 (db (snd (recalculation c bid saveResults w)))
  /\ calculatorCalls (snd (recalculation c bid saveResults w)) = inputs :: calculatorCalls w.
Proof.
  intros Hbond Herrs HC.
  destruct (recalculation_cases c bid saveResults w)
    as [[e He]|(bond' & inputs' & d1' & Hbond' & _ & _ & HC' & H)].
  - unfold recalculation in He. rewrite Hbond, Herrs, HC in He. cbv zeta in He.
    exfalso. revert He. repeat break_match; intros He; try discriminate;
      injection He as _ He; apply (f_equal calculatorCalls) in He; cbn in He;
      apply (f_equal (@List.length _)) in He; cbn in He; lia.
  - rewrite Hbond in Hbond'. injection Hbond' as <-. rewrite HC in HC'.
    injection HC' as <- <-.
    destruct H as [[e ->]|[(result & _ & _ & ->)|(result & d2 & _ & _ & Hsave & ->)]];
      cbn [snd]; autorewrite with world; cbn [db logCalculatorCall set_db calculatorCalls];
      try (split; [apply sameUpToStatus_refl|reflexivity]).
    split; [|reflexivity].
    apply saveTransactionPure_inputs in Hsave.
    eapply sameUpToStatus_trans;
      [apply sameInputsDb_upToStatus, Hsave|apply activated_upToStatus].
Qed.

(** The second run hands the calculator what the first run handed it. *)
Lemma recalculation_again_calls (c : Collaborators) (bid : string) (saveResults : bool)
    (w w2 : World) :
  db w2 = db (snd (recalculation c bid saveResults w)) ->
  exists handed,
    calculatorCalls (snd (recalculation c bid saveResults w)) = handed ++ calculatorCalls w
    /\ calculatorCalls (snd (recalculation c bid saveResults w2))
       = handed ++ calculatorCalls w2.
Proof.
  destruct (findBond bid (db w)) as [bond|] eqn:Hbond.
  2:{ unfold recalculation at 1 2. rewrite Hbond. cbn. intros H. exists [].
      unfold recalculation. rewrite H, Hbond. split; reflexivity. }
  destruct (bondFieldErrors bond) as [|err errs] eqn:Herrs.
  2:{ unfold recalculation at 1 2. rewrite Hbond, Herrs. cbn. intros H. exists [].
      unfold recalculation. rewrite H, Hbond, Herrs. split; reflexivity. }
  destruct (convertPure c bond (db w)) as [[inputs|e] d1] eqn:HC.
  2:{ unfold recalculation at 1 2. rewrite Hbond, Herrs, HC. cbn. intros H. exists [].
      unfold recalculation. rewrite H, Hbond, Herrs, HC. split; reflexivity. }
  destruct (recalculation_leaves_settled c bid saveResults w bond inputs d1 Hbond Herrs HC)
    as [Hup Hcalls].
  intros H. rewrite <- H in Hup.
  destruct (settled c bid bond (db w) d1 (db w2) inputs Hbond HC Hup)
    as (bond' & Hbond' & Herrs' & HC' & _).
  rewrite Herrs in Herrs'.
  destruct (recalculation_leaves_settled c bid saveResults w2 bond' inputs (db w2)
              Hbond' Herrs' HC') as [_ Hcalls2].
  exists [inputs]. split; assumption.
Qed.

Lemma engineCalculator_clockIndependent
    (valuation : CalculationInputs.t
                 -> Outcome (option (list Flow.t) * Metricas.t * option Json))
    (quickValuation : CalculationInputs.t -> Outcome Metricas.t) :
  clockIndependent (engineCalculator valuation quickValuation).
Proof.
  intros t1 t2 i. unfold sameComputation. cbn.
  destruct (valuation i) as [[[flujos metricas] intermedios]|e]; [split|]; reflexivity.
Qed.

(** With the calculator of the specification, every response of a
    recalculation is stamped with the reading of the clock. *)
Lemma recalculation_stamped
    (valuation : CalculationInputs.t
                 -> Outcome (option (list Flow.t) * Metricas.t * option Json))
    (quickValuation : CalculationInputs.t -> Outcome Metricas.t)
    (parse : string -> option Json) (bid : string) (saveResults : bool)
    (w w' : World) (r : BondCalculationResponse) :
  recalculation {| calculator := engineCalculator valuation quickValuation;
                   JSON_parse := parse |} bid saveResults w = (Ok r, w') ->
  calculatedAt r = Some (clock w).
Proof.
  intros H.
  destruct (recalculation_cases {| calculator := engineCalculator valuation quickValuation;
                                   JSON_parse := parse |} bid saveResults w)
    as [[e He]|(bond & inputs & d1 & _ & _ & _ & _ & Hcases)]; [congruence|].
  assert (forall result,
             FinancialCalculator.calculate (engineCalculator valuation quickValuation)
               (clock w) inputs = Ok result ->
             CalculationResult.fechaCalculo result = Some (clock w)) as Hstamp.
  { intros result. cbn. destruct (valuation inputs) as [[[f m] j]|e]; [|discriminate].
    intros E. now injection E as <-. }
  destruct Hcases as [[e He]|[(result & Hr & _ & He)|(result & d2 & Hr & _ & _ & He)]];
    rewrite He in H; [discriminate| |]; injection H as <- _; cbn; exact (Hstamp _ Hr).
Qed.

Lemma response_eq (r1 r2 : BondCalculationResponse) :
  bondId r2 = bondId r1 -> success r2 = success r1 -> calculatedAt r2 = calculatedAt r1 ->
  metricas r2 = metricas r1 -> flowsCount r2 = flowsCount r1 -> errors r2 = errors r1 ->
  r2 = r1.
Proof.
  destruct r1, r2. cbn. intros. subst. reflexivity.
Qed.

(** C2.  [FinancialCalculator] is taken as the specification describes it:
    the schedule and the metrics are a function of the calculation inputs,
    and the result is stamped with the time of the computation.  Running
    [calculateBond] with [recalculate = true] a second time, on the tables
    left by the first run and whatever the clock reads then, hands the
    calculator the very inputs of the first run and gives the same outcome:
    the same exception, or two responses with the same bond id, success flag,
    metric values, number of flows and errors.  The two responses differ in
    [calculatedAt] alone, which is the reading of the clock at each run, so
    that they are equal in every field when the clock reads the same.  The
    schedule stored for the bond is the same after the second run as after
    the first. *)
Theorem calculateBond_twice_same_result
    (valuation : CalculationInputs.t
                 -> Outcome (option (list Flow.t) * Metricas.t * option Json))
    (quickValuation : CalculationInputs.t -> Outcome Metricas.t)
    (parse : string -> option Json) (request : CalculateBondRequest) (w w2 : World) :
  let c := {| calculator := engineCalculator valuation quickValuation;
              JSON_parse := parse |} in
  req_recalculate request = Some true ->
  db w2 = db (snd (calculateBond c request w)) ->
  match fst (calculateBond c request w), fst (calculateBond c request w2) with
  | Ok r1, Ok r2 =>
      bondId r2 = bondId r1
      /\ success r2 = success r1
      /\ metricas r2 = metricas r1
      /\ flowsCount r2 = flowsCount r1
      /\ errors r2 = errors r1
      /\ calculatedAt r1 = Some (clock w)
      /\ calculatedAt r2 = Some (clock w2)
      /\ (clock w2 = clock w -> r2 = r1)
  | Throw e1, Throw e2 => e2 = e1
  | _, _ => False
  end
  /\ (exists handed,
        calculatorCalls (snd (calculateBond c request w)) = handed ++ calculatorCalls w
        /\ calculatorCalls (snd (calculateBond c request w2)) = handed ++ calculatorCalls w2)
  /\ storedSchedule (req_bondId request) (db (snd (calculateBond c request w2)))
     = storedSchedule (req_bondId request) (db (snd (calculateBond c request w))).
Proof.
  intros c Hre. rewrite !calculateBond_run.
  destruct (isCuid (req_bondId request)).
  2:{ cbn. intros ->. split; [reflexivity|]. split; [exists []; split; reflexivity|reflexivity]. }
  rewrite !calculateBondBody_run, Hre. cbn [orDefault].
  set (bid := req_bondId request). set (s := orDefault (req_saveResults request) true).
  intros Hdb.
  assert (db w2 = db (snd (recalculation c bid s w))) as Hdb'.
  { rewrite Hdb. destruct (recalculation c bid s w) as [[r|e] w']; reflexivity. }
  pose proof (recalculation_again c bid s w w2
                (engineCalculator_clockIndependent valuation quickValuation) Hdb')
    as [Hout Hsched].
  pose proof (recalculation_again_calls c bid s w w2 Hdb') as (handed & Hc1 & Hc2).
  pose proof (recalculation_clock c bid s w) as Hk1.
  pose proof (recalculation_clock c bid s w2) as Hk2.
  pose proof (recalculation_stamped valuation quickValuation parse bid s w) as Hs1.
  pose proof (recalculation_stamped valuation quickValuation parse bid s w2) as Hs2.
  fold c in Hs1, Hs2.
  destruct (recalculation c bid s w) as [[r1|e1] w1];
    destruct (recalculation c bid s w2) as [[r2|e2] w3];
    cbn [fst snd] in *; unfold sameOutcome, sameResponse in Hout; try contradiction.
  - destruct Hout as (Hb & Hsu & Hm & Hf & He).
    specialize (Hs1 w1 r1 eq_refl). specialize (Hs2 w3 r2 eq_refl).
    split; [|split; [exists handed; split; assumption|now rewrite Hsched, Hdb']].
    repeat split; try (symmetry; assumption); try assumption.
    intros Hclock. apply response_eq; try (symmetry; assumption). congruence.
  - subst e2. rewrite Hk1, Hk2.
    split; [|split; [exists handed; split; assumption|now rewrite Hsched, Hdb']].
    repeat split. intros ->. reflexivity.
Qed.

Lemma calculateBond_twice_same_result_witness :
  exists r1 r2 w1,
    calculateBond Sample2.engineCollab (Sample.request true) Sample.worldShort = (Ok r1, w1)
    /\ fst (calculateBond Sample2.engineCollab (Sample.request true)
              (Build_World (db w1) 9000 [] [])) = Ok r2
    /\ success r1 = true
    /\ metricas r2 = metricas r1
    /\ flowsCount r2 = flowsCount r1.
Proof.
  pose proof (calculateBond_twice_same_result Sample2.engineValuation Sample2.engineQuick
                (fun _ => None) (Sample.request true) Sample.worldShort
                (Build_World
                   (db (snd (calculateBond Sample2.engineCollab (Sample.request true)
                               Sample.worldShort))) 9000 [] [])
                eq_refl eq_refl) as [H _].
  fold Sample2.engineCollab in H.
  destruct (calculateBond Sample2.engineCollab (Sample.request true) Sample.worldShort)
    as [[r1|e1] w1] eqn:E1; [|vm_compute in E1; discriminate].
  cbn [fst snd] in H.
  destruct (fst (calculateBond Sample2.engineCollab (Sample.request true)
                   (Build_World (db w1) 9000 [] []))) as [r2|e2] eqn:E2; [|contradiction].
  exists r1, r2, w1. split; [reflexivity|]. split; [exact E2|].
  split; [vm_compute in E1; now injection E1 as <- _|].
  split; apply H.
Defined.

(** ** Batches of bonds *)

Lemma processBond_run (c : Collaborators) (bid : string) (w : World) :
  (isCuid bid = false /\ processBond c bid w = (Throw ZodInvalidCuid, w))
  \/ (isCuid bid = true
      /\ exists r w', processBond c bid w = (Ok r, w') /\ bondId r = bid).
Proof.
  unfold processBond. rewrite calculateBond_run. cbn [req_bondId].
  destruct (isCuid bid); [right|left; auto].
  split; [reflexivity|].
  destruct (calculateBondBody c bid _ _ w) as [[r|e] w'] eqn:E.
  - exists r, w'. split; [reflexivity|]. eapply calculateBondBody_ok, E.
  - eexists _, w'. split; reflexivity.
Qed.

(** In sequential mode an id that is not a cuid makes the whole call
    throw. *)
Lemma sequentialLoop_aborts (c : Collaborators) (ids : list string) (total : Z)
    (notify : bool) (i : Z) (results : list BondCalculationResponse) (w : World) :
  existsb (fun bid => negb (isCuid bid)) ids = true ->
  fst (sequentialLoop c ids total notify i results w) = Throw ZodInvalidCuid.
Proof.
  revert i results w. induction ids as [|bid ids IH]; intros i results w H; [discriminate|].
  cbn [sequentialLoop]. unfold bind at 1.
  destruct (processBond_run c bid w) as [[Hc ->]|[Hc (r & w' & -> & _)]]; [reflexivity|].
  cbn in H. rewrite Hc in H. cbn in H.
  unfold bind at 1. unfold notifyProgress at 1. apply IH, H.
Qed.

(** In sequential mode, when every id is a cuid, there is one response per
    id, in order, each filed under its id. *)
Lemma sequentialLoop_all (c : Collaborators) (ids : list string) (total : Z)
    (notify : bool) (i : Z) (results : list BondCalculationResponse) (w : World) :
  forallb isCuid ids = true ->
  exists rs w',
    sequentialLoop c ids total notify i results w = (Ok (results ++ rs), w')
    /\ map bondId rs = ids.
Proof.
  revert i results w. induction ids as [|bid ids IH]; intros i results w H.
  - exists [], w. cbn. now rewrite app_nil_r.
  - cbn in H. apply andb_prop in H as [Hc H].
    cbn [sequentialLoop]. unfold bind at 1.
    destruct (processBond_run c bid w) as [[Hc' _]|[_ (r & w' & -> & Hr)]]; [congruence|].
    unfold bind at 1. unfold notifyProgress at 1.
    destruct (IH (i + 1) (results ++ [r])
                 (if notify then logProgress (i + 1) total w' else w') H)
      as (rs & w'' & E & Hrs).
    exists (r :: rs), w''. split.
    + rewrite E, <- app_assoc. reflexivity.
    + cbn. now rewrite Hr, Hrs.
Qed.

(** C3 at its failing input.  In sequential mode (the default) the list
    ["x"; a valid id] makes [calculateMultipleBonds] throw the validation
    error of the first id: no response is returned, and the second bond is
    never computed. *)
Theorem calculateMultipleBonds_sequential_aborts (fuel : nat) :
  calculateMultipleBonds Sample.collab fuel ["x"; Sample.bondId1] defaultOptions
                         Sample.worldGood
  = (Throw ZodInvalidCuid, Sample.worldGood).
Proof. reflexivity. Qed.

(** The same list in parallel mode: two responses, the first one a failure
    filed under 'unknown_in_batch' instead of the id that failed. *)
Lemma calculateMultipleBonds_parallel_unknown :
  exists r2 w',
    calculateMultipleBonds Sample.collab 10 ["x"; Sample.bondId1]
      {| parallel := Some true; batchSize := None; onProgress := false |} Sample.worldGood
    = (Ok (Some [failureResponse "unknown_in_batch" 5000 ZodInvalidCuid; r2]), w')
    /\ success r2 = true /\ bondId r2 = Sample.bondId1.
Proof.
  destruct (calculateMultipleBonds Sample.collab 10 ["x"; Sample.bondId1]
              {| parallel := Some true; batchSize := None; onProgress := false |}
              Sample.worldGood) as [o w'] eqn:E.
  assert (o = fst (calculateMultipleBonds Sample.collab 10 ["x"; Sample.bondId1]
              {| parallel := Some true; batchSize := None; onProgress := false |}
              Sample.worldGood)) as Ho by now rewrite E.
  vm_compute in Ho. subst o. eexists _, w'. repeat split; reflexivity.
Qed.

(** In parallel mode a batch size of zero never finishes on a non-empty
    list: whatever the fuel, the loop is still running. *)
Lemma parallelLoop_zero_batch (c : Collaborators) (bid : string) (ids : list string)
    (notify : bool) (fuel : nat) (results : list BondCalculationResponse) (w : World) :
  fst (parallelLoop c (bid :: ids) 0 notify fuel 0 results w) = Ok None.
Proof.
  revert results w. induction fuel as [|fuel IH]; intros results w; [reflexivity|].
  cbn [parallelLoop].
  assert ((0 <? Z.of_nat (List.length (bid :: ids))) = true) as -> by (apply Z.ltb_lt; cbn; lia).
  assert (slice (bid :: ids) 0 (0 + 0) = []) as -> by reflexivity.
  cbn [allSettled]. unfold bind at 1. unfold ret at 1.
  unfold bind at 1. unfold notifyProgress at 1.
  rewrite app_nil_r. apply IH.
Qed.

Lemma allSettled_length (c : Collaborators) (batch : list string) (w : World) :
  exists rs w', allSettled c batch w = (Ok rs, w') /\ List.length rs = List.length batch.
Proof.
  revert w. induction batch as [|bid batch IH]; intros w.
  - exists [], w. split; reflexivity.
  - cbn [allSettled]. unfold bind at 1. unfold settledEntry, tryCatch.
    destruct (processBond c bid w) as [[r|e] w1].
    + destruct (IH w1) as (rs & w' & E & L). unfold bind at 1. rewrite E.
      exists (r :: rs), w'. split; [reflexivity|]. cbn. now rewrite L.
    + unfold bind at 1, newDate at 1, ret at 1.
      destruct (IH w1) as (rs & w' & E & L). unfold bind at 1. rewrite E.
      eexists (_ :: rs), w'. split; [reflexivity|]. cbn. now rewrite L.
Qed.

(** A batch is a run of consecutive ids, at most [batchSize] of them. *)
Lemma slice_batch (ids : list string) (i b : Z) :
  0 <= i < Z.of_nat (List.length ids) -> 1 <= b ->
  slice ids i (i + b) = firstn (Z.to_nat b) (skipn (Z.to_nat i) ids)
  /\ Z.of_nat (List.length (slice ids i (i + b)))
     = Z.min b (Z.of_nat (List.length ids) - i).
Proof.
  intros Hi Hb. unfold slice, relativeIndex.
  assert ((i <? 0) = false) as -> by (apply Z.ltb_ge; lia).
  assert ((i + b <? 0) = false) as -> by (apply Z.ltb_ge; lia).
  rewrite (Z.min_l i) by lia.
  split.
  - destruct (Z.min_spec (i + b) (Z.of_nat (List.length ids))) as [[H ->]|[H ->]].
    + f_equal. lia.
    + rewrite !firstn_all2; try reflexivity; rewrite length_skipn; lia.
  - rewrite length_firstn, length_skipn. lia.
Qed.

(** In parallel mode with a batch size of at least one and enough fuel the
    loop finishes with one response per id. *)
Lemma parallelLoop_all (c : Collaborators) (ids : list string) (b : Z) (notify : bool)
    (fuel : nat) (i : Z) (results : list BondCalculationResponse) (w : World) :
  1 <= b -> 0 <= i ->
  (Z.to_nat (Z.of_nat (List.length ids) - i) <= fuel)%nat ->
  exists rs w',
    parallelLoop c ids b notify fuel i results w = (Ok (Some rs), w')
    /\ List.length rs
       = (List.length results + Z.to_nat (Z.of_nat (List.length ids) - i))%nat.
Proof.
  intros Hb. revert i results w. induction fuel as [|fuel IH]; intros i results w Hi Hfuel.
  - cbn [parallelLoop]. destruct (i <? _) eqn:Hlt.
    + apply Z.ltb_lt in Hlt. lia.
    + apply Z.ltb_ge in Hlt. exists results, w. split; [reflexivity|]. lia.
  - cbn [parallelLoop]. destruct (i <? _) eqn:Hlt.
    + apply Z.ltb_lt in Hlt.
      destruct (slice_batch ids i b (conj Hi Hlt) Hb) as [_ Hlen].
      destruct (allSettled_length c (slice ids i (i + b)) w) as (rs1 & w1 & E1 & L1).
      unfold bind at 1. rewrite E1. unfold bind at 1, notifyProgress at 1.
      destruct (IH (i + b) (results ++ rs1)
                   (if notify
                    then logProgress (Z.min (i + b) (Z.of_nat (List.length ids)))
                                     (Z.of_nat (List.length ids)) w1
                    else w1)) as (rs & w' & E & L); [lia|lia|].
      exists rs, w'. split; [exact E|].
      rewrite L, length_app, L1. lia.
    + apply Z.ltb_ge in Hlt. exists results, w. split; [reflexivity|]. lia.
Qed.

(** With valid ids, [calculateMultipleBonds] returns one response per id:
    always in sequential mode, and in parallel mode when the batch size is at
    least one (the fuel then need not exceed the number of ids). *)
Lemma calculateMultipleBonds_valid_ids (c : Collaborators) (fuel : nat) (ids : list string)
    (options : Options) (w : World) :
  forallb isCuid ids = true ->
  orDefault (parallel options) false = false
    \/ (1 <= orDefault (batchSize options) 5 /\ (List.length ids <= fuel)%nat) ->
  exists rs w',
    calculateMultipleBonds c fuel ids options w = (Ok (Some rs), w')
    /\ List.length rs = List.length ids.
Proof.
  intros Hids Hmode. unfold calculateMultipleBonds.
  destruct (orDefault (parallel options) false) eqn:Hp.
  - destruct Hmode as [Hmode|[Hb Hfuel]]; [discriminate|].
    destruct (parallelLoop_all c ids (orDefault (batchSize options) 5) (onProgress options)
                fuel 0 [] w Hb (Z.le_refl 0)) as (rs & w' & E & L); [lia|].
    exists rs, w'. split; [exact E|]. rewrite L. cbn. lia.
  - destruct (sequentialLoop_all c ids (Z.of_nat (List.length ids)) (onProgress options)
                0 [] w Hids) as (rs & w' & E & Hrs).
    unfold bind. rewrite E. exists rs, w'. split; [reflexivity|].
    cbn [app]. rewrite <- (length_map bondId rs), Hrs. reflexivity.
Qed.

(** ** The root finder *)

Lemma withinTolerance_lt (f : Q -> Q) (tol r : Q) :
  RootFinder.withinTolerance f tol r = true -> (Qabs (f r) < tol)%Q.
Proof.
  unfold RootFinder.withinTolerance. intros H. apply negb_true_iff in H.
  apply Qnot_le_lt. intros Hle. apply Qle_bool_iff in Hle. congruence.
Qed.

(** The refinement returns a rate only when the value there is within the
    tolerance, and reports an error only when the budget is spent. *)
Lemma refine_sound (f : Q -> Q) (tol : Q) (budget used : nat) (lo hi : Q) :
  let run := RootFinder.refine f tol budget used lo hi in
  (RootFinder.iterations run <= used + budget)%nat
  /\ match RootFinder.result run with
     | RootFinder.Rate r => (Qabs (f r) < tol)%Q
     | RootFinder.ConvergenceError => RootFinder.iterations run = (used + budget)%nat
     end.
Proof.
  revert used lo hi. induction budget as [|budget IH]; intros used lo hi.
  - cbn. split; lia.
  - cbn [RootFinder.refine].
    destruct (RootFinder.withinTolerance f tol _) eqn:Hw.
    + cbn. split; [lia|]. apply withinTolerance_lt, Hw.
    + destruct (RootFinder.changesSign f lo _).
      * specialize (IH (S used) lo (Qred ((lo + hi) / 2))). cbv zeta in IH.
        destruct IH as [Hi Hr]. split; [lia|].
        destruct (RootFinder.result _); [exact Hr|lia].
      * specialize (IH (S used) (Qred ((lo + hi) / 2)) hi). cbv zeta in IH.
        destruct IH as [Hi Hr]. split; [lia|].
        destruct (RootFinder.result _); [exact Hr|lia].
Qed.

(** C7.  Whatever the flows, when [solveEffectiveRate] returns a rate the
    NPV of the flows at that rate is below the tolerance 1e-8 in absolute
    value; the solver never takes more than the iteration budget; and it
    reports [ConvergenceError], not a rate, exactly when the budget has been
    spent without meeting the tolerance or the bracket shows no change of
    sign. *)
Theorem solveEffectiveRate_within_tolerance (pow : Q -> Q -> Q) (flows : list Q)
    (periodsPerYear : Q) :
  let run := RootFinder.solveEffectiveRate pow flows periodsPerYear in
  tolerance precisionSettings = 1 # 100000000
  /\ (RootFinder.iterations run <= RootFinder.maxIterations)%nat
  /\ match RootFinder.result run with
     | RootFinder.Rate r =>
         (Qabs (RootFinder.NPV pow flows periodsPerYear r) < 1 # 100000000)%Q
     | RootFinder.ConvergenceError =>
         RootFinder.iterations run = RootFinder.maxIterations
         \/ RootFinder.changesSign (RootFinder.NPV pow flows periodsPerYear)
              RootFinder.bracketLow RootFinder.bracketHigh = false
     end.
Proof.
  cbv zeta. split; [reflexivity|].
  unfold RootFinder.solveEffectiveRate, RootFinder.solve.
  destruct (RootFinder.changesSign _ _ _) eqn:Hs.
  - destruct (refine_sound (RootFinder.NPV pow flows periodsPerYear)
                (tolerance precisionSettings) RootFinder.maxIterations 0
                RootFinder.bracketLow RootFinder.bracketHigh) as [Hi Hr].
    split; [exact Hi|].
    destruct (RootFinder.result _); [exact Hr|left; exact Hr].
  - cbn. split; [lia|]. right. reflexivity.
Qed.

(** A bond bought at 100 and repaid at 110 after one year: the solver
    returns a rate, within 1e-8 of zero NPV. *)
Lemma solveEffectiveRate_within_tolerance_witness :
  exists r,
    RootFinder.result (RootFinder.solveEffectiveRate Sample.powInt [(-100)%Q; 110%Q] 1%Q)
    = RootFinder.Rate r
    /\ (Qabs (RootFinder.NPV Sample.powInt [(-100)%Q; 110%Q] 1%Q r) < 1 # 100000000)%Q.
Proof.
  pose proof (solveEffectiveRate_within_tolerance Sample.powInt [(-100)%Q; 110%Q] 1%Q) as H.
  cbv zeta in H. destruct H as (_ & _ & H).
  destruct (RootFinder.result (RootFinder.solveEffectiveRate Sample.powInt [(-100)%Q; 110%Q] 1%Q))
    as [r|] eqn:E; [|vm_compute in E; discriminate].
  exists r. split; [reflexivity|exact H].
Defined.

(** * Further properties *)

(** ** The repair of stored series *)

Lemma map_default_id {A : Type} (p : A -> bool) (v : A) (l : list A) :
  forallb p l = true -> map (fun x => if p x then x else v) l = l.
Proof.
  induction l as [|x l IH]; cbn; [reflexivity|].
  intros H. apply andb_prop in H as [Hx Hl]. now rewrite Hx, IH.
Qed.

Lemma repairInflacion_fixpoint (items : list Json) (n : Z) :
  Z.of_nat (List.length items) = n ->
  forallb isFiniteNumber items = true ->
  repairInflacion (JArr items) n = Ok items.
Proof.
  intros L F. unfold repairInflacion, keepableItems, lengthDiffers.
  apply Z.eqb_eq in L. rewrite L, (finite_not_corrupt _ F). cbn.
  now rewrite map_default_id.
Qed.

Lemma repairGracia_fixpoint (items : list Json) (n : Z) :
  Z.of_nat (List.length items) = n ->
  forallb isGraceCode items = true ->
  repairGracia (JArr items) n = Ok items.
Proof.
  intros L F. unfold repairGracia, keepableItems, lengthDiffers.
  apply Z.eqb_eq in L. rewrite L, (grace_not_corrupt _ F). cbn.
  now rewrite map_default_id.
Qed.

Lemma updateSeries_twice (bid : string) (i g i' g' : Json) (r : CalcInputsRecord.t) :
  updateSeries bid i g (updateSeries bid i' g' r) = updateSeries bid i g r.
Proof.
  unfold updateSeries. destruct (String.eqb (CalcInputsRecord.bondId r) bid) eqn:E; cbn;
    now rewrite E.
Qed.

Lemma repairedDb_twice (bid : string) (infl gra : list Json) (d : Database) :
  repairedDb bid infl gra (repairedDb bid infl gra d) = repairedDb bid infl gra d.
Proof.
  unfold repairedDb, set_calculationInputs. cbn. f_equal. rewrite map_map.
  apply map_ext. intros r. apply updateSeries_twice.
Qed.

(** X1. A repair that has succeeded leaves both stored series as arrays of
    [expectedLength] valid elements, and repairing again changes nothing. *)
Theorem repairInconsistentSeries_idempotent (bid : string) (n : Z) (w w1 : World) :
  repairInconsistentSeries bid n w = (Ok tt, w1) ->
  repairInconsistentSeries bid n w1 = (Ok tt, w1)
  /\ exists record infl gra,
       findInputs bid (db w1) = Some record
       /\ CalcInputsRecord.inflacionSerie record = JArr infl
       /\ CalcInputsRecord.graciaSerie record = JArr gra
       /\ Z.of_nat (List.length infl) = n /\ Z.of_nat (List.length gra) = n
       /\ forallb isFiniteNumber infl = true /\ forallb isGraceCode gra = true
       /\ needsRepair (JArr infl) (JArr gra) n = false.
Proof.
  rewrite repairInconsistentSeries_run.
  destruct (findInputs bid (db w)) as [ci|] eqn:Hfind; [|discriminate].
  destruct (repairInflacion _ n) as [infl|] eqn:HI; [|discriminate].
  destruct (repairGracia _ n) as [gra|] eqn:HG; [|discriminate].
  intros H. injection H as <-.
  pose proof (repair_writes_arrays bid infl gra (db w) ci Hfind) as Hw.
  apply repairInflacion_ok in HI as [LI FI]. apply repairGracia_ok in HG as [LG FG].
  split.
  - rewrite repairInconsistentSeries_run. autorewrite with world. rewrite Hw. cbn.
    rewrite (repairInflacion_fixpoint _ _ LI FI), (repairGracia_fixpoint _ _ LG FG).
    now rewrite repairedDb_twice.
  - eexists _, infl, gra. autorewrite with world. split; [exact Hw|].
    repeat split; try assumption.
    unfold needsRepair, hasCorrupt, hasWrongLengthOne, lengthDiffers. cbn.
    rewrite (finite_not_corrupt _ FI), (grace_not_corrupt _ FG).
    apply Z.eqb_eq in LI, LG. now rewrite LI, LG.
Qed.

Lemma repairInconsistentSeries_idempotent_witness :
  exists w1,
    repairInconsistentSeries Sample.bondId1 2 Sample2.worldTwo = (Ok tt, w1)
    /\ repairInconsistentSeries Sample.bondId1 2 w1 = (Ok tt, w1).
Proof.
  destruct (repairInconsistentSeries Sample.bondId1 2 Sample2.worldTwo) as [[[]|e] w1] eqn:E;
    [|vm_compute in E; discriminate].
  exists w1. split; [reflexivity|].
  exact (proj1 (repairInconsistentSeries_idempotent Sample.bondId1 2 Sample2.worldTwo w1 E)).
Defined.

Lemma find_updateSeries_other (bid other : string) (i g : Json)
    (l : list CalcInputsRecord.t) :
  String.eqb other bid = false ->
  find (fun r => String.eqb (CalcInputsRecord.bondId r) other) (map (updateSeries bid i g) l)
  = find (fun r => String.eqb (CalcInputsRecord.bondId r) other) l.
Proof.
  intros H. induction l as [|r l IH]; [reflexivity|].
  cbn [map find]. unfold updateSeries at 1 2.
  destruct (String.eqb (CalcInputsRecord.bondId r) bid) eqn:E.
  - cbn. apply String.eqb_eq in E. rewrite E, String.eqb_sym, H. exact IH.
  - destruct (String.eqb (CalcInputsRecord.bondId r) other); [reflexivity|exact IH].
Qed.

Lemma map_updateSeries_keys (bid : string) (i g : Json) (l : list CalcInputsRecord.t) :
  map (fun r => (CalcInputsRecord.id r, CalcInputsRecord.bondId r)) (map (updateSeries bid i g) l)
  = map (fun r => (CalcInputsRecord.id r, CalcInputsRecord.bondId r)) l.
Proof.
  rewrite map_map. apply map_ext. intros r. unfold updateSeries.
  destruct (String.eqb (CalcInputsRecord.bondId r) bid); reflexivity.
Qed.

(** X2. Whatever its outcome, a repair writes to the inputs record of its
    own bond only: the record of every other bond is as before, no record is
    added, removed or re-keyed, and the other tables are untouched. *)
Theorem repairInconsistentSeries_touches_one_record (bid : string) (n : Z) (w : World) :
  let w1 := snd (repairInconsistentSeries bid n w) in
  (forall other, String.eqb other bid = false ->
                 findInputs other (db w1) = findInputs other (db w))
  /\ map (fun r => (CalcInputsRecord.id r, CalcInputsRecord.bondId r))
         (calculationInputs (db w1))
     = map (fun r => (CalcInputsRecord.id r, CalcInputsRecord.bondId r))
           (calculationInputs (db w))
  /\ onlyInputsChanged (db w) (db w1)
  /\ clock w1 = clock w /\ calculatorCalls w1 = calculatorCalls w.
Proof.
  cbv zeta. rewrite repairInconsistentSeries_run.
  destruct (findInputs bid (db w)) as [ci|]; cbn [snd];
    [|repeat split; reflexivity].
  destruct (repairInflacion _ n) as [infl|]; cbn [snd]; [|repeat split; reflexivity].
  destruct (repairGracia _ n) as [gra|]; cbn [snd]; [|repeat split; reflexivity].
  autorewrite with world. split; [|split; [|repeat split]].
  - intros other H. unfold findInputs, repairedDb. cbn. now apply find_updateSeries_other.
  - unfold repairedDb. cbn. apply map_updateSeries_keys.
Qed.

Lemma repairInconsistentSeries_touches_one_record_witness :
  findInputs Sample2.bondId2
             (db (snd (repairInconsistentSeries Sample.bondId1 2 Sample2.worldTwo)))
  = Some Sample2.inputs2.
Proof.
  exact (proj1 (repairInconsistentSeries_touches_one_record Sample.bondId1 2 Sample2.worldTwo)
               Sample2.bondId2 eq_refl).
Defined.

Lemma Array_fill_throws {A : Type} (n : Z) (v : A) (e : ErrorMessage) :
  Array_fill n v = Throw e -> e = InvalidArrayLength /\ (n < 0 \/ maxArrayLength < n).
Proof.
  unfold Array_fill. destruct (n <? 0) eqn:A0; cbn.
  - intros H. injection H as <-. apply Z.ltb_lt in A0. auto.
  - destruct (maxArrayLength <? n) eqn:B; [|discriminate].
    intros H. injection H as <-. apply Z.ltb_lt in B. auto.
Qed.

Lemma repair_failure (bid : string) (n : Z) (w w1 : World) (e : ErrorMessage) :
  repairInconsistentSeries bid n w = (Throw e, w1) ->
  w1 = w
  /\ ((e = CalculationInputsNoEncontrado bid /\ findInputs bid (db w) = None)
      \/ (e = InvalidArrayLength /\ (n < 0 \/ maxArrayLength < n))).
Proof.
  rewrite repairInconsistentSeries_run.
  destruct (findInputs bid (db w)) as [ci|].
  - destruct (repairInflacion _ n) as [infl|e1] eqn:HI.
    + destruct (repairGracia _ n) as [gra|e2] eqn:HG; [discriminate|].
      intros H. injection H as <- <-. split; [reflexivity|]. right.
      unfold repairGracia in HG. destruct (keepableItems _ n); [discriminate|].
      eapply Array_fill_throws, HG.
    + intros H. injection H as <- <-. split; [reflexivity|]. right.
      unfold repairInflacion in HI. destruct (keepableItems _ n); [discriminate|].
      eapply Array_fill_throws, HI.
  - intros H. injection H as <- <-. auto.
Qed.

(** X3. A repair fails only for want of the record or for an impossible
    length, and then nothing at all has changed; it succeeds whenever the
    record exists and [0 <= expectedLength <= 2^32 - 1]. *)
Theorem repairInconsistentSeries_outcome (bid : string) (n : Z) (w : World) :
  (forall e w1,
      repairInconsistentSeries bid n w = (Throw e, w1) ->
      w1 = w
      /\ ((e = CalculationInputsNoEncontrado bid /\ findInputs bid (db w) = None)
          \/ (e = InvalidArrayLength /\ (n < 0 \/ maxArrayLength < n))))
  /\ (forall record,
        findInputs bid (db w) = Some record ->
        0 <= n <= maxArrayLength ->
        exists w1, repairInconsistentSeries bid n w = (Ok tt, w1)).
Proof.
  split.
  - intros e w1. apply repair_failure.
  - intros record Hfind Hn. rewrite repairInconsistentSeries_run, Hfind.
    destruct (repairInflacion_total (CalcInputsRecord.inflacionSerie record) n Hn) as [i ->].
    destruct (repairGracia_total (CalcInputsRecord.graciaSerie record) n Hn) as [g ->].
    eauto.
Qed.

Lemma repairInconsistentSeries_outcome_witness :
  repairInconsistentSeries "nobody" 2 Sample2.worldTwo
  = (Throw (CalculationInputsNoEncontrado "nobody"), Sample2.worldTwo)
  /\ exists w1, repairInconsistentSeries Sample.bondId1 2 Sample2.worldTwo = (Ok tt, w1).
Proof.
  destruct (repairInconsistentSeries_outcome "nobody" 2 Sample2.worldTwo) as [Hfail _].
  destruct (repairInconsistentSeries_outcome Sample.bondId1 2 Sample2.worldTwo) as [_ Hok].
  split.
  - destruct (repairInconsistentSeries "nobody" 2 Sample2.worldTwo) as [[[]|e] w1] eqn:E;
      [vm_compute in E; discriminate|].
    destruct (Hfail e w1 eq_refl) as [-> [[-> _]|[-> [H|H]]]];
      [reflexivity|lia|unfold maxArrayLength in H; lia].
  - apply (Hok Sample.shortInputs eq_refl). unfold maxArrayLength. lia.
Defined.

(** X4. A repair never rewrites a series that is well formed: when the
    stored inflation series is an array of [expectedLength] finite numbers it
    is stored unchanged after a successful repair, and likewise a grace
    series of [expectedLength] codes among 'S', 'P', 'T'. *)
Theorem repairInconsistentSeries_keeps_well_formed (bid : string) (n : Z) (w w1 : World)
    (record : CalcInputsRecord.t) :
  repairInconsistentSeries bid n w = (Ok tt, w1) ->
  findInputs bid (db w) = Some record ->
  (forall items,
      CalcInputsRecord.inflacionSerie record = JArr items ->
      Z.of_nat (List.length items) = n ->
      forallb isFiniteNumber items = true ->
      option_map CalcInputsRecord.inflacionSerie (findInputs bid (db w1)) = Some (JArr items))
  /\ (forall items,
        CalcInputsRecord.graciaSerie record = JArr items ->
        Z.of_nat (List.length items) = n ->
        forallb isGraceCode items = true ->
        option_map CalcInputsRecord.graciaSerie (findInputs bid (db w1)) = Some (JArr items)).
Proof.
  rewrite repairInconsistentSeries_run. intros H Hfind. rewrite Hfind in H.
  destruct (repairInflacion _ n) as [infl|] eqn:HI; [|discriminate].
  destruct (repairGracia _ n) as [gra|] eqn:HG; [|discriminate].
  injection H as <-. autorewrite with world.
  rewrite (repair_writes_arrays bid infl gra (db w) record Hfind). cbn.
  split; intros items E L F.
  - rewrite E, (repairInflacion_fixpoint _ _ L F) in HI. now injection HI as <-.
  - rewrite E, (repairGracia_fixpoint _ _ L F) in HG. now injection HG as <-.
Qed.

Lemma repairInconsistentSeries_keeps_well_formed_witness :
  exists w1,
    repairInconsistentSeries Sample.bondId1 2 Sample2.worldTwo = (Ok tt, w1)
    /\ option_map CalcInputsRecord.graciaSerie (findInputs Sample.bondId1 (db w1))
       = Some (JArr [JStr "S"; JStr "S"]).
Proof.
  destruct (repairInconsistentSeries Sample.bondId1 2 Sample2.worldTwo) as [[[]|e] w1] eqn:E;
    [|vm_compute in E; discriminate].
  exists w1. split; [reflexivity|].
  exact (proj2 (repairInconsistentSeries_keeps_well_formed Sample.bondId1 2 Sample2.worldTwo
                  w1 Sample.shortInputs E eq_refl)
               [JStr "S"; JStr "S"] eq_refl eq_refl eq_refl).
Defined.

(** ** The consistency check of the quick metrics *)

(** X5. [validateSeriesConsistency] returns, writing nothing, exactly on
    consistent inputs.  On inconsistent inputs it always throws: the
    [SERIES_REPAIRED] signal, with the stored series repaired, when the repair
    succeeds, and [Validation failed] with the errors found, with nothing
    written, when the repair fails. *)
Theorem validateSeriesConsistency_inconsistent_always_throws (bid : string)
    (i : CalculationInputs.t) (w : World) :
  (seriesErrors i = [] -> validateSeriesConsistency bid i w = (Ok tt, w))
  /\ (seriesErrors i <> [] ->
      match repairInconsistentSeries bid (CalculationInputs.numAnios i) w with
      | (Ok _, w1) => validateSeriesConsistency bid i w = (Throw (SeriesRepaired bid), w1)
      | (Throw _, _) =>
          validateSeriesConsistency bid i w = (Throw (ValidationFailed (seriesErrors i)), w)
      end).
Proof.
  unfold validateSeriesConsistency. split.
  - intros ->. reflexivity.
  - intros Hne. destruct (seriesErrors i) as [|err errs] eqn:E; [contradiction|].
    unfold tryCatch, seq, bind.
    destruct (repairInconsistentSeries bid (CalculationInputs.numAnios i) w) as [[[]|e] w1] eqn:R.
    + reflexivity.
    + apply repair_failure in R as [-> [[-> _]|[-> _]]]; reflexivity.
Qed.

Lemma validateSeriesConsistency_inconsistent_always_throws_witness :
  exists w1,
    validateSeriesConsistency Sample.bondId1
      (buildInputs "inputs1" Sample.bond1 Sample.someCosts [JNum (3 # 100)] [JStr "S"; JStr "S"])
      Sample2.worldTwo
    = (Throw (SeriesRepaired Sample.bondId1), w1).
Proof.
  pose proof (proj2 (validateSeriesConsistency_inconsistent_always_throws Sample.bondId1
    (buildInputs "inputs1" Sample.bond1 Sample.someCosts [JNum (3 # 100)] [JStr "S"; JStr "S"])
    Sample2.worldTwo)) as H.
  match type of H with
  | ?A -> match ?r with _ => _ end =>
      assert A as HA by (vm_compute; discriminate);
      specialize (H HA); destruct r as [[[]|e] w1] eqn:R; [|vm_compute in R; discriminate]
  end.
  exists w1. exact H.
Defined.


(** ** What a calculation leaves in the tables *)

Lemma saveTransactionPure_steps (bid inputsId : string) (result : CalculationResult.t)
    (now : Date) (d d' : Database) :
  saveTransactionPure bid inputsId result now d = Ok d' ->
  let fechaCalculo := orDefault (CalculationResult.fechaCalculo result) now in
  let m := CalculationResult.metricas result in
  exists d1 d2 d3,
    saveFlowsPure bid result d = Ok d1
    /\ upsertMetrics bid EMISOR (emisorCreate bid m fechaCalculo)
                     (emisorUpdate m fechaCalculo) d1 = Ok d2
    /\ upsertMetrics bid BONISTA (bonistaCreate bid m fechaCalculo)
                     (bonistaUpdate m fechaCalculo) d2 = Ok d3
    /\ upsertResult bid inputsId (resultCreate bid inputsId result now)
                    (resultUpdate result now) d3 = Ok d'.
Proof.
  unfold saveTransactionPure, andThen. cbv zeta.
  destruct (saveFlowsPure bid result d) as [d1|]; [|discriminate].
  destruct (upsertMetrics bid EMISOR _ _ d1) as [d2|] eqn:E2; [|discriminate].
  destruct (upsertMetrics bid BONISTA _ _ d2) as [d3|] eqn:E3; [|discriminate].
  intros H. exists d1, d2, d3. repeat split; try reflexivity; assumption.
Qed.

Section Frames.

(** A relation between the tables before and after a call made for a bond,
    kept by each write the service makes. *)
Variable R : string -> Database -> Database -> Prop.
Hypothesis R_refl : forall bid d, R bid d d.
Hypothesis R_trans : forall bid d1 d2 d3, R bid d1 d2 -> R bid d2 d3 -> R bid d1 d3.
Hypothesis R_repair : forall bid infl gra d, R bid d (repairedDb bid infl gra d).
Hypothesis R_save :
  forall bid inputsId result now d d',
    saveTransactionPure bid inputsId result now d = Ok d' -> R bid d d'.
Hypothesis R_activated : forall bid d, R bid d (activated bid d).

Lemma convertPure_related (c : Collaborators) (bond : Bond.t) (d : Database) :
  R (Bond.id bond) d (snd (convertPure c bond d)).
Proof.
  unfold convertPure. repeat break_match; cbn [snd]; auto.
Qed.

Lemma recalculation_related (c : Collaborators) (bid : string) (saveResults : bool)
    (w : World) :
  R bid (db w) (db (snd (recalculation c bid saveResults w))).
Proof.
  destruct (recalculation_cases c bid saveResults w)
    as [[e ->]|(bond & inputs & d1 & _ & Hid & _ & Hc & H)]; [apply R_refl|].
  pose proof (convertPure_related c bond (db w)) as H1. rewrite Hc, Hid in H1. cbn in H1.
  destruct H as [[e ->]|[(result & _ & _ & ->)|(result & d2 & _ & _ & Hs & ->)]];
    cbn [snd]; autorewrite with world; cbn [db logCalculatorCall set_db]; try exact H1.
  eapply R_trans; [exact H1|]. eapply R_trans; [eapply R_save, Hs|apply R_activated].
Qed.

Lemma calculateBond_related (c : Collaborators) (request : CalculateBondRequest) (w : World) :
  R (req_bondId request) (db w) (db (snd (calculateBond c request w))).
Proof.
  rewrite calculateBond_run. destruct (isCuid (req_bondId request)); [|apply R_refl].
  rewrite calculateBondBody_run.
  pose proof (recalculation_related c (req_bondId request)
                (orDefault (req_saveResults request) true) w) as Hr.
  destruct (orDefault (req_recalculate request) false).
  - destruct (recalculation _ _ _ w) as [[r|e] w']; exact Hr.
  - destruct (existingCalculation _ (db w)); [apply R_refl|].
    destruct (recalculation _ _ _ w) as [[r|e] w']; exact Hr.
Qed.

Lemma quickMetrics_related (c : Collaborators) (bid : string) (w : World) :
  R bid (db w) (db (snd (calculateQuickMetrics c bid w))).
Proof.
  rewrite calculateQuickMetrics_run. unfold quickMetrics.
  destruct (findBond bid (db w)) as [bond|] eqn:Hb; [|apply R_refl].
  apply findBond_id, String.eqb_eq in Hb as Hid.
  pose proof (convertPure_related c bond (db w)) as H1. rewrite Hid in H1.
  destruct (convertPure c bond (db w)) as [[inputs|e] d1]; [|apply R_refl].
  cbv zeta. destruct (FinancialCalculator.calculateQuickMetrics _ _ _); exact H1.
Qed.

End Frames.

(** *** Rows of other bonds *)

Lemma untouched_refl (other : string) (d : Database) : untouched other d d.
Proof. repeat split. Qed.

Lemma untouched_trans (other : string) (d1 d2 d3 : Database) :
  untouched other d1 d2 -> untouched other d2 d3 -> untouched other d1 d3.
Proof.
  intros (A1 & A2 & A3 & A4 & A5) (B1 & B2 & B3 & B4 & B5).
  repeat split; etransitivity; eassumption.
Qed.

Lemma othersUntouched_refl (bid : string) (d : Database) : othersUntouched bid d d.
Proof. intros other _. apply untouched_refl. Qed.

Lemma othersUntouched_trans (bid : string) (d1 d2 d3 : Database) :
  othersUntouched bid d1 d2 -> othersUntouched bid d2 d3 -> othersUntouched bid d1 d3.
Proof.
  intros H1 H2 other Ho. eapply untouched_trans; [apply H1|apply H2]; exact Ho.
Qed.

Lemma eqb_other (a other bid : string) :
  String.eqb other bid = false -> String.eqb a bid = true -> String.eqb a other = false.
Proof.
  intros Ho Ha. apply String.eqb_eq in Ha. subst a. now rewrite String.eqb_sym.
Qed.

Lemma repairedDb_others (bid : string) (infl gra : list Json) (d : Database) :
  othersUntouched bid d (repairedDb bid infl gra d).
Proof.
  intros other Ho. repeat split.
  unfold findInputs, repairedDb. cbn. now apply find_updateSeries_other.
Qed.

Lemma filter_map_if {A : Type} (p q : A -> bool) (f : A -> A) (l : list A) :
  (forall x, q x = true -> p x = false /\ p (f x) = false) ->
  filter p (map (fun x => if q x then f x else x) l) = filter p l.
Proof.
  intros H. induction l as [|x l IH]; [reflexivity|]. cbn.
  destruct (q x) eqn:Q.
  - destruct (H x Q) as [-> ->]. exact IH.
  - destruct (p x); now rewrite IH.
Qed.

Lemma filter_snoc_out {A : Type} (p : A -> bool) (l : list A) (x : A) :
  p x = false -> filter p (l ++ [x]) = filter p l.
Proof.
  intros H. rewrite filter_app. cbn. rewrite H. apply app_nil_r.
Qed.

Lemma deleteFlows_others (bid : string) (d : Database) :
  othersUntouched bid d (deleteFlows bid d).
Proof.
  intros other Ho. repeat split. unfold flowsOfBond. cbn.
  apply filter_filter_weaker.
  intros r Hr. apply String.eqb_eq in Hr. rewrite Hr, Ho. reflexivity.
Qed.

Lemma createFlows_others (bid : string) (flows : list Flow.t) (d d' : Database) :
  createFlows (map (toCashFlowData bid) flows) d = Ok d' -> othersUntouched bid d d'.
Proof.
  intros H other Ho.
  destruct (insertFlows_appends (map (toCashFlowData bid) flows) (cashFlows d) (nextId d))
    as (added & Ha & Hadded).
  unfold createFlows in H. destruct (forallb _ _); [|discriminate].
  cbv zeta in H. rewrite Ha in H. injection H as <-.
  repeat split. unfold flowsOfBond. cbn [cashFlows set_cashFlows].
  rewrite filter_app, (filter_none _ added); [apply app_nil_r|].
  intros r Hr. rewrite Forall_forall in Hadded. destruct (Hadded r Hr) as [_ Hin].
  apply added_bondId in Hin. rewrite Hin, String.eqb_sym. exact Ho.
Qed.

Lemma saveFlowsPure_others (bid : string) (result : CalculationResult.t) (d d' : Database) :
  saveFlowsPure bid result d = Ok d' -> othersUntouched bid d d'.
Proof.
  unfold saveFlowsPure.
  destruct (CalculationResult.flujos result) as [[|flow flows]|];
    try (intros H; injection H as <-; apply othersUntouched_refl).
  intros H. eapply othersUntouched_trans; [apply deleteFlows_others|].
  eapply createFlows_others, H.
Qed.

Lemma upsertMetrics_others (bid : string) (role : MetricsRole)
    (create : nat -> FinancialMetrics.t) (update : FinancialMetrics.t -> FinancialMetrics.t)
    (d d' : Database) :
  (forall n, FinancialMetrics.bondId (create n) = bid) ->
  (forall r, FinancialMetrics.bondId (update r) = FinancialMetrics.bondId r) ->
  upsertMetrics bid role create update d = Ok d' -> othersUntouched bid d d'.
Proof.
  intros Hc Hu H other Ho. unfold upsertMetrics in H.
  destruct (existsb _ _).
  - injection H as <-. repeat split. cbn. apply filter_map_if.
    intros r Hr. unfold isMetricsOf in Hr. apply andb_prop in Hr as [Hr _].
    rewrite Hu. split; exact (eqb_other _ _ _ Ho Hr).
  - destruct (bondExists bid d); [|discriminate]. injection H as <-.
    repeat split. cbn. apply filter_snoc_out. rewrite Hc, String.eqb_sym. exact Ho.
Qed.

Lemma upsertResult_others (bid inputsId : string)
    (create : nat -> CalcResultRow.t) (update : CalcResultRow.t -> CalcResultRow.t)
    (d d' : Database) :
  (forall n, CalcResultRow.bondId (create n) = bid) ->
  (forall r, CalcResultRow.bondId (update r) = CalcResultRow.bondId r) ->
  upsertResult bid inputsId create update d = Ok d' -> othersUntouched bid d d'.
Proof.
  intros Hc Hu H other Ho. unfold upsertResult in H.
  destruct (existsb _ _).
  - injection H as <-. repeat split. cbn. apply filter_map_if.
    intros r Hr. unfold isResultOf in Hr. apply andb_prop in Hr as [Hr _].
    rewrite Hu. split; exact (eqb_other _ _ _ Ho Hr).
  - destruct (bondExists bid d && _); [|discriminate]. injection H as <-.
    repeat split. cbn. apply filter_snoc_out. rewrite Hc, String.eqb_sym. exact Ho.
Qed.

Lemma saveTransactionPure_others (bid inputsId : string) (result : CalculationResult.t)
    (now : Date) (d d' : Database) :
  saveTransactionPure bid inputsId result now d = Ok d' -> othersUntouched bid d d'.
Proof.
  intros H. apply saveTransactionPure_steps in H as (d1 & d2 & d3 & H1 & H2 & H3 & H4).
  eapply othersUntouched_trans; [eapply saveFlowsPure_others, H1|].
  eapply othersUntouched_trans; [eapply upsertMetrics_others, H2; reflexivity|].
  eapply othersUntouched_trans; [eapply upsertMetrics_others, H3; reflexivity|].
  eapply upsertResult_others, H4; reflexivity.
Qed.

Lemma activated_others (bid : string) (d : Database) :
  othersUntouched bid d (activated bid d).
Proof.
  intros other Ho. unfold untouched. rewrite findBond_activated, flowsOfBond_activated.
  assert (option_map (fun b => if String.eqb (Bond.id b) bid then Bond.withStatus ACTIVE b else b)
                     (findBond other d) = findBond other d) as Hm.
  { destruct (findBond other d) as [b|] eqn:Hb; [|reflexivity]. cbn.
    apply findBond_id, String.eqb_eq in Hb. now rewrite Hb, Ho. }
  unfold activated. destruct (findBond bid d) as [bond|]; [|repeat split].
  destruct (Bond.status bond); repeat split. exact Hm.
Qed.

(** X6. A call of [calculateBond] reads and writes the rows of its own bond
    only: whatever the request and the outcome, the bond, the inputs record,
    the schedule, the metrics and the results stored for every other bond are
    those stored before. *)
Theorem calculateBond_leaves_other_bonds (c : Collaborators) (request : CalculateBondRequest)
    (w : World) (other : string) :
  String.eqb other (req_bondId request) = false ->
  untouched other (db w) (db (snd (calculateBond c request w))).
Proof.
  intros Ho.
  exact (calculateBond_related othersUntouched othersUntouched_refl othersUntouched_trans
           repairedDb_others saveTransactionPure_others activated_others c request w other Ho).
Qed.

Lemma calculateBond_leaves_other_bonds_witness :
  untouched Sample2.bondId2 (db Sample2.worldTwo)
            (db (snd (calculateBond Sample.collab (Sample.request true) Sample2.worldTwo))).
Proof.
  apply (calculateBond_leaves_other_bonds Sample.collab (Sample.request true)
           Sample2.worldTwo Sample2.bondId2).
  reflexivity.
Defined.

(** *** The unique indexes *)

Lemma NoDup_snoc {A : Type} (l : list A) (x : A) :
  NoDup l -> ~ In x l -> NoDup (l ++ [x]).
Proof.
  induction l as [|y l IH]; cbn; intros Hl Hx.
  - constructor; [intros []|constructor].
  - inversion Hl as [|? ? Hy Hl']; subst. constructor.
    + rewrite in_app_iff. cbn. intros [H|[H|[]]]; [now apply Hy|]. subst. apply Hx. now left.
    + apply IH; [exact Hl'|]. intros H. apply Hx. now right.
Qed.

Lemma filter_keeps_unique {A K : Type} (key : A -> K) (keep : A -> bool) (rows : list A) :
  NoDup (map key rows) -> NoDup (map key (filter keep rows)).
Proof.
  induction rows as [|r rows IH]; cbn; intros H; [constructor|].
  inversion H as [|? ? Hr Hrows]; subst.
  destruct (keep r); [|now apply IH]. cbn. constructor; [|now apply IH].
  intros Hin. apply Hr. apply in_map_iff in Hin as (r' & Hkey & Hin).
  apply in_map_iff. exists r'. split; [exact Hkey|]. apply filter_In in Hin. tauto.
Qed.

Lemma map_key_map_if {A K : Type} (key : A -> K) (q : A -> bool) (f : A -> A) (l : list A) :
  (forall x, key (f x) = key x) ->
  map key (map (fun x => if q x then f x else x) l) = map key l.
Proof.
  intros H. rewrite map_map. apply map_ext. intros x. destruct (q x); [apply H|reflexivity].
Qed.

Lemma existsb_false_key {A K : Type} (key : A -> K) (p : A -> bool) (k : K) (l : list A) :
  (forall x, key x = k -> p x = true) ->
  existsb p l = false -> ~ In k (map key l).
Proof.
  intros Hk He Hin. apply in_map_iff in Hin as (x & Hx & Hin).
  assert (existsb p l = true) as Ht by (apply existsb_exists; exists x; auto).
  congruence.
Qed.

Lemma insertFlow_unique (acc : list CashFlow.t * nat) (x : CashFlowData.t) :
  NoDup (map flowKey (fst acc)) -> NoDup (map flowKey (fst (insertFlow acc x))).
Proof.
  intros H. unfold insertFlow. destruct (existsb (sameFlowKey x) (fst acc)) eqn:E; [exact H|].
  cbn [fst]. rewrite map_app. cbn [map]. apply NoDup_snoc; [exact H|].
  apply (existsb_false_key flowKey (sameFlowKey x)); [|exact E].
  intros r Hr. unfold flowKey in Hr. cbn in Hr. injection Hr as Hb Hp.
  unfold sameFlowKey. rewrite Hb, Hp, String.eqb_refl, Z.eqb_refl. reflexivity.
Qed.

Lemma insertFlows_unique (data : list CashFlowData.t) (acc : list CashFlow.t * nat) :
  NoDup (map flowKey (fst acc)) -> NoDup (map flowKey (fst (fold_left insertFlow data acc))).
Proof.
  revert acc. induction data as [|x data IH]; cbn; intros acc H; [exact H|].
  apply IH, insertFlow_unique, H.
Qed.

Lemma saveFlowsPure_unique (bid : string) (result : CalculationResult.t) (d d' : Database) :
  saveFlowsPure bid result d = Ok d' -> uniqueIndexes d -> uniqueIndexes d'.
Proof.
  unfold saveFlowsPure.
  destruct (CalculationResult.flujos result) as [[|flow flows]|];
    try (intros H; injection H as <-; exact (fun U => U)).
  generalize (map (toCashFlowData bid) (flow :: flows)). intros data H (U1 & U2 & U3 & U4).
  unfold createFlows in H. destruct (forallb _ _); [|discriminate].
  injection H as <-. repeat split; try assumption.
  cbn [cashFlows set_cashFlows]. apply insertFlows_unique. cbn.
  now apply filter_keeps_unique.
Qed.

Lemma MetricsRole_eqb_refl (r : MetricsRole) : MetricsRole_eqb r r = true.
Proof. destruct r; reflexivity. Qed.

Lemma upsertMetrics_unique (bid : string) (role : MetricsRole)
    (create : nat -> FinancialMetrics.t) (update : FinancialMetrics.t -> FinancialMetrics.t)
    (d d' : Database) :
  (forall n, metricsKey (create n) = (bid, role)) ->
  (forall r, metricsKey (update r) = metricsKey r) ->
  upsertMetrics bid role create update d = Ok d' -> uniqueIndexes d -> uniqueIndexes d'.
Proof.
  intros Hc Hu H (U1 & U2 & U3 & U4). unfold upsertMetrics in H.
  destruct (existsb _ _) eqn:E.
  - injection H as <-. repeat split; try assumption.
    cbn. now rewrite map_key_map_if.
  - destruct (bondExists bid d); [|discriminate]. injection H as <-.
    repeat split; try assumption.
    cbn. rewrite map_app. cbn. rewrite Hc. apply NoDup_snoc; [exact U2|].
    apply (existsb_false_key metricsKey (isMetricsOf bid role)); [|exact E].
    intros r Hr. unfold metricsKey in Hr. injection Hr as Hb Hr.
    unfold isMetricsOf. now rewrite Hb, Hr, String.eqb_refl, MetricsRole_eqb_refl.
Qed.

Lemma upsertResult_unique (bid inputsId : string)
    (create : nat -> CalcResultRow.t) (update : CalcResultRow.t -> CalcResultRow.t)
    (d d' : Database) :
  (forall n, resultKey (create n) = (bid, inputsId)) ->
  (forall r, resultKey (update r) = resultKey r) ->
  upsertResult bid inputsId create update d = Ok d' -> uniqueIndexes d -> uniqueIndexes d'.
Proof.
  intros Hc Hu H (U1 & U2 & U3 & U4). unfold upsertResult in H.
  destruct (existsb _ _) eqn:E.
  - injection H as <-. repeat split; try assumption.
    cbn. now rewrite map_key_map_if.
  - destruct (bondExists bid d && _); [|discriminate]. injection H as <-.
    repeat split; try assumption.
    cbn. rewrite map_app. cbn. rewrite Hc. apply NoDup_snoc; [exact U3|].
    apply (existsb_false_key resultKey (isResultOf bid inputsId)); [|exact E].
    intros r Hr. unfold resultKey in Hr. injection Hr as Hb Hr.
    unfold isResultOf. now rewrite Hb, Hr, !String.eqb_refl.
Qed.

Lemma saveTransactionPure_unique (bid inputsId : string) (result : CalculationResult.t)
    (now : Date) (d d' : Database) :
  saveTransactionPure bid inputsId result now d = Ok d' -> uniqueIndexes d -> uniqueIndexes d'.
Proof.
  intros H U. apply saveTransactionPure_steps in H as (d1 & d2 & d3 & H1 & H2 & H3 & H4).
  eapply upsertResult_unique; [| |exact H4|]; try reflexivity.
  eapply upsertMetrics_unique; [| |exact H3|]; try reflexivity.
  eapply upsertMetrics_unique; [| |exact H2|]; try reflexivity.
  eapply saveFlowsPure_unique; eassumption.
Qed.

Lemma repairedDb_unique (bid : string) (infl gra : list Json) (d : Database) :
  uniqueIndexes d -> uniqueIndexes (repairedDb bid infl gra d).
Proof.
  intros (U1 & U2 & U3 & U4). repeat split; try assumption.
  unfold repairedDb. cbn. rewrite map_map.
  erewrite map_ext; [exact U4|].
  intros r. unfold updateSeries. now destruct (String.eqb _ bid).
Qed.

Lemma activated_unique (bid : string) (d : Database) :
  uniqueIndexes d -> uniqueIndexes (activated bid d).
Proof.
  unfold activated. destruct (findBond bid d) as [bond|]; [|exact (fun U => U)].
  destruct (Bond.status bond); exact (fun U => U).
Qed.

(** X7. The service keeps the unique indexes of the schema on
    [cash_flows(bond_id, periodo)], [financial_metrics(bond_id, role)],
    [calculation_results(bond_id, calculation_inputs_id)] and
    [calculation_inputs(bond_id)]: when no two stored rows share a key, none
    do after [calculateBond] or [calculateQuickMetrics], whatever the
    request and the outcome, even for a schedule that repeats a period. *)
Theorem calculations_keep_unique_indexes (c : Collaborators) (w : World) :
  uniqueIndexes (db w) ->
  (forall request, uniqueIndexes (db (snd (calculateBond c request w))))
  /\ (forall bid, uniqueIndexes (db (snd (calculateQuickMetrics c bid w)))).
Proof.
  intros U.
  pose (R := fun (_ : string) (d d' : Database) => uniqueIndexes d -> uniqueIndexes d').
  assert (forall bid d, R bid d d) as R_refl by (intros bid d H; exact H).
  assert (forall bid d1 d2 d3, R bid d1 d2 -> R bid d2 d3 -> R bid d1 d3) as R_trans
    by (intros bid d1 d2 d3 H1 H2 H; exact (H2 (H1 H))).
  assert (forall bid infl gra d, R bid d (repairedDb bid infl gra d)) as R_repair
    by (intros bid infl gra d; exact (repairedDb_unique bid infl gra d)).
  assert (forall bid inputsId result now d d',
             saveTransactionPure bid inputsId result now d = Ok d' -> R bid d d') as R_save
    by (intros bid inputsId result now d d'; exact (saveTransactionPure_unique bid inputsId result now d d')).
  assert (forall bid d, R bid d (activated bid d)) as R_activated
    by (intros bid d; exact (activated_unique bid d)).
  split.
  - intros request.
    exact (calculateBond_related R R_refl R_trans R_repair R_save R_activated c request w U).
  - intros bid.
    exact (quickMetrics_related R R_refl R_repair c bid w U).
Qed.

Lemma calculations_keep_unique_indexes_witness :
  uniqueIndexes
    (db (snd (calculateBond Sample.collab (Sample.request true) Sample2.worldTwo))).
Proof.
  apply (calculations_keep_unique_indexes Sample.collab Sample2.worldTwo).
  unfold uniqueIndexes. cbn.
  repeat split; repeat constructor; cbn; intuition discriminate.
Defined.

(** *** Failed and unsaved calculations *)

Lemma onlyInputsChanged_refl (d : Database) : onlyInputsChanged d d.
Proof. repeat split. Qed.

Lemma convertPure_only_inputs (c : Collaborators) (bond : Bond.t) (d : Database) :
  onlyInputsChanged d (snd (convertPure c bond d)).
Proof.
  unfold convertPure. repeat break_match; cbn [snd]; repeat split.
Qed.

Lemma recalculation_frame (c : Collaborators) (bid : string) (saveResults : bool)
    (w w' : World) (o : Outcome BondCalculationResponse) :
  recalculation c bid saveResults w = (o, w') ->
  saveResults = false \/ (exists e, o = Throw e) ->
  onlyInputsChanged (db w) (db w').
Proof.
  intros H Hs.
  destruct (recalculation_cases c bid saveResults w)
    as [[e He]|(bond & inputs & d1 & _ & _ & _ & Hc & Hcases)].
  - rewrite He in H. injection H as _ <-. apply onlyInputsChanged_refl.
  - pose proof (convertPure_only_inputs c bond (db w)) as H1. rewrite Hc in H1. cbn in H1.
    destruct Hcases as [[e He]|[(result & _ & _ & He)|(result & d2 & _ & Hsave & _ & He)]];
      rewrite He in H.
    + injection H as _ <-. cbn. exact H1.
    + injection H as _ <-. cbn. exact H1.
    + injection H as <- _. destruct Hs as [Hs|[e Hs]]; congruence.
Qed.

(** X8. A calculation that fails, or that is asked not to save, stores no
    result: the schedules, the metrics, the results and the bonds, with their
    status, are as before, and only a repair of the stored series may have
    been written.  A request refused for its id writes nothing at all. *)
Theorem calculateBond_failure_saves_nothing (c : Collaborators)
    (request : CalculateBondRequest) (w : World) :
  (forall r w',
      calculateBond c request w = (Ok r, w') ->
      success r = false \/ req_saveResults request = Some false ->
      onlyInputsChanged (db w) (db w'))
  /\ (forall e w', calculateBond c request w = (Throw e, w') -> w' = w).
Proof.
  rewrite calculateBond_run. destruct (isCuid (req_bondId request));
    [|split; [discriminate|intros e w' H; now injection H as _ <-]].
  rewrite calculateBondBody_run.
  assert (forall r w',
    match recalculation c (req_bondId request) (orDefault (req_saveResults request) true) w with
    | (Ok r0, w0) => (Ok r0, w0)
    | (Throw e, w0) => (Ok (failureResponse (req_bondId request) (clock w0) e), w0)
    end = (Ok r, w') ->
    success r = false \/ req_saveResults request = Some false ->
    onlyInputsChanged (db w) (db w')) as Hrec.
  { intros r w'.
    destruct (recalculation c (req_bondId request) (orDefault (req_saveResults request) true) w)
      as [[r0|e] w0] eqn:Hr; intros H Hs; injection H as <- <-.
    - apply (recalculation_frame _ _ _ _ _ _ Hr). left.
      destruct Hs as [Hs|Hs]; [|now rewrite Hs].
      apply recalculation_ok in Hr as [Hr _]. congruence.
    - apply (recalculation_frame _ _ _ _ _ _ Hr). right. eauto. }
  split.
  - intros r w'. destruct (orDefault (req_recalculate request) false); [apply Hrec|].
    destruct (existingCalculation (req_bondId request) (db w)); [|apply Hrec].
    intros H _. injection H as _ <-. apply onlyInputsChanged_refl.
  - intros e w'. destruct (orDefault (req_recalculate request) false).
    + destruct (recalculation _ _ _ w) as [[r0|e0] w0]; discriminate.
    + destruct (existingCalculation (req_bondId request) (db w)); [discriminate|].
      destruct (recalculation _ _ _ w) as [[r0|e0] w0]; discriminate.
Qed.

Lemma calculateBond_failure_saves_nothing_witness :
  exists r w',
    calculateBond Sample2.collabFailing (Sample.request true) Sample2.worldTwo = (Ok r, w')
    /\ success r = false
    /\ onlyInputsChanged (db Sample2.worldTwo) (db w').
Proof.
  destruct (calculateBond Sample2.collabFailing (Sample.request true) Sample2.worldTwo)
    as [[r|e] w'] eqn:E; [|vm_compute in E; discriminate].
  assert (success r = false) as Hs by (vm_compute in E; now injection E as <- _).
  exists r, w'. split; [reflexivity|]. split; [exact Hs|].
  exact (proj1 (calculateBond_failure_saves_nothing Sample2.collabFailing (Sample.request true)
                  Sample2.worldTwo) r w' E (or_introl Hs)).
Defined.

(** ** Quick metrics *)

(** X9. [calculateQuickMetrics] never throws, whatever the id: it always
    returns a response for that id with no flows counted, the empty metrics
    when it reports a failure, and it stores no schedule, metrics, result or
    status; only a repair of the stored series may have been written. *)
Theorem calculateQuickMetrics_never_throws (c : Collaborators) (bid : string) (w : World) :
  exists r,
    fst (calculateQuickMetrics c bid w) = Ok r
    /\ bondId r = bid
    /\ flowsCount r = 0%nat
    /\ (success r = true \/ (metricas r = getEmptyMetrics /\ errors r <> None))
    /\ onlyInputsChanged (db w) (db (snd (calculateQuickMetrics c bid w)))
    /\ clock (snd (calculateQuickMetrics c bid w)) = clock w.
Proof.
  rewrite calculateQuickMetrics_run. unfold quickMetrics.
  assert (forall (o : Outcome BondCalculationResponse) (w' : World) (r : BondCalculationResponse),
             o = Ok r -> bondId r = bid -> flowsCount r = 0%nat ->
             success r = true \/ (metricas r = getEmptyMetrics /\ errors r <> None) ->
             onlyInputsChanged (db w) (db w') -> clock w' = clock w ->
             exists r,
               fst (o, w') = Ok r /\ bondId r = bid /\ flowsCount r = 0%nat
               /\ (success r = true \/ (metricas r = getEmptyMetrics /\ errors r <> None))
               /\ onlyInputsChanged (db w) (db (snd (o, w'))) /\ clock (snd (o, w')) = clock w)
    as Hpack by (intros o w' r; exists r; auto 10).
  assert (forall e, metricas (failureResponse bid (clock w) e) = getEmptyMetrics
                    /\ errors (failureResponse bid (clock w) e) <> None) as Hfail
    by (intros e; split; [reflexivity|discriminate]).
  destruct (findBond bid (db w)) as [bond|].
  - pose proof (convertPure_only_inputs c bond (db w)) as H1.
    destruct (convertPure c bond (db w)) as [[inputs|e] d1]; cbn in H1.
    + cbv zeta. destruct (FinancialCalculator.calculateQuickMetrics _ _ _) as [q|e].
      * eapply Hpack; try reflexivity; [left; reflexivity|exact H1].
      * eapply Hpack; try reflexivity; [right; apply Hfail|exact H1].
    + eapply Hpack; try reflexivity; [right; apply Hfail|apply onlyInputsChanged_refl].
  - eapply Hpack; try reflexivity; [right; apply Hfail|apply onlyInputsChanged_refl].
Qed.

Lemma needsRepair_negative (x y : Json) (n : Z) : n < 0 -> needsRepair x y n = true.
Proof.
  intros Hn. unfold needsRepair.
  destruct x as [| | | |xs|]; cbn; try (rewrite ?orb_true_r; reflexivity).
  unfold lengthDiffers.
  assert ((Z.of_nat (List.length xs) =? n) = false) as -> by (apply Z.eqb_neq; lia).
  cbn. now rewrite !orb_true_r.
Qed.

Lemma repairInflacion_negative (x : Json) (n : Z) :
  n < 0 -> repairInflacion x n = Throw InvalidArrayLength.
Proof.
  intros Hn. unfold repairInflacion, keepableItems.
  assert (forall xs : list Json, lengthDiffers xs n = true) as Hl.
  { intros xs. unfold lengthDiffers.
    assert ((Z.of_nat (List.length xs) =? n) = false) as -> by (apply Z.eqb_neq; lia).
    reflexivity. }
  assert (Array_fill n defaultInflacion = Throw InvalidArrayLength) as Hf.
  { unfold Array_fill. apply Z.ltb_lt in Hn. now rewrite Hn. }
  destruct x; try exact Hf. now rewrite Hl.
Qed.

(** X10. For a stored bond with a negative term the quick metrics always
    fail, whatever its stored series: the repair is attempted, cannot build
    an array of negative length, and is reported as a failed repair; nothing
    is written and the calculator is not called. *)
Theorem calculateQuickMetrics_negative_term (c : Collaborators) (bond : Bond.t)
    (bondCosts : BondCosts.t) (record : CalcInputsRecord.t) (w : World) :
  findBond (Bond.id bond) (db w) = Some bond ->
  Bond.costs bond = Some bondCosts ->
  findInputs (Bond.id bond) (db w) = Some record ->
  Bond.numAnios bond < 0 ->
  calculateQuickMetrics c (Bond.id bond) w
  = (Ok (failureResponse (Bond.id bond) (clock w)
                         (FailedToRepair (Bond.id bond) InvalidArrayLength)), w).
Proof.
  intros Hb Hc Hr Hn. rewrite calculateQuickMetrics_run. unfold quickMetrics.
  rewrite Hb. unfold convertPure. rewrite Hc, Hr. cbv zeta.
  rewrite (needsRepair_negative _ _ _ Hn), (repairInflacion_negative _ _ Hn). reflexivity.
Qed.

Lemma calculateQuickMetrics_negative_term_witness :
  calculateQuickMetrics Sample.collab Sample.bondId1 Sample2.worldNegativeTerm
  = (Ok (failureResponse Sample.bondId1 (clock Sample2.worldNegativeTerm)
                         (FailedToRepair Sample.bondId1 InvalidArrayLength)),
     Sample2.worldNegativeTerm).
Proof.
  apply (calculateQuickMetrics_negative_term Sample.collab Sample2.bondNegativeTerm
           Sample.someCosts Sample.goodInputs Sample2.worldNegativeTerm);
    [reflexivity|reflexivity|reflexivity|cbn; lia].
Defined.

(** X11. The quick metrics do not apply the field validation of
    [calculateBond]: whatever the nominal value, the commercial value, the
    term and the rate of the stored bond, once its record converts, the
    inputs go to the calculator and its answer is returned. *)
Theorem calculateQuickMetrics_skips_field_validation (c : Collaborators) (bid : string)
    (bond : Bond.t) (inputs : CalculationInputs.t) (w w1 : World) :
  findBond bid (db w) = Some bond ->
  convertBondToCalculationInputs c bond w = (Ok inputs, w1) ->
  calculateQuickMetrics c bid w
  = (Ok (match FinancialCalculator.calculateQuickMetrics (calculator c) (clock w) inputs with
         | Ok q => quickResponse bid (clock w) q
         | Throw e => failureResponse bid (clock w) e
         end),
     logCalculatorCall inputs w1).
Proof.
  intros Hb. rewrite convertBondToCalculationInputs_run, calculateQuickMetrics_run.
  unfold quickMetrics. rewrite Hb.
  destruct (convertPure c bond (db w)) as [[i|e] d1]; cbn [fst snd]; [|discriminate].
  intros H. injection H as <- <-. cbv zeta.
  destruct (FinancialCalculator.calculateQuickMetrics _ _ _); reflexivity.
Qed.

Lemma calculateQuickMetrics_skips_field_validation_witness :
  bondFieldErrors Sample.bondZeroNominal = [ValorNominalInvalido]
  /\ exists r w',
       calculateQuickMetrics Sample.collab Sample.bondId1 Sample.worldZeroNominal = (Ok r, w')
       /\ success r = true
       /\ List.length (calculatorCalls w') = 1%nat.
Proof.
  split; [reflexivity|].
  destruct (convertBondToCalculationInputs Sample.collab Sample.bondZeroNominal
              Sample.worldZeroNominal) as [[inputs|e] w1] eqn:E;
    [|vm_compute in E; discriminate].
  pose proof (calculateQuickMetrics_skips_field_validation Sample.collab Sample.bondId1
                Sample.bondZeroNominal inputs Sample.worldZeroNominal w1 eq_refl E) as H.
  eexists _, _. split; [exact H|].
  vm_compute in E. injection E as <- <-. split; reflexivity.
Defined.

(** ** From a saved calculation to the stored one *)

















(** ** Batches *)

Lemma calculateBond_progress (c : Collaborators) (request : CalculateBondRequest) (w : World) :
  progress (snd (calculateBond c request w)) = progress w.
Proof.
  rewrite calculateBond_run. destruct (isCuid (req_bondId request)); [|reflexivity].
  rewrite calculateBondBody_run.
  assert (forall s, progress (snd (recalculation c (req_bondId request) s w)) = progress w)
    as Hrec.
  { intros s.
    destruct (recalculation_cases c (req_bondId request) s w)
      as [[e ->]|(bond & inputs & d1 & _ & _ & _ & _ & H)]; [reflexivity|].
    destruct H as [[e ->]|[(result & _ & _ & ->)|(result & d2 & _ & _ & _ & ->)]];
      reflexivity. }
  destruct (orDefault (req_recalculate request) false).
  - specialize (Hrec (orDefault (req_saveResults request) true)).
    destruct (recalculation _ _ _ w) as [[r|e] w']; exact Hrec.
  - destruct (existingCalculation _ (db w)); [reflexivity|].
    specialize (Hrec (orDefault (req_saveResults request) true)).
    destruct (recalculation _ _ _ w) as [[r|e] w']; exact Hrec.
Qed.

Lemma settledEntry_settles (c : Collaborators) (bid : string) (w : World) :
  exists r w',
    settledEntry c bid w = (Ok r, w') /\ settledFor bid r /\ progress w' = progress w.
Proof.
  unfold settledEntry, settledFor, tryCatch.
  pose proof (calculateBond_progress c {| req_bondId := bid; req_recalculate := Some true;
                                          req_saveResults := Some true |} w) as Hp.
  fold (processBond c bid) in Hp.
  destruct (processBond_run c bid w) as [[Hcuid Hrun]|(Hcuid & r & w' & Hrun & Hid)];
    rewrite Hcuid, Hrun in *.
  - eexists _, _. split; [reflexivity|]. repeat split.
  - exists r, w'. auto.
Qed.

Lemma allSettled_settles (c : Collaborators) (batch : list string) (w : World) :
  exists rs w',
    allSettled c batch w = (Ok rs, w')
    /\ Forall2 settledFor batch rs /\ progress w' = progress w.
Proof.
  revert w. induction batch as [|bid batch IH]; intros w; cbn [allSettled].
  - exists [], w. repeat split. constructor.
  - destruct (settledEntry_settles c bid w) as (r & w1 & Hr & Hs & Hp).
    destruct (IH w1) as (rs & w2 & Hrs & Hss & Hp2).
    exists (r :: rs), w2. unfold bind, ret. rewrite Hr, Hrs.
    split; [reflexivity|]. split; [now constructor|congruence].
Qed.





Lemma parallelLoop_never_ends (c : Collaborators) (ids : list string) (b : Z) (notify : bool)
    (fuel : nat) (i : Z) (results : list BondCalculationResponse) (w : World) :
  b <= 0 -> i < Z.of_nat (List.length ids) ->
  fst (parallelLoop c ids b notify fuel i results w) = Ok None.
Proof.
  intros Hb. revert i results w.
  induction fuel as [|fuel IH]; intros i results w Hi; cbn [parallelLoop];
    apply Z.ltb_lt in Hi as Hlt; rewrite Hlt; [reflexivity|].
  destruct (allSettled_settles c (slice ids i (i + b)) w) as (rs & w1 & Hrs & _).
  unfold bind at 1. rewrite Hrs. unfold bind at 1. unfold notifyProgress at 1.
  apply IH. lia.
Qed.

(** X14. In parallel mode with a batch size of zero or less and at least
    one id, the loop of [calculateMultipleBonds] never ends: its index never
    reaches the number of ids, whatever the number of iterations allowed. *)
Theorem calculateMultipleBonds_nonpositive_batch_never_ends (c : Collaborators) (fuel : nat)
    (bid : string) (ids : list string) (options : Options) (w : World) :
  orDefault (parallel options) false = true ->
  orDefault (batchSize options) 5 <= 0 ->
  fst (calculateMultipleBonds c fuel (bid :: ids) options w) = Ok None.
Proof.
  intros Hpar Hb. unfold calculateMultipleBonds. rewrite Hpar.
  apply parallelLoop_never_ends; [exact Hb|cbn [List.length]; lia].
Qed.

Lemma calculateMultipleBonds_nonpositive_batch_never_ends_witness :
  fst (calculateMultipleBonds Sample.collab 1000 [Sample.bondId1; Sample2.bondId2]
         {| parallel := Some true; batchSize := Some (-1); onProgress := false |}
         Sample2.worldTwo) = Ok None.
Proof.
  apply (calculateMultipleBonds_nonpositive_batch_never_ends Sample.collab 1000
           Sample.bondId1 [Sample2.bondId2]
           {| parallel := Some true; batchSize := Some (-1); onProgress := false |}
           Sample2.worldTwo); [reflexivity|cbn; lia].
Defined.

Lemma sequentialLoop_progress (c : Collaborators) (ids : list string) (total : Z)
    (i : Z) (results : list BondCalculationResponse) (w : World) :
  forallb isCuid ids = true ->
  progress (snd (sequentialLoop c ids total true i results w))
  = rev (map (fun k => (i + Z.of_nat k, total)) (seq 1 (List.length ids))) ++ progress w.
Proof.
  revert i results w. induction ids as [|bid ids IH]; intros i results w Hids;
    cbn [sequentialLoop]; [reflexivity|].
  cbn [forallb] in Hids. apply andb_prop in Hids as [Hcuid Hids].
  pose proof (calculateBond_progress c {| req_bondId := bid; req_recalculate := Some true;
                                          req_saveResults := Some true |} w) as Hp.
  fold (processBond c bid) in Hp.
  destruct (processBond_run c bid w) as [[Hno _]|(_ & r & w1 & Hrun & _)]; [congruence|].
  rewrite Hrun in Hp. cbn [snd] in Hp.
  unfold bind at 1. rewrite Hrun. unfold bind at 1. unfold notifyProgress at 1.
  rewrite IH by exact Hids. cbn [logProgress progress List.length seq map rev].
  rewrite Hp, <- (seq_shift (List.length ids) 1), map_map, <- app_assoc. cbn [app].
  change (i + Z.of_nat 1) with (i + 1).
  replace (map (fun x => (i + Z.of_nat (S x), total)) (seq 1 (List.length ids)))
    with (map (fun k => (i + 1 + Z.of_nat k, total)) (seq 1 (List.length ids)));
    [reflexivity|].
  apply map_ext. intros k. f_equal. lia.
Qed.

(** X15. In sequential mode, for ids that are all cuids and with an
    [onProgress] callback, the callback is called once after each bond, in
    order, with [(1, n)], [(2, n)], ..., [(n, n)]; without a callback nothing
    is notified. *)
Theorem calculateMultipleBonds_sequential_progress (c : Collaborators) (fuel : nat)
    (ids : list string) (options : Options) (w : World) :
  orDefault (parallel options) false = false ->
  forallb isCuid ids = true ->
  onProgress options = true ->
  progress (snd (calculateMultipleBonds c fuel ids options w))
  = sequentialProgress (List.length ids) ++ progress w.
Proof.
  intros Hseq Hids Hnotify. unfold calculateMultipleBonds. rewrite Hseq, Hnotify.
  pose proof (sequentialLoop_progress c ids (Z.of_nat (List.length ids)) 0 [] w Hids) as H.
  unfold bind, ret.
  destruct (sequentialLoop c ids (Z.of_nat (List.length ids)) true 0 [] w) as [[rs|e] w'];
    cbn [snd] in *; rewrite H; reflexivity.
Qed.

Lemma calculateMultipleBonds_sequential_progress_witness :
  progress (snd (calculateMultipleBonds Sample.collab 0 [Sample.bondId1; Sample2.bondId2]
                   {| parallel := None; batchSize := None; onProgress := true |}
                   Sample2.worldTwo))
  = [(2, 2); (1, 2)].
Proof.
  exact (calculateMultipleBonds_sequential_progress Sample.collab 0
           [Sample.bondId1; Sample2.bondId2]
           {| parallel := None; batchSize := None; onProgress := true |}
           Sample2.worldTwo eq_refl eq_refl eq_refl).
Defined.

(** ** The recalculation script *)

Lemma recalculateOne_counts (c : Collaborators) (summary : ScriptSummary) (bond : Bond.t)
    (w : World) :
  exists summary' w',
    recalculateOne c summary bond w = (Ok summary', w')
    /\ (successCount summary' + errorCount summary'
        = S (successCount summary + errorCount summary))%nat
    /\ (isCuid (Bond.id bond) = false ->
        errorCount summary' = S (errorCount summary) /\ w' = w).
Proof.
  unfold recalculateOne, tryCatch, bind, ret.
  fold (processBond c (Bond.id bond)).
  destruct (processBond_run c (Bond.id bond) w)
    as [[Hcuid Hrun]|(Hcuid & r & w' & Hrun & _)]; rewrite Hrun.
  - eexists _, _. split; [reflexivity|]. cbn. split; [lia|]. intros _. split; reflexivity.
  - destruct (success r); eexists _, _; (split; [reflexivity|]); cbn;
      (split; [lia|congruence]).
Qed.

Lemma recalculateLoop_counts (c : Collaborators) (allBonds : list Bond.t)
    (summary : ScriptSummary) (w : World) :
  exists summary' w',
    recalculateLoop c allBonds summary w = (Ok summary', w')
    /\ (successCount summary' + errorCount summary'
        = successCount summary + errorCount summary + List.length allBonds)%nat
    /\ (errorCount summary
        + List.length (filter (fun b => negb (isCuid (Bond.id b))) allBonds)
        <= errorCount summary')%nat.
Proof.
  revert summary w. induction allBonds as [|bond rest IH]; intros summary w;
    cbn [recalculateLoop].
  - exists summary, w. cbn. repeat split; lia.
  - destruct (recalculateOne_counts c summary bond w) as (s1 & w1 & H1 & Hsum & Hbad).
    destruct (IH s1 w1) as (s2 & w2 & H2 & Hsum2 & Herr2).
    exists s2, w2. unfold bind. rewrite H1, H2. split; [reflexivity|].
    cbn [List.length filter]. split; [lia|].
    destruct (isCuid (Bond.id bond)) eqn:Hcuid; cbn [negb List.length].
    + assert (errorCount summary <= errorCount s1)%nat; [|lia].
      unfold recalculateOne, tryCatch, bind, ret in H1.
      revert H1. repeat break_match; intros H1; injection H1 as <- _; cbn; lia.
    + destruct (Hbad eq_refl) as [He _]. lia.
Qed.

(** X16. The recalculation script never stops on a bond: whatever the bonds
    read at the start, the loop ends having counted each of them once, as a
    success or as an error, and every bond whose id the request schema refuses
    is among the errors. *)
Theorem recalculateAllBonds_counts_every_bond (c : Collaborators) (allBonds : list Bond.t)
    (w : World) :
  exists summary w',
    recalculateAllBonds c allBonds w = (Ok summary, w')
    /\ (successCount summary + errorCount summary = List.length allBonds)%nat
    /\ (List.length (filter (fun b => negb (isCuid (Bond.id b))) allBonds)
        <= errorCount summary)%nat.
Proof.
  unfold recalculateAllBonds.
  destruct (recalculateLoop_counts c allBonds {| successCount := 0; errorCount := 0 |} w)
    as (summary & w' & Hrun & Hsum & Herr).
  exists summary, w'. cbn in Hsum, Herr. repeat split; [exact Hrun|lia|lia].
Qed.

(** ** The input builder of the wizard *)

Lemma nth_error_setAt {A : Type} (l : list A) (n k : nat) (v : A) :
  (n < List.length l)%nat ->
  nth_error (Step4Dynamic.setAt l n v) k = if (k =? n)%nat then Some v else nth_error l k.
Proof.
  revert n k. induction l as [|x l IH]; intros n k Hn; cbn in Hn; [lia|].
  destruct n as [|n]; destruct k as [|k]; cbn; try reflexivity.
  apply IH. lia.
Qed.

Lemma applyGraceConfig_nth (years : Z) (g : list (option Step4Dynamic.GraceType))
    (config : Step4Dynamic.GracePeriodConfig) (k : Z) :
  Z.of_nat (List.length g) = years -> 0 <= k < years ->
  nth_error (Step4Dynamic.applyGraceConfig years g config) (Z.to_nat k)
  = if yearIndexOf config =? k then Some (Some (Step4Dynamic.graceType config))
    else nth_error g (Z.to_nat k).
Proof.
  intros Hlen Hk. unfold Step4Dynamic.applyGraceConfig, yearIndexOf.
  set (y := (Step4Dynamic.couponNumber config - 1) / 2).
  destruct (y <? years) eqn:Hy.
  - apply Z.ltb_lt in Hy. unfold Step4Dynamic.arrayAssign.
    destruct (y <? 0) eqn:Hneg.
    + apply Z.ltb_lt in Hneg.
      assert ((y =? k) = false) as -> by (apply Z.eqb_neq; lia). reflexivity.
    + apply Z.ltb_ge in Hneg.
      assert ((Z.to_nat y <? List.length g)%nat = true) as -> by (apply Nat.ltb_lt; lia).
      rewrite nth_error_setAt by lia.
      destruct (y =? k) eqn:E.
      * apply Z.eqb_eq in E. subst k. now rewrite Nat.eqb_refl.
      * apply Z.eqb_neq in E.
        assert ((Z.to_nat k =? Z.to_nat y)%nat = false) as -> by (apply Nat.eqb_neq; lia).
        reflexivity.
  - apply Z.ltb_ge in Hy.
    assert ((y =? k) = false) as -> by (apply Z.eqb_neq; lia). reflexivity.
Qed.

Lemma fold_applyGraceConfig_nth (years : Z)
    (configs : list Step4Dynamic.GracePeriodConfig)
    (g : list (option Step4Dynamic.GraceType)) (k : Z) (current : Step4Dynamic.GraceType) :
  Z.of_nat (List.length g) = years -> 0 <= k < years ->
  nth_error g (Z.to_nat k) = Some (Some current) ->
  nth_error (fold_left (Step4Dynamic.applyGraceConfig years) configs g) (Z.to_nat k)
  = Some (Some (fold_left (fun t config => if yearIndexOf config =? k
                                           then Step4Dynamic.graceType config else t)
                          configs current)).
Proof.
  revert g current. induction configs as [|config configs IH]; intros g current Hlen Hk Hg;
    cbn [fold_left]; [exact Hg|].
  apply IH; [|exact Hk|].
  - rewrite applyGraceConfig_length by exact Hlen. exact Hlen.
  - rewrite applyGraceConfig_nth by assumption.
    destruct (yearIndexOf config =? k); [reflexivity|exact Hg].
Qed.

(** X17. In the series built by the wizard, the grace code of year [k] is
    the type of the last configuration whose coupon falls in that year
    (coupons [2k + 1] and [2k + 2]), 'S' when there is none, and the inflation
    of every year is the parsed annual inflation; a configuration whose coupon
    falls outside the term changes nothing and no element is left empty. *)
Theorem buildCalculationInputs_series (parseInt : string -> option Z)
    (parseFloat : string -> option Q) (bondData : Step4Dynamic.BondData)
    (ui : Step4Dynamic.UiInputs) (k : Z) :
  Step4Dynamic.buildCalculationInputs parseInt parseFloat bondData = Ok ui ->
  0 <= k < Step4Dynamic.ui_numAnios ui ->
  nth_error (Step4Dynamic.ui_graciaSerie ui) (Z.to_nat k)
  = Some (Some (graceOfYear k (orDefault (Step4Dynamic.gracePeriodsConfig bondData) [])))
  /\ nth_error (Step4Dynamic.ui_inflacionSerie ui) (Z.to_nat k)
     = Some (parseFloat (Step4Dynamic.orString (Step4Dynamic.inflacionAnual bondData) "0.10")).
Proof.
  unfold Step4Dynamic.buildCalculationInputs.
  destruct (parseInt _) as [years|]; [|discriminate].
  destruct (Array_fill years (parseFloat _)) as [inflacionSerie|] eqn:HI; [|discriminate].
  destruct (Array_fill years (Some Step4Dynamic.GraceS)) as [filled|] eqn:HG; [|discriminate].
  intros H Hk. injection H as <-. cbn [Step4Dynamic.ui_numAnios Step4Dynamic.ui_graciaSerie
    Step4Dynamic.ui_inflacionSerie] in *.
  pose proof (Array_fill_length _ _ _ HG) as [LG EG].
  pose proof (Array_fill_length _ _ _ HI) as [LI EI].
  assert (forall (A : Type) (v : A), nth_error (repeat v (Z.to_nat years)) (Z.to_nat k) = Some v)
    as Hrepeat.
  { intros A v. rewrite nth_error_repeat by lia. reflexivity. }
  split.
  - unfold graceOfYear. apply fold_applyGraceConfig_nth; [exact LG|exact Hk|].
    rewrite EG. apply Hrepeat.
  - rewrite EI. apply Hrepeat.
Qed.

Lemma buildCalculationInputs_series_witness :
  exists ui,
    Step4Dynamic.buildCalculationInputs (fun _ => Some 3) (fun _ => Some (1 # 10))
      {| Step4Dynamic.numAnios := Some "3"; Step4Dynamic.inflacionAnual := Some "0.10";
         Step4Dynamic.gracePeriodsConfig :=
           Some [ {| Step4Dynamic.couponNumber := 3;
                     Step4Dynamic.graceType := Step4Dynamic.GraceT |};
                  {| Step4Dynamic.couponNumber := 4;
                     Step4Dynamic.graceType := Step4Dynamic.GraceP |};
                  {| Step4Dynamic.couponNumber := 9;
                     Step4Dynamic.graceType := Step4Dynamic.GraceT |} ] |} = Ok ui
    /\ nth_error (Step4Dynamic.ui_graciaSerie ui) 1 = Some (Some Step4Dynamic.GraceP).
Proof.
  eexists. split; [reflexivity|].
  refine (proj1 (buildCalculationInputs_series (fun _ => Some 3) (fun _ => Some (1 # 10))
                   _ _ 1 eq_refl _)).
  cbn. lia.
Defined.

(** X18. The builder of the wizard returns exactly when the number of years
    parses to an integer between 0 and 2^32 - 1; a text that does not parse,
    a negative number or a larger one makes [Array(numAnios)] throw. *)
Theorem buildCalculationInputs_returns_iff (parseInt : string -> option Z)
    (parseFloat : string -> option Q) (bondData : Step4Dynamic.BondData) :
  (exists ui, Step4Dynamic.buildCalculationInputs parseInt parseFloat bondData = Ok ui)
  <-> (exists years,
          parseInt (Step4Dynamic.orString (Step4Dynamic.numAnios bondData) "5") = Some years
          /\ 0 <= years <= maxArrayLength).
Proof.
  unfold Step4Dynamic.buildCalculationInputs.
  destruct (parseInt _) as [years|].
  - split.
    + intros [ui H]. exists years. split; [reflexivity|].
      destruct (Array_fill years (parseFloat _)) as [inflacionSerie|e] eqn:HI;
        [|discriminate].
      unfold Array_fill in HI.
      destruct (years <? 0) eqn:A; [discriminate|].
      destruct (maxArrayLength <? years) eqn:B; [discriminate|].
      apply Z.ltb_ge in A, B. lia.
    + intros (y & Hy & Hrange). injection Hy as <-.
      rewrite !Array_fill_total by exact Hrange. eauto.
  - split; [intros [ui H]; discriminate|intros (y & Hy & _); discriminate].
Qed.

Lemma buildCalculationInputs_returns_iff_witness :
  exists ui,
    Step4Dynamic.buildCalculationInputs (fun _ => Some 2) (fun _ => Some (1 # 10))
      {| Step4Dynamic.numAnios := Some "2"; Step4Dynamic.inflacionAnual := None;
         Step4Dynamic.gracePeriodsConfig := None |} = Ok ui.
Proof.
  apply (proj2 (buildCalculationInputs_returns_iff (fun _ => Some 2) (fun _ => Some (1 # 10))
                  {| Step4Dynamic.numAnios := Some "2"; Step4Dynamic.inflacionAnual := None;
                     Step4Dynamic.gracePeriodsConfig := None |})).
  exists 2. split; [reflexivity|]. unfold maxArrayLength. lia.
Defined.

(** ** The validation of the fields of a bond *)

(** X19. [validateBondForCalculation] lets a bond pass, changing nothing,
    exactly when its nominal value and its commercial value are positive, its
    term is positive and its annual rate is not negative; otherwise it throws
    the list of the failing fields, each reported exactly when it fails. *)
Theorem validateBondForCalculation_passes_iff (bond : Bond.t) (w : World) :
  (validBond bond <-> validateBondForCalculation bond w = (Ok tt, w))
  /\ (~ validBond bond ->
      validateBondForCalculation bond w = (Throw (BonoInvalido (bondFieldErrors bond)), w))
  /\ (In ValorNominalInvalido (bondFieldErrors bond) <-> (Bond.valorNominal bond <= 0)%Q)
  /\ (In ValorComercialInvalido (bondFieldErrors bond) <-> (Bond.valorComercial bond <= 0)%Q)
  /\ (In NumeroAniosInvalido (bondFieldErrors bond) <-> Bond.numAnios bond <= 0)
  /\ (In TasaAnualInvalida (bondFieldErrors bond) <-> (Bond.tasaAnual bond < 0)%Q).
Proof.
  unfold validateBondForCalculation, validBond, bondFieldErrors, isNegative, isZero,
    Qlt, Qle, ret, throw.
  cbn [Qnum Qden].
  destruct (Qnum (Bond.valorNominal bond) <? 0) eqn:N1;
    destruct (Qnum (Bond.valorNominal bond) =? 0) eqn:N2;
    destruct (Qnum (Bond.valorComercial bond) <? 0) eqn:C1;
    destruct (Qnum (Bond.valorComercial bond) =? 0) eqn:C2;
    destruct (Bond.numAnios bond <=? 0) eqn:A;
    destruct (Qnum (Bond.tasaAnual bond) <? 0) eqn:T;
    rewrite ?Z.ltb_lt, ?Z.ltb_ge, ?Z.eqb_eq, ?Z.eqb_neq, ?Z.leb_le, ?Z.leb_gt in *;
    cbn [orb app In];
    repeat split; intros;
    repeat match goal with
           | H : _ /\ _ |- _ => destruct H
           | H : _ \/ _ |- _ => destruct H
           | H : False |- _ => destruct H
           end;
    try discriminate; try reflexivity; try lia; try (exfalso; lia);
    try (left; reflexivity); try (right; left; reflexivity);
    try (right; right; left; reflexivity); try (right; right; right; left; reflexivity);
    try match goal with
        | H : ~ _ |- _ => exfalso; apply H; repeat split; lia
        end.
Qed.

Lemma validateBondForCalculation_passes_iff_witness :
  validateBondForCalculation Sample.bond1 Sample.worldGood = (Ok tt, Sample.worldGood)
  /\ validateBondForCalculation Sample.bondZeroNominal Sample.worldGood
     = (Throw (BonoInvalido [ValorNominalInvalido]), Sample.worldGood).
Proof.
  split.
  - apply (proj1 (validateBondForCalculation_passes_iff Sample.bond1 Sample.worldGood)).
    unfold validBond, Qlt, Qle. cbn. lia.
  - apply (proj1 (proj2 (validateBondForCalculation_passes_iff Sample.bondZeroNominal
                           Sample.worldGood))).
    unfold validBond, Qlt. cbn. lia.
Defined.
